(** * gym-dev: authentication and authorization core

    A shallow embedding of the authentication subsystem of the gym-management
    backend (TypeScript, Express, Prisma): the token utilities
    ([jwt.util.ts]), the password utilities ([password.util.ts]), the
    authentication service ([auth.service.ts]), the user service
    ([user.service.ts]), the Prisma user repository and the three request
    middlewares ([authenticate], [authorize], [validateGymAccess]).

    Conventions of the embedding:
    - a JavaScript string is a [string] (its UTF-8 bytes);
    - a value that may be [undefined] is an [option];
    - a [throw] (or a rejected promise) is the [Throw] case of [Result];
    - an [async] method of a service is a state-passing function over the
      table of users;
    - what the runtime supplies during a call (the clock, the random salt,
      the identifier the database generates) is an explicit argument. *)

From Stdlib Require Import ZArith String Ascii List Bool Lia.
From stdpp Require Import base option list strings gmap countable.
From Stdlib Require Import Sorted DecimalString.

Open Scope string_scope.

(* ===================================================================== *)
(** * JavaScript values and string primitives *)
(* ===================================================================== *)

Module Js.

(** The values a parsed query string or JSON body can hold under a key.
    Arrays and nested objects are kept opaque ([JObject]): they are truthy
    and never strictly equal to a string. *)
Inductive JsVal :=
| JUndefined
| JNull
| JBool (b : bool)
| JNum (n : Z)
| JStr (s : string)
| JObject (ref : nat).

#[global] Instance JsVal_eq_dec : EqDecision JsVal.
Proof. solve_decision. Defined.

(** [!!s] for a string: only the empty string is falsy. *)
Definition str_truthy (s : string) : bool :=
  match s with
  | EmptyString => false
  | String _ _ => true
  end.

(** [!!v]: [undefined], [null], [false], [0] and [''] are falsy. *)
Definition truthy (v : JsVal) : bool :=
  match v with
  | JUndefined | JNull => false
  | JBool b => b
  | JNum n => negb (n =? 0)%Z
  | JStr s => str_truthy s
  | JObject _ => true
  end.

(** [a || b]. *)
Definition or (a b : JsVal) : JsVal := if truthy a then a else b.

(** [a && b]. *)
Definition and (a b : JsVal) : JsVal := if truthy a then b else a.

(** A property read [obj.key] on a string-valued object
    ([req.params], [req.cookies], [req.headers]). *)
Definition of_opt (o : option string) : JsVal :=
  match o with
  | Some s => JStr s
  | None => JUndefined
  end.

(** A property read on an object of arbitrary values. *)
Definition get (o : gmap string JsVal) (k : string) : JsVal :=
  default JUndefined (o !! k).

(** [!!o] and [a || b] on values of type [string | undefined]. *)
Definition opt_truthy (o : option string) : bool :=
  match o with
  | Some s => str_truthy s
  | None => false
  end.

Definition opt_or (a b : option string) : option string :=
  if opt_truthy a then a else b.

(** [v !== s] for a string [s]. *)
Definition strict_neq_str (v : JsVal) (s : string) : bool :=
  match v with
  | JStr t => negb (String.eqb t s)
  | _ => true
  end.

(** [s.substring(n)]. *)
Fixpoint drop_str (n : nat) (s : string) : string :=
  match n, s with
  | O, _ => s
  | S n', String _ s' => drop_str n' s'
  | S _, EmptyString => EmptyString
  end.

(** [s.replace(pat, rep)] with a string pattern: the first occurrence of
    [pat] (the leftmost one) is replaced, the rest of [s] is kept. *)
Fixpoint replace (pat rep s : string) : string :=
  if String.prefix pat s then rep ++ drop_str (String.length pat) s
  else match s with
       | EmptyString => EmptyString
       | String c s' => String c (replace pat rep s')
       end.

(** [s.split('.')]: never empty, [''.split('.')] is [['']]. *)
Fixpoint split_dot (s : string) : list string :=
  match s with
  | EmptyString => [EmptyString]
  | String c s' =>
      if Ascii.eqb c "."%char then EmptyString :: split_dot s'
      else match split_dot s' with
           | x :: r => String c x :: r
           | [] => [String c EmptyString]
           end
  end.

(** [pat] occurs in [s] at offset [i]. *)
Definition occurs_at (pat : string) (i : nat) (s : string) : bool :=
  String.prefix pat (drop_str i s).

(** [s.includes(pat)]. *)
Fixpoint includes (pat s : string) : bool :=
  String.prefix pat s ||
  match s with
  | EmptyString => false
  | String _ s' => includes pat s'
  end.

End Js.

(* ===================================================================== *)
(** * Errors and results *)
(* ===================================================================== *)

(** Modelled from the spec: the class [AppError] of
    [shared/errors/app-error], which the sources import and construct as
    [new AppError(message, statusCode)] and whose two fields the error
    handler reads ("every domain error carries its HTTP status and
    message"). *)
Record AppError := mkAppError { message : string; statusCode : Z }.

#[global] Instance AppError_eq_dec : EqDecision AppError.
Proof. solve_decision. Defined.

(** What the [jsonwebtoken] package can raise: its own three classes
    ([TokenExpiredError] and [NotBeforeError] are subclasses of
    [JsonWebTokenError]), or an error of a class that is not its own. *)
Inductive JwtError :=
| JsonWebTokenError (msg : string)
| TokenExpiredError (msg : string)
| NotBeforeError (msg : string)
| UnclassifiedError (cls msg : string).

#[global] Instance JwtError_eq_dec : EqDecision JwtError.
Proof. solve_decision. Defined.

(** What a [throw] can carry, by the classes the sources test with
    [instanceof]. *)
Inductive Thrown :=
| ThrownApp (e : AppError)
| ThrownError (msg : string)
| ThrownJwt (e : JwtError)
| ThrownPrisma (code : string)
| ThrownOther (cls msg : string).

#[global] Instance Thrown_eq_dec : EqDecision Thrown.
Proof. solve_decision. Defined.

Definition instanceof_AppError (e : Thrown) : bool :=
  match e with ThrownApp _ => true | _ => false end.

Definition instanceof_TokenExpiredError (e : JwtError) : bool :=
  match e with TokenExpiredError _ => true | _ => false end.

Definition instanceof_JsonWebTokenError (e : JwtError) : bool :=
  match e with
  | JsonWebTokenError _ | TokenExpiredError _ | NotBeforeError _ => true
  | UnclassifiedError _ _ => false
  end.

Inductive Result (A : Type) :=
| Return (a : A)
| Throw (e : Thrown).

Arguments Return {A} a.
Arguments Throw {A} e.

(** The error kinds of the specification, by HTTP status. *)
Inductive ErrorKind :=
| Unauthorized | Forbidden | NotFound | Conflict | BadRequest | Unexpected.

Definition kind_of_status (status : Z) : ErrorKind :=
  if (status =? 401)%Z then Unauthorized
  else if (status =? 403)%Z then Forbidden
  else if (status =? 404)%Z then NotFound
  else if (status =? 409)%Z then Conflict
  else if (status =? 400)%Z then BadRequest
  else Unexpected.

(* ===================================================================== *)
(** * Token codec: the [jsonwebtoken] package and [jwt.util.ts] *)
(* ===================================================================== *)

Inductive Role := ADMIN | INSTRUCTOR | MEMBER.

#[global] Instance Role_eq_dec : EqDecision Role.
Proof. solve_decision. Defined.

(** The Prisma enum [Role] is its name at run time. *)
Definition role_name (r : Role) : string :=
  match r with
  | ADMIN => "ADMIN"
  | INSTRUCTOR => "INSTRUCTOR"
  | MEMBER => "MEMBER"
  end.

Module Jwt.

(** The JSON object a token carries. [jwt.verify] returns it as it was
    decoded, so every claim may be missing; [aud] is the list of audiences
    (a single string is a list of one). *)
Record Claims := mkClaims {
  userId : option string;
  gymId : option string;
  role : option string;
  iat : option Z;
  exp : option Z;
  nbf : option Z;
  iss : option string;
  aud : list string
}.

#[global] Instance Claims_eq_dec : EqDecision Claims.
Proof. solve_decision. Defined.

(** The options the sources pass to [jwt.sign]; [expiresIn] is the span in
    seconds (the package resolves ['15m'] to 900 and ['7d'] to 604800). *)
Record SignOptions := mkSignOptions {
  expiresIn : Z;
  issuer : string;
  audience : string
}.

(** The options the sources pass to [jwt.verify]. *)
Record VerifyOptions := mkVerifyOptions {
  expectedIssuer : string;
  expectedAudience : string
}.

(** [jwt.verify] returns the decoded object or raises. *)
Inductive Verdict :=
| Decoded (c : Claims)
| Raised (e : JwtError).

(** The two entry points of the package the sources call. The last argument
    is the clock, [Math.floor(Date.now() / 1000)]. *)
Class Library := {
  sign : Claims -> string -> SignOptions -> Z -> string;
  verify : string -> string -> VerifyOptions -> Z -> Verdict
}.

End Jwt.

(** ** A model of the package: JWS compact serialization with an HMAC

    The package is not part of the repository. The model follows its
    functions [sign], [verify] and [decode], and [decode] and [verify] of
    its dependency [jws]: a token is [header.payload.signature], three
    base64url segments; [verify] checks, in this order, the number of
    segments, the pattern of a JWS, that the header parses, the payload
    (parsed by [jws.decode] under [typ: 'JWT'], whose [JSON.parse] is not
    guarded), the presence of a signature, the algorithm, the signature,
    [nbf], [exp], the audience and the issuer. The keyed hash, base64url
    and the JSON parser are parameters. *)
Module Jose.

(** The JOSE header as far as the package reads it: a field that is
    missing, or is no string, is [None]. *)
Record Header := mkHeader { alg : option string; typ : option string }.

(** What [JSON.parse] makes of a text: it raises a [SyntaxError] with a
    message, or returns [null], a string, or another value with the claims
    it has (an object has its fields; a number, a boolean, an array have
    none). *)
Inductive Json :=
| NotJson (msg : string)
| JsonNull
| JsonText (s : string)
| JsonValue (c : Jwt.Claims).

Class Codec := {
  (** [jwa(alg).sign(input, secret)]: the base64url signature. *)
  jwa_sign : string -> string -> string -> string;
  (** base64url of the JSON header [{alg, typ: 'JWT'}]. *)
  encode_header : string -> string;
  (** [headerFromJWS]: the header segment decoded and parsed; [None] when
      it is no JSON or a falsy value. *)
  decode_header : string -> option Header;
  (** base64url of the JSON payload. *)
  encode_payload : Jwt.Claims -> string;
  (** [JSON.parse] of the decoded payload segment. *)
  decode_payload : string -> Json;
  (** [JSON.parse]. *)
  json_parse : string -> Json
}.

(** The characters of the JWS pattern [[a-zA-Z0-9\-_]]. *)
Definition is_b64u_char (c : ascii) : bool :=
  let n := nat_of_ascii c in
  (((97 <=? n) && (n <=? 122)) || ((65 <=? n) && (n <=? 90)) ||
   ((48 <=? n) && (n <=? 57)) || (n =? 45) || (n =? 95))%nat.

Fixpoint all_b64u (s : string) : bool :=
  match s with
  | EmptyString => true
  | String c s' => is_b64u_char c && all_b64u s'
  end.

(** A non-empty base64url segment. *)
Definition segment (s : string) : bool := Js.str_truthy s && all_b64u s.

(** What an encoder must produce and a decoder must undo. *)
Class CodecLaws (C : Codec) := {
  decode_encode_header :
    forall a, decode_header (encode_header a) = Some (mkHeader (Some a) (Some "JWT"));
  decode_encode_payload : forall c, decode_payload (encode_payload c) = JsonValue c;
  encode_header_segment : forall a, segment (encode_header a) = true;
  encode_payload_segment : forall c, segment (encode_payload c) = true;
  jwa_sign_segment : forall a k m, segment (jwa_sign a k m) = true
}.

Definition HS_ALGS : list string := ["HS256"; "HS384"; "HS512"].

Definition secured_input (h p : string) : string := h ++ "." ++ p.

Section Package.
Context {C : Codec}.

(** [jwt.sign(payload, secret, {expiresIn, issuer, audience})]. *)
Definition sign (payload : Jwt.Claims) (secret : string)
    (o : Jwt.SignOptions) (now : Z) : string :=
  let claims :=
    Jwt.mkClaims (Jwt.userId payload) (Jwt.gymId payload) (Jwt.role payload)
      (Some now) (Some (now + Jwt.expiresIn o)%Z) (Jwt.nbf payload)
      (Some (Jwt.issuer o)) [Jwt.audience o] in
  let input := secured_input (encode_header "HS256") (encode_payload claims) in
  input ++ "." ++ jwa_sign "HS256" secret input.

(** The claim checks of [jwt.verify], after the signature was accepted. *)
Definition check_claims (c : Jwt.Claims) (o : Jwt.VerifyOptions) (now : Z)
    : Jwt.Verdict :=
  if match Jwt.nbf c with Some n => (now <? n)%Z | None => false end
  then Jwt.Raised (NotBeforeError "jwt not active")
  else if match Jwt.exp c with Some e => (e <=? now)%Z | None => false end
  then Jwt.Raised (TokenExpiredError "jwt expired")
  else if negb (bool_decide (Jwt.expectedAudience o ∈ Jwt.aud c))
  then Jwt.Raised (JsonWebTokenError
                     ("jwt audience invalid. expected: " ++ Jwt.expectedAudience o))
  else if negb (bool_decide (Jwt.iss c = Some (Jwt.expectedIssuer o)))
  then Jwt.Raised (JsonWebTokenError
                     ("jwt issuer invalid. expected: " ++ Jwt.expectedIssuer o))
  else Jwt.Decoded c.

(** The payload of [jwt.decode(token, {complete: true})]: an error that
    leaves [decode], [null], or a value with its claims. *)
Inductive Payload :=
| PayloadRaised (e : JwtError)
| PayloadNull
| PayloadClaims (c : Jwt.Claims).

Definition no_claims : Jwt.Claims :=
  Jwt.mkClaims None None None None None None None [].

(** [jws.decode] parses the payload only under [typ: 'JWT'], and the
    [SyntaxError] of its [JSON.parse] leaves [jwt.decode] and [jwt.verify]
    as it came; [jwt.decode] then parses a payload that is still a string,
    keeps the result when it is an object and ignores a failure. *)
Definition decoded_payload (header : Header) (p : string) : Payload :=
  if bool_decide (typ header = Some "JWT")
  then match decode_payload p with
       | NotJson msg => PayloadRaised (UnclassifiedError "SyntaxError" msg)
       | JsonNull => PayloadNull
       | JsonText text =>
           match json_parse text with
           | JsonValue c => PayloadClaims c
           | _ => PayloadClaims no_claims
           end
       | JsonValue c => PayloadClaims c
       end
  else match decode_payload p with
       | JsonValue c => PayloadClaims c
       | _ => PayloadClaims no_claims
       end.

(** The checks between decoding and the claims: a signature is there, the
    algorithm is one of the HMACs (the secret is a string), and the
    signature is the keyed hash of the first two segments. *)
Definition check_signature (header : Header) (h p s secret : string)
    : option JwtError :=
  if negb (Js.str_truthy s)
  then Some (JsonWebTokenError "jwt signature is required")
  else match alg header with
       | Some a =>
           if negb (bool_decide (a ∈ HS_ALGS))
           then Some (JsonWebTokenError "invalid algorithm")
           else if negb (String.eqb (jwa_sign a secret (secured_input h p)) s)
           then Some (JsonWebTokenError "invalid signature")
           else None
       | None => Some (JsonWebTokenError "invalid algorithm")
       end.

(** What [jwt.verify] does with the three parts of a token: the pattern
    of a JWS, the header, the payload, the signature, the claims. The first
    read of a claim, [payload.nbf], fails on [null]. *)
Definition verify_segments (h p s secret : string) (o : Jwt.VerifyOptions)
    (now : Z) : Jwt.Verdict :=
  if negb (segment h && segment p && all_b64u s)
  then Jwt.Raised (JsonWebTokenError "invalid token")
  else match decode_header h with
  | None => Jwt.Raised (JsonWebTokenError "invalid token")
  | Some header =>
      match decoded_payload header p with
      | PayloadRaised e => Jwt.Raised e
      | PayloadNull =>
          match check_signature header h p s secret with
          | Some e => Jwt.Raised e
          | None =>
              Jwt.Raised
                (UnclassifiedError "TypeError"
                   "Cannot read properties of null (reading 'nbf')")
          end
      | PayloadClaims claims =>
          match check_signature header h p s secret with
          | Some e => Jwt.Raised e
          | None => check_claims claims o now
          end
      end
  end.

(** [jwt.verify(token, secret, {issuer, audience})]. *)
Definition verify (token secret : string) (o : Jwt.VerifyOptions) (now : Z)
    : Jwt.Verdict :=
  if negb (Js.str_truthy token)
  then Jwt.Raised (JsonWebTokenError "jwt must be provided")
  else match Js.split_dot token with
  | [h; p; s] => verify_segments h p s secret o now
  | _ => Jwt.Raised (JsonWebTokenError "jwt malformed")
  end.

(** The package, as the interface the sources use. *)
#[global] Instance library : Jwt.Library :=
  {| Jwt.sign := sign; Jwt.verify := verify |}.

End Package.

End Jose.

(** ** [shared/utils/jwt.util.ts] *)

(** [JWT_CONFIG]: the two secrets and the two lifetimes (in seconds) read
    from the environment when the module is loaded. *)
Record JwtConfig := mkJwtConfig {
  accessSecret : string;
  refreshSecret : string;
  accessExpiresIn : Z;
  refreshExpiresIn : Z
}.

(** The fail-fast check at module load: both secrets must be truthy. *)
Definition jwt_config_loads (cfg : JwtConfig) : Result JwtConfig :=
  if negb (Js.str_truthy (accessSecret cfg)) || negb (Js.str_truthy (refreshSecret cfg))
  then Throw (ThrownError
    "JWT secrets are not defined. Check JWT_SECRET and JWT_REFRESH_SECRET in .env")
  else Return cfg.

(** [JwtPayload] and [RefreshTokenPayload]. *)
Record JwtPayload := mkJwtPayload {
  payload_userId : string;
  payload_gymId : string;
  payload_role : Role
}.

Definition ISSUER : string := "gym-saas-api".
Definition AUDIENCE : string := "gym-saas-client".

Definition access_claims (p : JwtPayload) : Jwt.Claims :=
  Jwt.mkClaims (Some (payload_userId p)) (Some (payload_gymId p))
    (Some (role_name (payload_role p))) None None None None [].

Definition refresh_claims (userId : string) : Jwt.Claims :=
  Jwt.mkClaims (Some userId) None None None None None None [].

Section JwtUtil.
Context {L : Jwt.Library}.
Variable cfg : JwtConfig.

Definition generateAccessToken (now : Z) (payload : JwtPayload) : string :=
  Jwt.sign (access_claims payload) (accessSecret cfg)
    (Jwt.mkSignOptions (accessExpiresIn cfg) ISSUER AUDIENCE) now.

Definition generateRefreshToken (now : Z) (userId : string) : string :=
  Jwt.sign (refresh_claims userId) (refreshSecret cfg)
    (Jwt.mkSignOptions (refreshExpiresIn cfg) ISSUER AUDIENCE) now.

Definition verifyAccessToken (now : Z) (token : string) : Result Jwt.Claims :=
  match Jwt.verify token (accessSecret cfg)
          (Jwt.mkVerifyOptions ISSUER AUDIENCE) now with
  | Jwt.Decoded decoded => Return decoded
  | Jwt.Raised error =>
      if instanceof_TokenExpiredError error
      then Throw (ThrownError "Access token expired")
      else if instanceof_JsonWebTokenError error
      then Throw (ThrownError "Invalid access token")
      else Throw (ThrownJwt error)
  end.

Definition verifyRefreshToken (now : Z) (token : string) : Result Jwt.Claims :=
  match Jwt.verify token (refreshSecret cfg)
          (Jwt.mkVerifyOptions ISSUER AUDIENCE) now with
  | Jwt.Decoded decoded => Return decoded
  | Jwt.Raised error =>
      if instanceof_TokenExpiredError error
      then Throw (ThrownError "Refresh token expired")
      else if instanceof_JsonWebTokenError error
      then Throw (ThrownError "Invalid refresh token")
      else Throw (ThrownJwt error)
  end.

End JwtUtil.

(* ===================================================================== *)
(** * Password hasher: the [bcryptjs] package and [password.util.ts] *)
(* ===================================================================== *)

(** ** A model of the package: the bcrypt digest format

    The package is not part of the repository. The model follows its
    functions [genSalt], [_hash], [_crypt], [base64_encode],
    [base64_decode] and [compare] step by step: a digest is 60 characters,
    [$2a$], the cost in two digits, [$], the 16-byte salt in 22 characters
    of bcrypt's own base64 and the first 23 bytes of the result in 31
    characters; the key schedule reads at most 72 bytes of the
    NUL-terminated UTF-8 password ("the maximum input length is 72 bytes").
    The Blowfish computation itself is a parameter. *)
Module Bcrypt.

Definition BCRYPT_SALT_LEN : nat := 16.

Definition BASE64_CODE : list ascii :=
  list_ascii_of_string
    "./ABCDEFGHIJKLMNOPQRSTUVWXYZabcdefghijklmnopqrstuvwxyz0123456789".

(** [BASE64_CODE[i]]. *)
Definition code (i : N) : ascii := nth (N.to_nat i) BASE64_CODE "."%char.

Fixpoint index_from (i : N) (l : list ascii) (c : ascii) : option N :=
  match l with
  | [] => None
  | x :: l' => if Ascii.eqb x c then Some i else index_from (N.succ i) l' c
  end.

(** [BASE64_INDEX[c]], [None] for -1. *)
Definition index (c : ascii) : option N := index_from 0 BASE64_CODE c.

Definition byte (n : N) : ascii := ascii_of_N (N.land n 255).

(** The four 6-bit groups of three bytes [c1], [c2], [c3]:
    [(c1 >> 2) & 0x3f], [((c1 & 0x03) << 4 | (c2 >> 4) & 0x0f) & 0x3f],
    [((c2 & 0x0f) << 2 | (c3 >> 6) & 0x03) & 0x3f] and [c3 & 0x3f]. *)
Definition sextet1 (c1 : N) : N := N.land (N.shiftr c1 2) 63.

Definition sextet2 (c1 c2 : N) : N :=
  N.land (N.lor (N.shiftl (N.land c1 3) 4) (N.land (N.shiftr c2 4) 15)) 63.

Definition sextet3 (c2 c3 : N) : N :=
  N.land (N.lor (N.shiftl (N.land c2 15) 2) (N.land (N.shiftr c3 6) 3)) 63.

Definition sextet4 (c3 : N) : N := N.land c3 63.

(** The loop of [base64_encode]: three bytes give four characters; a last
    group of one or two bytes gives two or three (the missing byte
    contributes no bit). *)
Fixpoint encode_bytes (b : list ascii) : list ascii :=
  match b with
  | [] => []
  | [x] =>
      let c1 := N_of_ascii x in
      [code (sextet1 c1); code (sextet2 c1 0)]
  | [x; y] =>
      let c1 := N_of_ascii x in
      let c2 := N_of_ascii y in
      [code (sextet1 c1); code (sextet2 c1 c2); code (sextet3 c2 0)]
  | x :: y :: z :: rest =>
      let c1 := N_of_ascii x in
      let c2 := N_of_ascii y in
      let c3 := N_of_ascii z in
      code (sextet1 c1) :: code (sextet2 c1 c2) :: code (sextet3 c2 c3)
      :: code (sextet4 c3) :: encode_bytes rest
  end.

(** [n.toString()] for a number that is no [NaN]. *)
Definition number (n : nat) : string := NilZero.string_of_uint (Nat.to_uint n).

(** [base64_encode(b, len)]: the first [len] bytes of [b]. *)
Definition base64_encode (b : list ascii) (len : nat) : Result string :=
  if (len =? 0)%nat || (length b <? len)%nat
  then Throw (ThrownError ("Illegal len: " ++ number len))
  else Return (string_of_list_ascii (encode_bytes (take len b))).

(** The three bytes of four 6-bit groups: [c1 << 2 | (c2 & 0x30) >> 4],
    [(c2 & 0x0f) << 4 | (c3 & 0x3c) >> 2] and [(c3 & 0x03) << 6 | c4]. *)
Definition octet1 (i1 i2 : N) : ascii :=
  byte (N.lor (N.shiftl i1 2) (N.shiftr (N.land i2 48) 4)).

Definition octet2 (i2 i3 : N) : ascii :=
  byte (N.lor (N.shiftl (N.land i2 15) 4) (N.shiftr (N.land i3 60) 2)).

Definition octet3 (i3 i4 : N) : ascii :=
  byte (N.lor (N.shiftl (N.land i3 3) 6) i4).

(** [base64_decode(s, len)]: at most [len] bytes, stopping at the first
    character outside the alphabet. *)
Fixpoint decode_bytes (s : list ascii) (len : nat) : list ascii :=
  match len, s with
  | S l1, c1 :: c2 :: r =>
      match index c1, index c2 with
      | Some i1, Some i2 =>
          octet1 i1 i2
          :: match l1, r with
             | S l2, c3 :: r3 =>
                 match index c3 with
                 | Some i3 =>
                     octet2 i2 i3
                     :: match l2, r3 with
                        | S l3, c4 :: r4 =>
                            match index c4 with
                            | Some i4 => octet3 i3 i4
                            | None => byte 255
                            end :: decode_bytes r4 l3
                        | _, _ => []
                        end
                 | None => []
                 end
             | _, _ => []
             end
      | _, _ => []
      end
  | _, _ => []
  end.

Definition base64_decode (s : string) (len : nat) : list ascii :=
  decode_bytes (list_ascii_of_string s) len.

(** The expensive key setup and the 64 encryptions of the magic text: 24
    bytes from the cost, the salt and the bytes of the key that the key
    schedule reads. *)
Class Eksblowfish := {
  crypt_raw : nat -> list ascii -> list ascii -> list ascii
}.

Class EksblowfishLaws (B : Eksblowfish) := {
  crypt_raw_length : forall rounds salt key, length (crypt_raw rounds salt key) = 24%nat
}.

(** The 256 bytes. *)
Definition all_bytes : list ascii := map ascii_of_nat (seq 0 256).

(** The bytes of the password the key schedule reads. *)
Definition key_bytes (nul : bool) (s : string) : list ascii :=
  take 72 (list_ascii_of_string s ++ if nul then [zero] else []).

Definition digit (c : ascii) : option nat :=
  let n := nat_of_ascii c in
  if ((48 <=? n) && (n <=? 57))%nat then Some (n - 48)%nat else None.

(** [rounds.toString()], [None] being [NaN]. *)
Definition rounds_string (rounds : option nat) : string :=
  match rounds with
  | Some r => number r
  | None => "NaN"
  end.

(** The cost as a salt string and a digest print it: ['0'] first when
    [rounds < 10] (which [NaN] is not), then [rounds.toString()]. *)
Definition cost_digits (rounds : option nat) : string :=
  match rounds with
  | Some r => if (r <? 10)%nat then "0" else ""
  | None => ""
  end ++ rounds_string rounds.

(** [salt.charAt(i) === c]. *)
Definition char_at_is (i : nat) (c : ascii) (salt : string) : bool :=
  match String.get i salt with
  | Some x => Ascii.eqb x c
  | None => false
  end.

(** [salt.charAt(i) > '$']: the empty string, past the end, is not. *)
Definition char_at_above_dollar (i : nat) (salt : string) : bool :=
  match String.get i salt with
  | Some x => (36 <? nat_of_ascii x)%nat
  | None => false
  end.

(** [parseInt(salt.substring(i, i + 1), 10)]: [None] for [NaN]. *)
Definition parse_digit (i : nat) (salt : string) : option nat :=
  match String.get i salt with
  | Some x => digit x
  | None => None
  end.

(** The first validation of [_hash]: the version [$2], then the revision.
    It gives the minor revision ([None] for [$2$], whose minor is the
    character of code 0) and the offset of the cost. *)
Definition revision (salt : string) : Result (option ascii * nat) :=
  if negb (char_at_is 0 "$" salt) || negb (char_at_is 1 "2" salt)
  then Throw (ThrownError ("Invalid salt version: " ++ substring 0 2 salt))
  else if char_at_is 2 "$" salt then Return (None, 3%nat)
  else
    match String.get 2 salt with
    | Some minor =>
        if negb (Ascii.eqb minor "a" || Ascii.eqb minor "b" || Ascii.eqb minor "y")%char
           || negb (char_at_is 3 "$" salt)
        then Throw (ThrownError ("Invalid salt revision: " ++ substring 2 2 salt))
        else Return (Some minor, 4%nat)
    | None => Throw (ThrownError ("Invalid salt revision: " ++ substring 2 2 salt))
    end.

Section Package.
Context {B : Eksblowfish}.

(** [bcrypt.genSalt(rounds)], from the 16 bytes the random source yields. *)
Definition genSalt (rounds : nat) (random : list ascii) : Result string :=
  let rounds := if (rounds <? 4)%nat then 4%nat
                else if (31 <? rounds)%nat then 31%nat else rounds in
  match base64_encode random BCRYPT_SALT_LEN with
  | Return s => Return ("$2a$" ++ cost_digits (Some rounds) ++ "$" ++ s)
  | Throw e => Throw e
  end.

(** The internal [_crypt(b, salt, rounds)]: its two validations, then the
    Blowfish computation with [1 << rounds] iterations. A cost that is
    [NaN] passes the comparison [rounds < 4 || rounds > 31] and shifts as
    0 does. *)
Definition _crypt (b salt : list ascii) (rounds : option nat)
    : Result (list ascii) :=
  if match rounds with
     | Some r => (r <? 4)%nat || (31 <? r)%nat
     | None => false
     end
  then Throw (ThrownError ("Illegal number of rounds (4-31): " ++ rounds_string rounds))
  else if negb (length salt =? BCRYPT_SALT_LEN)%nat
  then Throw (ThrownError ("Illegal salt length: " ++ number (length salt)
                           ++ " != " ++ number BCRYPT_SALT_LEN))
  else Return (crypt_raw (default 0%nat rounds) salt b).

(** The internal [_hash(s, salt)]: the salt string is validated field by
    field, each failure with its own message; the cost is read with
    [parseInt], digit by digit. *)
Definition _hash (s salt : string) : Result string :=
  match revision salt with
  | Throw e => Throw e
  | Return (minor, offset) =>
      if char_at_above_dollar (offset + 2) salt
      then Throw (ThrownError "Missing salt rounds")
      else
        let rounds :=
          match parse_digit offset salt, parse_digit (offset + 1) salt with
          | Some r1, Some r2 => Some (r1 * 10 + r2)%nat
          | _, _ => None
          end in
        let real_salt := substring (offset + 3) 22 salt in
        let passwordb := key_bytes (bool_decide (is_Some minor)) s in
        let saltb := base64_decode real_salt BCRYPT_SALT_LEN in
        match _crypt passwordb saltb rounds with
        | Throw e => Throw e
        | Return bytes =>
            match base64_encode saltb (length saltb), base64_encode bytes 23 with
            | Return es, Return eb =>
                Return ("$2" ++ match minor with
                                | Some m => String m EmptyString
                                | None => EmptyString
                                end
                        ++ "$" ++ cost_digits rounds ++ "$" ++ es ++ eb)
            | Throw e, _ => Throw e
            | _, Throw e => Throw e
            end
        end
  end.

(** [bcrypt.hash(s, rounds)]. *)
Definition hash (s : string) (rounds : nat) (random : list ascii) : Result string :=
  match genSalt rounds random with
  | Return salt => _hash s salt
  | Throw e => Throw e
  end.

(** [bcrypt.compare(s, hash)]. *)
Definition compare (s hash : string) : Result bool :=
  if negb (String.length hash =? 60)%nat then Return false
  else match _hash s (substring 0 29 hash) with
       | Return comp => Return (String.eqb comp hash)
       | Throw e => Throw e
       end.

End Package.

End Bcrypt.

(** ** [shared/utils/password.util.ts] *)

Definition SALT_ROUNDS : nat := 10.

Section PasswordUtil.
Context {B : Bcrypt.Eksblowfish}.

(** [random]: the 16 bytes drawn from the random source during the call. *)
Definition hashPassword (random : list ascii) (password : string) : Result string :=
  Bcrypt.hash password SALT_ROUNDS random.

Definition comparePassword (password hash : string) : Result bool :=
  Bcrypt.compare password hash.

End PasswordUtil.

(* ===================================================================== *)
(** * Credential records and the user repository *)
(* ===================================================================== *)

(** The model [User] of the Prisma client. Dates are instants ([Z]);
    a nullable column is an [option]. *)
Module Prisma.

Record User := mkUser {
  id : string;
  gymId : string;
  name : string;
  email : string;
  passwordHash : string;
  role : Role;
  cpf : option string;
  phone : option string;
  birthDate : option Z;
  avatarUrl : option string;
  isActive : bool;
  createdAt : Z;
  updatedAt : Z
}.

#[global] Instance User_eq_dec : EqDecision User.
Proof. solve_decision. Defined.

End Prisma.

(** [CreateUserData], [UpdateUserData], [FindManyUsersFilters] and
    [PaginatedResult] of [user-repository.interface.ts]. *)
Record CreateUserData := mkCreateUserData {
  create_gymId : string;
  create_name : string;
  create_email : string;
  create_passwordHash : string;
  create_role : Role;
  create_cpf : option string;
  create_phone : option string;
  create_birthDate : option Z
}.

Record UpdateUserData := mkUpdateUserData {
  update_name : option string;
  update_email : option string;
  update_passwordHash : option string;
  update_role : option Role;
  update_cpf : option string;
  update_phone : option string;
  update_birthDate : option Z;
  update_avatarUrl : option string;
  update_isActive : option bool
}.

Record FindManyUsersFilters := mkFilters {
  filter_gymId : string;
  filter_role : option Role;
  filter_isActive : option bool;
  filter_search : option string;
  filter_page : option Z;
  filter_limit : option Z
}.

Record Meta := mkMeta { total : Z; page : Z; limit : Z; totalPages : Z }.

Record PaginatedResult (A : Type) := mkPaginated { data : list A; meta : Meta }.

Arguments mkPaginated {A} data meta.
Arguments data {A} p.
Arguments meta {A} p.

(** What the runtime supplies during one call: the clock, the bytes of the
    random source, the identifier the database generates for a new row. *)
Record Runtime := mkRuntime {
  clock : Z;
  random : list ascii;
  generatedId : string
}.

(** ** Asynchronous methods: state passing over the table of users *)

Definition Svc (A : Type) : Type :=
  list Prisma.User -> Result A * list Prisma.User.

Definition ret {A} (a : A) : Svc A := fun db => (Return a, db).

Definition throw {A} (e : Thrown) : Svc A := fun db => (Throw e, db).

Definition bind {A B} (m : Svc A) (k : A -> Svc B) : Svc B :=
  fun db =>
    match m db with
    | (Return a, db') => k a db'
    | (Throw e, db') => (Throw e, db')
    end.

(** [await] of a computation that does not touch the table. *)
Definition lift {A} (r : Result A) : Svc A := fun db => (r, db).

(** [try { m } catch (error) { h(error) }]. *)
Definition try_catch {A} (m : Svc A) (h : Thrown -> Svc A) : Svc A :=
  fun db =>
    match m db with
    | (Return a, db') => (Return a, db')
    | (Throw e, db') => h e db'
    end.

Declare Scope svc_scope.
Delimit Scope svc_scope with svc.
Notation "'let*' x ':=' m 'in' k" := (bind m (fun x => k))
  (at level 10, x name, m at level 100, k at level 200) : svc_scope.
Open Scope svc_scope.

(** ** The Prisma user repository ([prisma-user.repository.ts])

    The table is the list of its rows in insertion order. The queries are
    those of the source. The table has the two unique indexes that the
    [findUnique] queries of the source name, [cpf] and [email_gymId] (the
    email within the tenant): a write that would give two rows the same
    value is refused by the client with the error [P2002] and changes
    nothing. A national ID that is [null] collides with none; the empty
    string is a value like any other. The schema is not among the sources:
    what else it may constrain (the relation of a user to its tenant) is
    not modelled. *)
Module PrismaUserRepository.
Import Prisma.

(** A row holds the email in the tenant. *)
Definition holds_email (email0 gymId0 : string) (u : User) : bool :=
  String.eqb (email u) email0 && String.eqb (gymId u) gymId0.

(** A row holds the national ID. *)
Definition holds_cpf (cpf0 : string) (u : User) : bool :=
  bool_decide (cpf u = Some cpf0).

(** [prisma.user.create({ data })]. The columns the data does not give take
    the defaults of the table: a generated [id], no [avatarUrl], [isActive]
    true (the login of a freshly registered user relies on it) and both
    timestamps at the clock. The row is refused when its email is held in
    its tenant, or its national ID is held. *)
Definition create (rt : Runtime) (d : CreateUserData) : Svc User :=
  fun db =>
    let u := mkUser (generatedId rt) (create_gymId d) (create_name d)
               (create_email d) (create_passwordHash d) (create_role d)
               (create_cpf d) (create_phone d) (create_birthDate d)
               None true (clock rt) (clock rt) in
    if existsb (holds_email (create_email d) (create_gymId d)) db
       || match create_cpf d with
          | Some c => existsb (holds_cpf c) db
          | None => false
          end
    then (Throw (ThrownPrisma "P2002"), db)
    else (Return u, (db ++ [u])%list).

Definition findById (id0 : string) : Svc (option User) :=
  fun db => (Return (find (fun u => String.eqb (id u) id0) db), db).

Definition findByEmailAndGymId (email0 gymId0 : string) : Svc (option User) :=
  fun db =>
    (Return (find (fun u => String.eqb (email u) email0
                            && String.eqb (gymId u) gymId0) db), db).

Definition count (where_ : User -> bool) (db : list User) : nat :=
  length (filter (fun u => where_ u = true) db).

Definition existsByEmailAndGymId (email0 gymId0 : string) : Svc bool :=
  fun db =>
    (Return (0 <? count (fun u => String.eqb (email u) email0
                                  && String.eqb (gymId u) gymId0) db)%nat, db).

Definition existsByCpf (cpf0 : string) : Svc bool :=
  fun db =>
    (Return (0 <? count (fun u => bool_decide (cpf u = Some cpf0)) db)%nat, db).

(** A row other than [id0]. *)
Definition other_than (id0 : string) (u : User) : bool :=
  negb (String.eqb (id u) id0).

(** The row after [prisma.user.update({ where, data })]: a field the data
    leaves undefined keeps its value; [updatedAt] follows the clock. *)
Definition apply_update (now : Z) (d : UpdateUserData) (u : User) : User :=
  mkUser (id u) (gymId u)
    (default (name u) (update_name d))
    (default (email u) (update_email d))
    (default (passwordHash u) (update_passwordHash d))
    (default (role u) (update_role d))
    (match update_cpf d with Some c => Some c | None => cpf u end)
    (match update_phone d with Some c => Some c | None => phone u end)
    (match update_birthDate d with Some c => Some c | None => birthDate u end)
    (match update_avatarUrl d with Some c => Some c | None => avatarUrl u end)
    (default (isActive u) (update_isActive d))
    (createdAt u) now.

Fixpoint update_row (id0 : string) (f : User -> User) (db : list User)
    : option (User * list User) :=
  match db with
  | [] => None
  | u :: db' =>
      if String.eqb (id u) id0 then Some (f u, f u :: db')
      else match update_row id0 f db' with
           | Some (u', db'') => Some (u', u :: db'')
           | None => None
           end
  end.

(** The unique indexes refuse the row [u'] that the data [d] makes of the
    row [id0]: the data sets the email and another row of the tenant holds
    it, or the data sets the national ID and another row holds it. *)
Definition breaks_unique (id0 : string) (d : UpdateUserData) (u' : User)
    (db : list User) : bool :=
  match update_email d with
  | Some e => existsb (fun v => other_than id0 v && holds_email e (gymId u') v) db
  | None => false
  end
  || match update_cpf d with
     | Some c => existsb (fun v => other_than id0 v && holds_cpf c v) db
     | None => false
     end.

(** [prisma.user.update]: fails with [P2025] when no row has the id, and
    with [P2002] when a unique index refuses the new row. *)
Definition update (rt : Runtime) (id0 : string) (d : UpdateUserData) : Svc User :=
  fun db =>
    match update_row id0 (apply_update (clock rt) d) db with
    | Some (u, db') =>
        if breaks_unique id0 d u db
        then (Throw (ThrownPrisma "P2002"), db)
        else (Return u, db')
    | None => (Throw (ThrownPrisma "P2025"), db)
    end.

Definition no_change : UpdateUserData :=
  mkUpdateUserData None None None None None None None None None.

Definition softDelete (rt : Runtime) (id0 : string) : Svc User :=
  update rt id0
    (mkUpdateUserData None None None None None None None None (Some false)).

Definition reactivate (rt : Runtime) (id0 : string) : Svc User :=
  update rt id0
    (mkUpdateUserData None None None None None None None None (Some true)).

(** [prisma.user.delete]. *)
Definition delete (id0 : string) : Svc unit :=
  fun db =>
    match find (fun u => String.eqb (id u) id0) db with
    | Some _ => (Return tt, filter (fun u => String.eqb (id u) id0 = false) db)
    | None => (Throw (ThrownPrisma "P2025"), db)
    end.

(** Case-insensitive [contains] on the ASCII letters. *)
Definition lower_char (c : ascii) : ascii :=
  let n := nat_of_ascii c in
  if ((65 <=? n) && (n <=? 90))%nat then ascii_of_nat (n + 32) else c.

Fixpoint lower (s : string) : string :=
  match s with
  | EmptyString => EmptyString
  | String c s' => String (lower_char c) (lower s')
  end.

Definition contains_insensitive (field needle : string) : bool :=
  Js.includes (lower needle) (lower field).

Definition matches (f : FindManyUsersFilters) (u : User) : bool :=
  String.eqb (gymId u) (filter_gymId f)
  && match filter_role f with
     | Some r => bool_decide (role u = r)
     | None => true
     end
  && match filter_isActive f with
     | Some b => Bool.eqb (isActive u) b
     | None => true
     end
  && match filter_search f with
     | Some s =>
         if Js.str_truthy s
         then contains_insensitive (name u) s || contains_insensitive (email u) s
         else true
     | None => true
     end.

Fixpoint insert_desc (u : User) (l : list User) : list User :=
  match l with
  | [] => [u]
  | v :: l' =>
      if (createdAt v <? createdAt u)%Z then u :: l else v :: insert_desc u l'
  end.

(** [orderBy: { createdAt: 'desc' }]. *)
Definition order_desc (l : list User) : list User :=
  fold_right insert_desc [] l.

(** [x || d] for a number. *)
Definition num_or (x : option Z) (d : Z) : Z :=
  match x with
  | Some n => if (n =? 0)%Z then d else n
  | None => d
  end.

(** The rows [findMany] returns for [skip] and [take]: a negative [take]
    reads from the end of the list. *)
Definition window (skip take_ : Z) (rows : list User) : list User :=
  if (take_ <? 0)%Z
  then rev (take (Z.to_nat (- take_)) (drop (Z.to_nat skip) (rev rows)))
  else take (Z.to_nat take_) (drop (Z.to_nat skip) rows).

(** [Math.ceil(a / b)] for [b] other than zero. *)
Definition ceil_div (a b : Z) : Z := (- ((- a) / b))%Z.

(** [findManyWithFilters]: the client refuses a negative [skip]. The rows
    are kept whole here; the [select] of the source leaves [passwordHash]
    out of them. *)
Definition findManyWithFilters (f : FindManyUsersFilters)
    : Svc (PaginatedResult User) :=
  fun db =>
    let page := num_or (filter_page f) 1 in
    let limit := num_or (filter_limit f) 10 in
    let skip := ((page - 1) * limit)%Z in
    let rows := order_desc (filter (fun u => matches f u = true) db) in
    let total := Z.of_nat (count (matches f) db) in
    if (skip <? 0)%Z
    then (Throw (ThrownOther "PrismaClientValidationError" "skip"), db)
    else (Return (mkPaginated (window skip limit rows)
                    (mkMeta total page limit (ceil_div total limit))),
          db).

Definition findByCpf (cpf0 : string) : Svc (option User) :=
  fun db => (Return (find (fun u => bool_decide (cpf u = Some cpf0)) db), db).

(** [orderBy: { name: 'asc' }] sorts by the collation of the database, which
    the sources do not fix: the order of two names is a parameter. *)
Class Collation := { name_le : string -> string -> bool }.

Section ByName.
Context {Co : Collation}.

Fixpoint insert_asc (u : User) (l : list User) : list User :=
  match l with
  | [] => [u]
  | v :: l' =>
      if name_le (name u) (name v) then u :: l else v :: insert_asc u l'
  end.

Definition order_asc (l : list User) : list User :=
  fold_right insert_asc [] l.

Definition findManyByGymId (gymId0 : string) : Svc (list User) :=
  fun db =>
    (Return (order_asc
               (filter (fun u => String.eqb (gymId u) gymId0 && isActive u = true)
                  db)), db).

Definition findManyByRoleAndGymId (role0 : Role) (gymId0 : string)
    : Svc (list User) :=
  fun db =>
    (Return (order_asc
               (filter (fun u => String.eqb (gymId u) gymId0
                                 && bool_decide (role u = role0)
                                 && isActive u = true) db)), db).

End ByName.

Definition countActiveByGymId (gymId0 : string) : Svc Z :=
  fun db =>
    (Return (Z.of_nat (count (fun u => String.eqb (gymId u) gymId0 && isActive u)
                         db)), db).

End PrismaUserRepository.

(* ===================================================================== *)
(** * Objects returned to callers *)
(* ===================================================================== *)

Definition str_or_null (o : option string) : Js.JsVal :=
  match o with
  | Some s => Js.JStr s
  | None => Js.JNull
  end.

Definition date_or_null (o : option Z) : Js.JsVal :=
  match o with
  | Some d => Js.JNum d
  | None => Js.JNull
  end.

(** A row as the JavaScript object the client returns: one own property per
    column. *)
Definition user_object (u : Prisma.User) : gmap string Js.JsVal :=
  <["id" := Js.JStr (Prisma.id u)]>
  (<["gymId" := Js.JStr (Prisma.gymId u)]>
  (<["name" := Js.JStr (Prisma.name u)]>
  (<["email" := Js.JStr (Prisma.email u)]>
  (<["passwordHash" := Js.JStr (Prisma.passwordHash u)]>
  (<["role" := Js.JStr (role_name (Prisma.role u))]>
  (<["cpf" := str_or_null (Prisma.cpf u)]>
  (<["phone" := str_or_null (Prisma.phone u)]>
  (<["birthDate" := date_or_null (Prisma.birthDate u)]>
  (<["avatarUrl" := str_or_null (Prisma.avatarUrl u)]>
  (<["isActive" := Js.JBool (Prisma.isActive u)]>
  (<["createdAt" := Js.JNum (Prisma.createdAt u)]>
  (<["updatedAt" := Js.JNum (Prisma.updatedAt u)]> ∅)))))))))))).

(** [const { passwordHash, ...rest } = user; return rest]. *)
Definition without_passwordHash (u : Prisma.User) : gmap string Js.JsVal :=
  delete "passwordHash" (user_object u).

(** The object literal [{ id, name, email, role, gymId }] of [AuthResponse]. *)
Definition auth_user (u : Prisma.User) : gmap string Js.JsVal :=
  <["id" := Js.JStr (Prisma.id u)]>
  (<["name" := Js.JStr (Prisma.name u)]>
  (<["email" := Js.JStr (Prisma.email u)]>
  (<["role" := Js.JStr (role_name (Prisma.role u))]>
  (<["gymId" := Js.JStr (Prisma.gymId u)]> ∅)))).

Record AuthResponse := mkAuthResponse {
  user : gmap string Js.JsVal;
  accessToken : string;
  refreshToken : string
}.

(* ===================================================================== *)
(** * The authentication service ([auth.service.ts]) *)
(* ===================================================================== *)

(** [RegisterDTO] and [LoginDTO] of [auth.dto.ts]. *)
Record RegisterDTO := mkRegisterDTO {
  reg_name : string;
  reg_email : string;
  reg_password : string;
  reg_gymId : string;
  reg_role : option Role;
  reg_cpf : option string;
  reg_phone : option string;
  reg_birthDate : option Z
}.

Record LoginDTO := mkLoginDTO {
  login_email : string;
  login_password : string;
  login_gymId : string
}.

Definition app_error {A} (msg : string) (status : Z) : Svc A :=
  throw (ThrownApp (mkAppError msg status)).

Definition payload_of (u : Prisma.User) : JwtPayload :=
  mkJwtPayload (Prisma.id u) (Prisma.gymId u) (Prisma.role u).

Module AuthService.
Section AuthService.
Context {L : Jwt.Library} {B : Bcrypt.Eksblowfish}.
Variable cfg : JwtConfig.

Definition register (rt : Runtime) (data : RegisterDTO) : Svc AuthResponse :=
  let* emailExists :=
    PrismaUserRepository.existsByEmailAndGymId (reg_email data) (reg_gymId data) in
  if emailExists : bool
  then app_error "E-mail já cadastrado nesta academia" 409
  else
    let* _ :=
      match reg_cpf data with
      | Some cpf =>
          if Js.str_truthy cpf
          then let* cpfExists := PrismaUserRepository.existsByCpf cpf in
               if cpfExists : bool
               then app_error "CPF já cadastrado" 409
               else ret tt
          else ret tt
      | None => ret tt
      end in
    let* passwordHash := lift (hashPassword (random rt) (reg_password data)) in
    let* user :=
      PrismaUserRepository.create rt
        (mkCreateUserData (reg_gymId data) (reg_name data) (reg_email data)
           passwordHash (default MEMBER (reg_role data))
           (reg_cpf data) (reg_phone data) (reg_birthDate data)) in
    let accessToken := generateAccessToken cfg (clock rt) (payload_of user) in
    let refreshToken := generateRefreshToken cfg (clock rt) (Prisma.id user) in
    ret (mkAuthResponse (auth_user user) accessToken refreshToken).

Definition login (rt : Runtime) (data : LoginDTO) : Svc AuthResponse :=
  let* found :=
    PrismaUserRepository.findByEmailAndGymId (login_email data) (login_gymId data) in
  match found with
  | None => app_error "Credenciais inválidas" 401
  | Some user =>
      if negb (Prisma.isActive user)
      then app_error "Usuário inativo" 403
      else
        let* isPasswordValid :=
          lift (comparePassword (login_password data) (Prisma.passwordHash user)) in
        if negb isPasswordValid
        then app_error "Credenciais inválidas" 401
        else
          let accessToken := generateAccessToken cfg (clock rt) (payload_of user) in
          let refreshToken := generateRefreshToken cfg (clock rt) (Prisma.id user) in
          ret (mkAuthResponse (auth_user user) accessToken refreshToken)
  end.

(** [findById(decoded.userId)]: the client refuses a missing id. *)
Definition find_subject (subject : option string) : Svc (option Prisma.User) :=
  match subject with
  | Some userId => PrismaUserRepository.findById userId
  | None => throw (ThrownOther "PrismaClientValidationError" "id is undefined")
  end.

Definition refreshAccessToken (rt : Runtime) (refreshToken : string)
    : Svc (gmap string Js.JsVal) :=
  let* decoded :=
    try_catch (lift (verifyRefreshToken cfg (clock rt) refreshToken))
      (fun _ => app_error "Refresh token inválido ou expirado" 401) in
  let* found := find_subject (Jwt.userId decoded) in
  match found with
  | None => app_error "Usuário não encontrado" 404
  | Some user =>
      if negb (Prisma.isActive user)
      then app_error "Usuário inativo" 403
      else
        let accessToken := generateAccessToken cfg (clock rt) (payload_of user) in
        ret {[ "accessToken" := Js.JStr accessToken ]}
  end.

Definition getProfile (userId : string) : Svc (gmap string Js.JsVal) :=
  let* found := PrismaUserRepository.findById userId in
  match found with
  | None => app_error "Usuário não encontrado" 404
  | Some user =>
      if negb (Prisma.isActive user)
      then app_error "Usuário inativo" 403
      else ret (without_passwordHash user)
  end.

End AuthService.
End AuthService.

(* ===================================================================== *)
(** * The user service ([user.service.ts]) *)
(* ===================================================================== *)

(** [UpdateProfileDTO], [UpdateUserDTO] and [ListUsersFiltersDTO] of
    [user.dto.ts]. *)
Record UpdateProfileDTO := mkUpdateProfileDTO {
  profile_name : option string;
  profile_phone : option string;
  profile_birthDate : option Z;
  profile_avatarUrl : option string
}.

Record UpdateUserDTO := mkUpdateUserDTO {
  dto_name : option string;
  dto_phone : option string;
  dto_birthDate : option Z;
  dto_avatarUrl : option string;
  dto_email : option string;
  dto_role : option Role;
  dto_isActive : option bool;
  dto_cpf : option string
}.

Record ListUsersFiltersDTO := mkListUsersFiltersDTO {
  list_role : option Role;
  list_isActive : option bool;
  list_search : option string;
  list_page : option Z;
  list_limit : option Z
}.

Module UserService.

(** The private [removeSensitiveData]. *)
Definition removeSensitiveData (u : Prisma.User) : gmap string Js.JsVal :=
  without_passwordHash u.

Definition listUsers (filters : ListUsersFiltersDTO)
    (requestingUserId : string) (requestingUserRole : Role)
    (requestingUserGymId : string)
    : Svc (PaginatedResult (gmap string Js.JsVal)) :=
  if bool_decide (requestingUserRole = MEMBER)
  then app_error "Sem permissão para listar usuários" 403
  else
    let* result :=
      PrismaUserRepository.findManyWithFilters
        (mkFilters requestingUserGymId (list_role filters)
           (list_isActive filters) (list_search filters)
           (list_page filters) (list_limit filters)) in
    ret (mkPaginated (map removeSensitiveData (data result)) (meta result)).

Definition getUserById (userId requestingUserId : string)
    (requestingUserRole : Role) (requestingUserGymId : string)
    : Svc (gmap string Js.JsVal) :=
  let* found := PrismaUserRepository.findById userId in
  match found with
  | None => app_error "Usuário não encontrado" 404
  | Some user =>
      let isSelf := String.eqb userId requestingUserId in
      let isSameGym := String.eqb (Prisma.gymId user) requestingUserGymId in
      let hasPermission :=
        isSelf || (isSameGym && negb (bool_decide (requestingUserRole = MEMBER))) in
      if negb hasPermission
      then app_error "Sem permissão para visualizar este usuário" 403
      else ret (removeSensitiveData user)
  end.

Definition updateOwnProfile (rt : Runtime) (userId : string)
    (d : UpdateProfileDTO) : Svc (gmap string Js.JsVal) :=
  let* found := PrismaUserRepository.findById userId in
  match found with
  | None => app_error "Usuário não encontrado" 404
  | Some user =>
      if negb (Prisma.isActive user)
      then app_error "Usuário inativo" 403
      else
        let* updatedUser :=
          PrismaUserRepository.update rt userId
            (mkUpdateUserData (profile_name d) None None None None
               (profile_phone d) (profile_birthDate d) (profile_avatarUrl d)
               None) in
        ret (removeSensitiveData updatedUser)
  end.

Definition updateUser (rt : Runtime) (userId : string) (d : UpdateUserDTO)
    (requestingUserId : string) (requestingUserRole : Role)
    (requestingUserGymId : string) : Svc (gmap string Js.JsVal) :=
  if negb (bool_decide (requestingUserRole = ADMIN))
  then app_error "Sem permissão para editar usuários" 403
  else
    let* found := PrismaUserRepository.findById userId in
    match found with
    | None => app_error "Usuário não encontrado" 404
    | Some user =>
        if negb (String.eqb (Prisma.gymId user) requestingUserGymId)
        then app_error "Não é possível editar usuários de outra academia" 403
        else
          let* _ :=
            match dto_email d with
            | Some email =>
                if Js.str_truthy email && negb (String.eqb email (Prisma.email user))
                then let* emailExists :=
                       PrismaUserRepository.existsByEmailAndGymId email
                         (Prisma.gymId user) in
                     if emailExists : bool
                     then app_error "E-mail já cadastrado" 409
                     else ret tt
                else ret tt
            | None => ret tt
            end in
          let* _ :=
            match dto_cpf d with
            | Some cpf =>
                if Js.str_truthy cpf
                   && negb (bool_decide (Some cpf = Prisma.cpf user))
                then let* cpfExists := PrismaUserRepository.existsByCpf cpf in
                     if cpfExists : bool
                     then app_error "CPF já cadastrado" 409
                     else ret tt
                else ret tt
            | None => ret tt
            end in
          let* updatedUser :=
            PrismaUserRepository.update rt userId
              (mkUpdateUserData (dto_name d) (dto_email d) None (dto_role d)
                 (dto_cpf d) (dto_phone d) (dto_birthDate d) (dto_avatarUrl d)
                 (dto_isActive d)) in
          ret (removeSensitiveData updatedUser)
    end.

Definition deactivateUser (rt : Runtime) (userId requestingUserId : string)
    (requestingUserRole : Role) (requestingUserGymId : string)
    : Svc (gmap string Js.JsVal) :=
  if negb (bool_decide (requestingUserRole = ADMIN))
  then app_error "Sem permissão para desativar usuários" 403
  else if String.eqb userId requestingUserId
  then app_error "Não é possível desativar o próprio usuário" 400
  else
    let* found := PrismaUserRepository.findById userId in
    match found with
    | None => app_error "Usuário não encontrado" 404
    | Some user =>
        if negb (String.eqb (Prisma.gymId user) requestingUserGymId)
        then app_error "Não é possível desativar usuários de outra academia" 403
        else if negb (Prisma.isActive user)
        then app_error "Usuário já está inativo" 400
        else
          let* deactivatedUser := PrismaUserRepository.softDelete rt userId in
          ret (removeSensitiveData deactivatedUser)
    end.

Definition reactivateUser (rt : Runtime) (userId requestingUserId : string)
    (requestingUserRole : Role) (requestingUserGymId : string)
    : Svc (gmap string Js.JsVal) :=
  if negb (bool_decide (requestingUserRole = ADMIN))
  then app_error "Sem permissão para reativar usuários" 403
  else
    let* found := PrismaUserRepository.findById userId in
    match found with
    | None => app_error "Usuário não encontrado" 404
    | Some user =>
        if negb (String.eqb (Prisma.gymId user) requestingUserGymId)
        then app_error "Não é possível reativar usuários de outra academia" 403
        else if Prisma.isActive user
        then app_error "Usuário já está ativo" 400
        else
          let* reactivatedUser := PrismaUserRepository.reactivate rt userId in
          ret (removeSensitiveData reactivatedUser)
    end.

Definition deleteUser (userId requestingUserId : string)
    (requestingUserRole : Role) (requestingUserGymId : string) : Svc unit :=
  if negb (bool_decide (requestingUserRole = ADMIN))
  then app_error "Sem permissão para deletar usuários" 403
  else if String.eqb userId requestingUserId
  then app_error "Não é possível deletar o próprio usuário" 400
  else
    let* found := PrismaUserRepository.findById userId in
    match found with
    | None => app_error "Usuário não encontrado" 404
    | Some user =>
        if negb (String.eqb (Prisma.gymId user) requestingUserGymId)
        then app_error "Não é possível deletar usuários de outra academia" 403
        else PrismaUserRepository.delete userId
    end.

(** The object [getGymStats] returns. *)
Record ByRole := mkByRole { members : Z; instructors : Z; admins : Z }.

Record GymStats := mkGymStats { totalActive : Z; byRole : ByRole }.

(** The four queries of the [Promise.all] only read the table. *)
Definition getGymStats {Co : PrismaUserRepository.Collation}
    (requestingUserRole : Role) (requestingUserGymId : string) : Svc GymStats :=
  if bool_decide (requestingUserRole = MEMBER)
  then app_error "Sem permissão para visualizar estatísticas" 403
  else
    let* totalActive :=
      PrismaUserRepository.countActiveByGymId requestingUserGymId in
    let* totalMembers :=
      PrismaUserRepository.findManyByRoleAndGymId MEMBER requestingUserGymId in
    let* totalInstructors :=
      PrismaUserRepository.findManyByRoleAndGymId INSTRUCTOR requestingUserGymId in
    let* totalAdmins :=
      PrismaUserRepository.findManyByRoleAndGymId ADMIN requestingUserGymId in
    ret (mkGymStats totalActive
           (mkByRole (Z.of_nat (length totalMembers))
              (Z.of_nat (length totalInstructors))
              (Z.of_nat (length totalAdmins)))).

End UserService.

(* ===================================================================== *)
(** * The access control gate (the three middlewares) *)
(* ===================================================================== *)

(** The part of an Express request the middlewares read and write. *)
Module Req.

Record t := mk {
  params : gmap string string;
  query : gmap string Js.JsVal;
  body : gmap string Js.JsVal;
  cookies : gmap string string;
  headers : gmap string string;
  userId : option string;
  gymId : option string;
  userRole : option string
}.

End Req.

(** What a middleware hands on: [next()] with the (updated) request, or
    [next(error)]. *)
Inductive Next :=
| NextOk (req : Req.t)
| NextError (e : Thrown).

Definition next_app_error (msg : string) (status : Z) : Next :=
  NextError (ThrownApp (mkAppError msg status)).

(** [l.join(', ')]. *)
Fixpoint join (l : list string) : string :=
  match l with
  | [] => EmptyString
  | [x] => x
  | x :: l' => x ++ ", " ++ join l'
  end.

Section Middlewares.
Context {L : Jwt.Library}.
Variable cfg : JwtConfig.

(** [authenticate.middleware.ts]. *)
Definition authenticate (now : Z) (req : Req.t) : Next :=
  let tokenFromCookie := Req.cookies req !! "accessToken" in
  let tokenFromHeader :=
    match Req.headers req !! "authorization" with
    | Some h => Some (Js.replace "Bearer " "" h)
    | None => None
    end in
  let token := Js.opt_or tokenFromCookie tokenFromHeader in
  match token with
  | Some token =>
      if negb (Js.str_truthy token)
      then next_app_error "Token de autenticação não fornecido" 401
      else match verifyAccessToken cfg now token with
           | Return decoded =>
               NextOk (Req.mk (Req.params req) (Req.query req) (Req.body req)
                         (Req.cookies req) (Req.headers req)
                         (Jwt.userId decoded) (Jwt.gymId decoded)
                         (Jwt.role decoded))
           | Throw error =>
               if instanceof_AppError error then NextError error
               else next_app_error "Token inválido ou expirado" 401
           end
  | None => next_app_error "Token de autenticação não fornecido" 401
  end.

End Middlewares.

(** [authorize.middleware.ts]. *)
Definition authorize (allowedRoles : list Role) (req : Req.t) : Next :=
  if negb (Js.opt_truthy (Req.userRole req))
  then next_app_error "Usuário não autenticado" 401
  else
    let userRole := default EmptyString (Req.userRole req) in
    if negb (existsb (fun r => String.eqb (role_name r) userRole) allowedRoles)
    then next_app_error
           ("Acesso negado. Permissões necessárias: "
            ++ join (map role_name allowedRoles)) 403
    else NextOk req.

(** [validate-gym.middleware.ts]. *)
Definition validateGymAccess (req : Req.t) : Next :=
  let userGymId := Req.gymId req in
  let requestGymId :=
    Js.or (Js.of_opt (Req.params req !! "gymId"))
      (Js.or (Js.get (Req.query req) "gymId") (Js.get (Req.body req) "gymId")) in
  match userGymId with
  | Some userGymId =>
      if negb (Js.str_truthy userGymId)
      then next_app_error "Dados de academia não encontrados na sessão" 401
      else if Js.truthy requestGymId && Js.strict_neq_str requestGymId userGymId
      then next_app_error "Acesso negado a recursos de outra academia" 403
      else NextOk req
  | None => next_app_error "Dados de academia não encontrados na sessão" 401
  end.

(** [error-handler.ts]: the HTTP status and the message of the envelope. *)
Definition errorHandler (error : Thrown) : Z * string :=
  match error with
  | ThrownApp e => (statusCode e, message e)
  | ThrownPrisma code =>
      if String.eqb code "P2002"
      then (409%Z, "A record with this value already exists")
      else if String.eqb code "P2025"
      then (404%Z, "Record not found")
      else (400%Z, "Database error")
  | _ => (500%Z, "Internal server error")
  end.

(** The handlers of a route run in order ([router.use(authenticate)], then
    [router.post(path, authorize([...]), handler)]): the next one sees the
    request the previous one passed on, and [next(error)] ends the chain. *)
Definition and_then (first second : Req.t -> Next) (req : Req.t) : Next :=
  match first req with
  | NextOk req' => second req'
  | NextError e => NextError e
  end.

(* ===================================================================== *)
(** * Allowed origins (the [cors] options of [app.ts]) *)
(* ===================================================================== *)

Module Cors.

(** An entry of [allowedOrigins]: a string, or the regular expression of
    the local network. *)
Inductive Allowed :=
| Origin (s : string)
| LocalNetwork.

(** [\d]. *)
Definition is_digit (c : ascii) : bool :=
  let n := nat_of_ascii c in ((48 <=? n) && (n <=? 57))%nat.

(** The longest run of digits at the start of a string, and the rest. *)
Fixpoint digits (s : string) : string * string :=
  match s with
  | String c s' =>
      if is_digit c then let (d, r) := digits s' in (String c d, r)
      else (EmptyString, s)
  | EmptyString => (EmptyString, EmptyString)
  end.

(** What follows [p] in a string that starts with [p]. *)
Definition after (p s : string) : option string :=
  if String.prefix p s then Some (Js.drop_str (String.length p) s) else None.

(** [/^http:\/\/192\.168\.\d{1,3}\.\d{1,3}(:\d+)?$/.test(origin)]. A run of
    one to three digits is followed by a character that is no digit, so it
    is the longest run. *)
Definition local_network_test (origin : string) : bool :=
  match after "http://192.168." origin with
  | None => false
  | Some r1 =>
      let (a, r2) := digits r1 in
      (1 <=? String.length a)%nat && (String.length a <=? 3)%nat
      && match after "." r2 with
         | None => false
         | Some r3 =>
             let (b, r4) := digits r3 in
             (1 <=? String.length b)%nat && (String.length b <=? 3)%nat
             && match r4 with
                | EmptyString => true
                | String c r5 =>
                    Ascii.eqb c ":"
                    && let (p, r6) := digits r5 in
                       (1 <=? String.length p)%nat && negb (Js.str_truthy r6)
                end
         end
  end.

(** [Boolean(entry)] for an entry of the array literal. *)
Definition entry_truthy (e : option Allowed) : bool :=
  match e with
  | Some (Origin s) => Js.str_truthy s
  | Some LocalNetwork => true
  | None => false
  end.

(** [allowedOrigins], from [FRONTEND_URL] and [NODE_ENV]. *)
Definition allowedOrigins (frontendUrl nodeEnv : option string) : list Allowed :=
  omap (fun e => if entry_truthy e then e else None)
    ([Some (Origin "http://localhost:3000");
      Some (Origin "http://localhost:3001");
      Origin <$> frontendUrl]
     ++ (if bool_decide (nodeEnv = Some "development")
         then [Some LocalNetwork] else []))%list.

(** The [origin] callback of the [cors] options: [callback(null, true)] or
    [callback(new Error(...))]. *)
Definition origin (allowed : list Allowed) (origin : option string) : Result bool :=
  match origin with
  | None => Return true
  | Some o =>
      if negb (Js.str_truthy o) then Return true
      else if existsb (fun a => match a with
                                | LocalNetwork => local_network_test o
                                | Origin s => String.eqb s o
                                end) allowed
      then Return true
      else Throw (ThrownError "Not allowed by CORS")
  end.

End Cors.

(* ===================================================================== *)
(** * Check-ins ([prisma-check-in.repository.ts], [check-in.service.ts]) *)
(* ===================================================================== *)

(** The model [CheckIn] of the Prisma client, by the columns the sources
    read and write. *)
Module CheckIn.

Record t := mk {
  id : string;
  userId : string;
  gymId : string;
  checkedInAt : Z;
  validatedAt : option Z
}.

#[global] Instance eq_dec : EqDecision t.
Proof. solve_decision. Defined.

End CheckIn.

(** The two tables the check-in service reaches through its repositories. *)
Record Tables := mkTables {
  userTable : list Prisma.User;
  checkInTable : list CheckIn.t
}.

(** An asynchronous method over both tables. *)
Definition Tx (A : Type) : Type := Tables -> Result A * Tables.

Definition tx_ret {A} (a : A) : Tx A := fun t => (Return a, t).

Definition tx_throw {A} (e : Thrown) : Tx A := fun t => (Throw e, t).

Definition tx_bind {A B} (m : Tx A) (k : A -> Tx B) : Tx B :=
  fun t =>
    match m t with
    | (Return a, t') => k a t'
    | (Throw e, t') => (Throw e, t')
    end.

(** A method of the user repository, run on the table of users. *)
Definition on_users {A} (m : Svc A) : Tx A :=
  fun t =>
    let '(r, users) := m (userTable t) in
    (r, mkTables users (checkInTable t)).

Definition tx_error {A} (msg : string) (status : Z) : Tx A :=
  tx_throw (ThrownApp (mkAppError msg status)).

Declare Scope tx_scope.
Delimit Scope tx_scope with tx.
Notation "'let*' x ':=' m 'in' k" := (tx_bind m (fun x => k))
  (at level 10, x name, m at level 100, k at level 200) : tx_scope.

(** What [Date] computes in the time zone of the server: local midnight of
    an instant ([setHours(0, 0, 0, 0)]) and the same time of day one day
    later ([setDate(getDate() + 1)]). *)
Class Calendar := {
  startOfDay : Z -> Z;
  nextDay : Z -> Z
}.

(** [CreateCheckInData] and [FindCheckInsFilters] of
    [check-in-repository.interface.ts]. *)
Record CreateCheckInData := mkCreateCheckInData {
  checkin_userId : string;
  checkin_gymId : string
}.

Record FindCheckInsFilters := mkFindCheckInsFilters {
  find_gymId : string;
  find_userId : option string;
  find_startDate : option Z;
  find_endDate : option Z;
  find_validated : option bool;
  find_page : option Z;
  find_limit : option Z
}.

(** A row with the [user] that an [include] adds to it. *)
Record CheckInWithUser := mkCheckInWithUser {
  checkIn : CheckIn.t;
  includedUser : option (gmap string Js.JsVal)
}.

Module PrismaCheckInRepository.
Local Open Scope tx_scope.

(** [select: { k: true, ... }]: the listed properties of the object. *)
Definition select (keys : list string) (o : gmap string Js.JsVal)
    : gmap string Js.JsVal :=
  filter (fun kv => kv.1 ∈ keys) o.

(** [include: { user: { select } }]: the user the row refers to. *)
Definition include_user (keys : list string) (users : list Prisma.User)
    (c : CheckIn.t) : CheckInWithUser :=
  mkCheckInWithUser c
    (select keys ∘ user_object
       <$> find (fun u => String.eqb (Prisma.id u) (CheckIn.userId c)) users).

(** [prisma.checkIn.create({ data, include })]. The columns the data does
    not give take the defaults of the table: a generated [id], [checkedInAt]
    at the clock and no [validatedAt] (the service validates only a row
    without one). As for the users, the constraints of the table are not
    enforced here: the service looks the user up before it writes. *)
Definition create (rt : Runtime) (d : CreateCheckInData) : Tx CheckInWithUser :=
  fun t =>
    let c := CheckIn.mk (generatedId rt) (checkin_userId d) (checkin_gymId d)
               (clock rt) None in
    (Return (include_user ["id"; "name"; "email"; "role"] (userTable t) c),
     mkTables (userTable t) (checkInTable t ++ [c])%list).

Definition findById (id0 : string) : Tx (option CheckInWithUser) :=
  fun t =>
    (Return (include_user ["id"; "name"; "email"; "role"] (userTable t)
               <$> find (fun c => String.eqb (CheckIn.id c) id0) (checkInTable t)),
     t).

Fixpoint insert_desc (c : CheckIn.t) (l : list CheckIn.t) : list CheckIn.t :=
  match l with
  | [] => [c]
  | d :: l' =>
      if (CheckIn.checkedInAt d <? CheckIn.checkedInAt c)%Z
      then c :: l else d :: insert_desc c l'
  end.

(** [orderBy: { checkedInAt: 'desc' }]. *)
Definition order_desc (l : list CheckIn.t) : list CheckIn.t :=
  fold_right insert_desc [] l.

Definition findLastByUserAndGym (userId0 gymId0 : string)
    : Tx (option CheckIn.t) :=
  fun t =>
    (Return (head (order_desc
                     (filter (fun c => String.eqb (CheckIn.userId c) userId0
                                       && String.eqb (CheckIn.gymId c) gymId0 = true)
                        (checkInTable t)))), t).

Section Today.
Context {Cal : Calendar}.

Definition hasCheckedInToday (rt : Runtime) (userId0 gymId0 : string) : Tx bool :=
  fun t =>
    let today := startOfDay (clock rt) in
    let tomorrow := nextDay today in
    let count :=
      length (filter (fun c => String.eqb (CheckIn.userId c) userId0
                               && String.eqb (CheckIn.gymId c) gymId0
                               && (today <=? CheckIn.checkedInAt c)%Z
                               && (CheckIn.checkedInAt c <? tomorrow)%Z = true)
                (checkInTable t)) in
    (Return (0 <? count)%nat, t).

End Today.

Definition matches (f : FindCheckInsFilters) (c : CheckIn.t) : bool :=
  String.eqb (CheckIn.gymId c) (find_gymId f)
  && match find_userId f with
     | Some u => if Js.str_truthy u then String.eqb (CheckIn.userId c) u else true
     | None => true
     end
  && match find_startDate f with
     | Some d => (d <=? CheckIn.checkedInAt c)%Z
     | None => true
     end
  && match find_endDate f with
     | Some d => (CheckIn.checkedInAt c <=? d)%Z
     | None => true
     end
  && match find_validated f with
     | Some true => bool_decide (is_Some (CheckIn.validatedAt c))
     | Some false => bool_decide (CheckIn.validatedAt c = None)
     | None => true
     end.

(** The rows [findMany] returns for [skip] and [take]: a negative [take]
    reads from the end of the list. *)
Definition window (skip take_ : Z) (rows : list CheckIn.t) : list CheckIn.t :=
  if (take_ <? 0)%Z
  then rev (take (Z.to_nat (- take_)) (drop (Z.to_nat skip) (rev rows)))
  else take (Z.to_nat take_) (drop (Z.to_nat skip) rows).

(** [findManyWithFilters]: as for the users, with a page of 20 rows unless
    a limit is given. *)
Definition findManyWithFilters (f : FindCheckInsFilters)
    : Tx (PaginatedResult CheckInWithUser) :=
  fun t =>
    let page := PrismaUserRepository.num_or (find_page f) 1 in
    let limit := PrismaUserRepository.num_or (find_limit f) 20 in
    let skip := ((page - 1) * limit)%Z in
    let found := filter (fun c => matches f c = true) (checkInTable t) in
    let total := Z.of_nat (length found) in
    if (skip <? 0)%Z
    then (Throw (ThrownOther "PrismaClientValidationError" "skip"), t)
    else (Return (mkPaginated
                    (map (include_user ["id"; "name"; "email"; "role"; "avatarUrl"]
                            (userTable t))
                       (window skip limit (order_desc found)))
                    (mkMeta total page limit
                       (PrismaUserRepository.ceil_div total limit))),
          t).

(** [findByUser(userId, limit = 10)]: the default stands for an argument
    that is not given. *)
Definition findByUser (userId0 : string) (limit : option Z)
    : Tx (list CheckIn.t) :=
  fun t =>
    (Return (window 0 (default 10%Z limit)
               (order_desc
                  (filter (fun c => String.eqb (CheckIn.userId c) userId0 = true)
                     (checkInTable t)))), t).

Fixpoint validate_row (id0 : string) (now : Z) (rows : list CheckIn.t)
    : option (CheckIn.t * list CheckIn.t) :=
  match rows with
  | [] => None
  | c :: rows' =>
      if String.eqb (CheckIn.id c) id0
      then let c' := CheckIn.mk (CheckIn.id c) (CheckIn.userId c) (CheckIn.gymId c)
                       (CheckIn.checkedInAt c) (Some now) in
           Some (c', c' :: rows')
      else match validate_row id0 now rows' with
           | Some (c', rows'') => Some (c', c :: rows'')
           | None => None
           end
  end.

(** [prisma.checkIn.update({ where: { id }, data: { validatedAt: new Date() } })]:
    fails with [P2025] when no row has the id. *)
Definition validate (rt : Runtime) (id0 : string) : Tx CheckInWithUser :=
  fun t =>
    match validate_row id0 (clock rt) (checkInTable t) with
    | Some (c, rows) =>
        (Return (include_user ["id"; "name"; "email"] (userTable t) c),
         mkTables (userTable t) rows)
    | None => (Throw (ThrownPrisma "P2025"), t)
    end.

End PrismaCheckInRepository.

(** [ListCheckInsFiltersDTO] of [check-in.dto.ts]. *)
Record ListCheckInsFiltersDTO := mkListCheckInsFiltersDTO {
  checkins_userId : option string;
  checkins_startDate : option Z;
  checkins_endDate : option Z;
  checkins_validated : option bool;
  checkins_page : option Z;
  checkins_limit : option Z
}.

(** What [canCheckInToday] answers. *)
Record CanCheckIn := mkCanCheckIn {
  canCheckIn : bool;
  reason : option string
}.

Module CheckInService.
Section CheckInService.
Context {Cal : Calendar}.
Local Open Scope tx_scope.

Definition create (rt : Runtime) (userId gymId : string) (userRole : Role)
    : Tx CheckInWithUser :=
  if negb (bool_decide (userRole = MEMBER))
  then tx_error "Apenas membros podem fazer check-in" 403
  else
    let* found := on_users (PrismaUserRepository.findById userId) in
    match found with
    | None => tx_error "Usuário não encontrado" 404
    | Some user =>
        if negb (Prisma.isActive user)
        then tx_error "Usuário inativo não pode fazer check-in" 403
        else
          let* hasCheckedInToday :=
            PrismaCheckInRepository.hasCheckedInToday rt userId gymId in
          if hasCheckedInToday : bool
          then tx_error "Você já fez check-in hoje" 409
          else
            let* subscriptions := on_users (PrismaUserRepository.findById userId) in
            PrismaCheckInRepository.create rt (mkCreateCheckInData userId gymId)
    end.

Definition getUserHistory (userId requestingUserId : string)
    (requestingUserRole : Role) (requestingUserGymId : string)
    (limit : option Z) : Tx (list CheckIn.t) :=
  let isSelf := String.eqb userId requestingUserId in
  let hasPermission := isSelf || negb (bool_decide (requestingUserRole = MEMBER)) in
  if negb hasPermission
  then tx_error "Sem permissão para visualizar histórico" 403
  else
    let* found := on_users (PrismaUserRepository.findById userId) in
    match found with
    | None => tx_error "Usuário não encontrado" 404
    | Some user =>
        if negb (String.eqb (Prisma.gymId user) requestingUserGymId)
        then tx_error "Usuário de outra academia" 403
        else PrismaCheckInRepository.findByUser userId (Some (default 10%Z limit))
    end.

Definition validate (rt : Runtime) (checkInId : string)
    (requestingUserRole : Role) (requestingUserGymId : string)
    : Tx CheckInWithUser :=
  if bool_decide (requestingUserRole = MEMBER)
  then tx_error "Sem permissão para validar check-ins" 403
  else
    let* found := PrismaCheckInRepository.findById checkInId in
    match found with
    | None => tx_error "Check-in não encontrado" 404
    | Some c =>
        if negb (String.eqb (CheckIn.gymId (checkIn c)) requestingUserGymId)
        then tx_error "Check-in de outra academia" 403
        else if bool_decide (is_Some (CheckIn.validatedAt (checkIn c)))
        then tx_error "Check-in já foi validado" 400
        else PrismaCheckInRepository.validate rt checkInId
    end.

Definition canCheckInToday (rt : Runtime) (userId gymId : string)
    : Tx CanCheckIn :=
  let* found := on_users (PrismaUserRepository.findById userId) in
  if match found with
     | None => true
     | Some user => negb (Prisma.isActive user)
     end
  then tx_ret (mkCanCheckIn false (Some "Usuário inativo"))
  else
    let* hasCheckedIn :=
      PrismaCheckInRepository.hasCheckedInToday rt userId gymId in
    if hasCheckedIn : bool
    then tx_ret (mkCanCheckIn false (Some "Você já fez check-in hoje"))
    else tx_ret (mkCanCheckIn true None).

(** [list]: for a member the filter on the user is overwritten with the
    requester; the tenant is always the requester's. *)
Definition list (filters : ListCheckInsFiltersDTO) (requestingUserId : string)
    (requestingUserRole : Role) (requestingUserGymId : string)
    : Tx (PaginatedResult CheckInWithUser) :=
  let userId :=
    if bool_decide (requestingUserRole = MEMBER)
    then Some requestingUserId else checkins_userId filters in
  PrismaCheckInRepository.findManyWithFilters
    (mkFindCheckInsFilters requestingUserGymId userId
       (checkins_startDate filters) (checkins_endDate filters)
       (checkins_validated filters) (checkins_page filters)
       (checkins_limit filters)).

End CheckInService.
End CheckInService.

(* ===================================================================== *)
(** * Reference instances of the two parameters

    A codec and a keyed hash that satisfy [Jose.CodecLaws], and a stand-in
    for the Blowfish computation that satisfies [Bcrypt.EksblowfishLaws]:
    they make every definition above executable on concrete inputs. *)
(* ===================================================================== *)

Module Reference.

(** A byte as two letters of [a]..[p], one per half. *)
Definition letter (n : N) : ascii := ascii_of_N (97 + n).

Definition half (c : ascii) : option N :=
  let n := N_of_ascii c in
  if ((97 <=? n) && (n <=? 112))%N then Some (n - 97)%N else None.

(** A string as the letters of its bytes, closed by [z]. *)
Fixpoint put_string (s : string) : string :=
  match s with
  | EmptyString => "z"
  | String c s' =>
      String (letter (N.shiftr (N_of_ascii c) 4))
        (String (letter (N.land (N_of_ascii c) 15)) (put_string s'))
  end.

(** The inverse of [put_string], with what follows the word. *)
Fixpoint get_string (s : string) : option (string * string) :=
  match s with
  | EmptyString => None
  | String c1 rest =>
      if Ascii.eqb c1 "z" then Some (EmptyString, rest)
      else match rest with
           | EmptyString => None
           | String c2 rest' =>
               match half c1, half c2, get_string rest' with
               | Some h, Some l, Some (x, r) =>
                   Some (String (ascii_of_N (N.lor (N.shiftl h 4) l)) x, r)
               | _, _, _ => None
               end
           end
  end.

(** A positive number as a word over [a] (bit 0), [b] (bit 1), closed by
    [c]. *)
Fixpoint put_pos (p : positive) : string :=
  match p with
  | xH => "c"
  | xO p' => String "a" (put_pos p')
  | xI p' => String "b" (put_pos p')
  end.

Fixpoint get_pos (s : string) : option (positive * string) :=
  match s with
  | EmptyString => None
  | String c rest =>
      if Ascii.eqb c "c" then Some (xH, rest)
      else if Ascii.eqb c "a"
      then match get_pos rest with Some (p, r) => Some (xO p, r) | None => None end
      else if Ascii.eqb c "b"
      then match get_pos rest with Some (p, r) => Some (xI p, r) | None => None end
      else None
  end.

Definition put_Z (n : Z) : string :=
  match n with
  | Z0 => "0"
  | Zpos p => String "1" (put_pos p)
  | Zneg p => String "2" (put_pos p)
  end.

Definition get_Z (s : string) : option (Z * string) :=
  match s with
  | EmptyString => None
  | String c rest =>
      if Ascii.eqb c "0" then Some (Z0, rest)
      else if Ascii.eqb c "1"
      then match get_pos rest with Some (p, r) => Some (Zpos p, r) | None => None end
      else if Ascii.eqb c "2"
      then match get_pos rest with Some (p, r) => Some (Zneg p, r) | None => None end
      else None
  end.

Definition put_option {A} (put : A -> string) (o : option A) : string :=
  match o with
  | None => "N"
  | Some x => String "S" (put x)
  end.

Definition get_option {A} (get : string -> option (A * string)) (s : string)
    : option (option A * string) :=
  match s with
  | EmptyString => None
  | String c rest =>
      if Ascii.eqb c "N" then Some (None, rest)
      else if Ascii.eqb c "S"
      then match get rest with Some (x, r) => Some (Some x, r) | None => None end
      else None
  end.

Fixpoint put_list (l : list string) : string :=
  match l with
  | [] => "E"
  | x :: l' => String "I" (put_string x ++ put_list l')
  end.

(** The inverse of [put_list]; [fuel] bounds the number of items. *)
Fixpoint get_list (fuel : nat) (s : string) : option (list string * string) :=
  match s with
  | EmptyString => None
  | String c rest =>
      if Ascii.eqb c "E" then Some ([], rest)
      else if Ascii.eqb c "I"
      then match fuel with
           | O => None
           | S fuel' =>
               match get_string rest with
               | Some (x, r) =>
                   match get_list fuel' r with
                   | Some (l, r') => Some (x :: l, r')
                   | None => None
                   end
               | None => None
               end
           end
      else None
  end.

Definition put_claims (c : Jwt.Claims) : string :=
  put_option put_string (Jwt.userId c)
  ++ put_option put_string (Jwt.gymId c)
  ++ put_option put_string (Jwt.role c)
  ++ put_option put_Z (Jwt.iat c)
  ++ put_option put_Z (Jwt.exp c)
  ++ put_option put_Z (Jwt.nbf c)
  ++ put_option put_string (Jwt.iss c)
  ++ put_list (Jwt.aud c).

Definition get_claims (s : string) : option Jwt.Claims :=
  '(u, s) ← get_option get_string s;
  '(g, s) ← get_option get_string s;
  '(r, s) ← get_option get_string s;
  '(i, s) ← get_option get_Z s;
  '(e, s) ← get_option get_Z s;
  '(n, s) ← get_option get_Z s;
  '(o, s) ← get_option get_string s;
  '(a, s) ← get_list (String.length s) s;
  if Js.str_truthy s then None else Some (Jwt.mkClaims u g r i e n o a).

(** The header of the reference codec holds the algorithm and stands for
    [{alg, typ: 'JWT'}]. *)
Definition get_header (s : string) : option Jose.Header :=
  match get_string s with
  | Some (a, EmptyString) => Some (Jose.mkHeader (Some a) (Some "JWT"))
  | _ => None
  end.

(** The parser of the reference codec knows the words of [put_claims]
    only. *)
Definition parse (s : string) : Jose.Json :=
  match get_claims s with
  | Some c => Jose.JsonValue c
  | None => Jose.NotJson "Unexpected token"
  end.

#[global] Instance codec : Jose.Codec := {|
  Jose.jwa_sign := fun alg secret input =>
    put_string alg ++ put_string secret ++ put_string input;
  Jose.encode_header := put_string;
  Jose.decode_header := get_header;
  Jose.encode_payload := put_claims;
  Jose.decode_payload := parse;
  Jose.json_parse := parse
|}.

(** The first 24 bytes of key, salt and padding. *)
#[global] Instance eksblowfish : Bcrypt.Eksblowfish := {|
  Bcrypt.crypt_raw := fun _ salt key => take 24 (key ++ salt ++ replicate 24 zero)%list
|}.

Definition cfg : JwtConfig :=
  mkJwtConfig "access-secret" "refresh-secret" 900 604800.

Definition salt : list ascii := list_ascii_of_string "0123456789abcdef".

Definition salt2 : list ascii := list_ascii_of_string "fedcba9876543210".

Definition runtime (now : Z) (newId : string) : Runtime := mkRuntime now salt newId.

(** The registration of the service's own test: Maria, a member. *)
Definition maria (gym : string) : RegisterDTO :=
  mkRegisterDTO "Maria Silva" "maria@example.com" "Senha123" gym (Some MEMBER)
    (Some "12345678901") (Some "11987654321") None.

Definition member : JwtPayload := mkJwtPayload "user-123" "gym-abc" MEMBER.

(** Maria's record after her registration in [gym-1] at time 1000. *)
Definition maria_record : Prisma.User :=
  Prisma.mkUser "id-1" "gym-1" "Maria Silva" "maria@example.com"
    "$2a$10$KBCwKxOzLha2MUDgW0PjXeS0TsYECvKhK.KBCwKxOzLha2MUDgW0O" MEMBER
    (Some "12345678901") (Some "11987654321") None None true 1000 1000.

(** Ana, the administrator of [gym-1], and the users of that tenant. *)
Definition ana_record : Prisma.User :=
  Prisma.mkUser "admin-1" "gym-1" "Ana Souza" "ana@example.com"
    (Prisma.passwordHash maria_record) ADMIN None None None None true 900 900.

Definition gym_table : list Prisma.User := [ana_record; maria_record].

(** The access token of the member, and a request that carries it as the
    cookie. *)
Definition member_token : string := generateAccessToken cfg 1000 member.

Definition member_request : Req.t :=
  Req.mk ∅ ∅ ∅ {[ "accessToken" := member_token ]} ∅ None None None.

(** Maria's first check-in. *)
Definition first_check_in : CheckIn.t :=
  CheckIn.mk "ci-1" "id-1" "gym-1" 1000 None.

(** Days of 86400000 milliseconds from the epoch (a server on UTC). *)
#[global] Instance calendar : Calendar := {|
  startOfDay := fun t => (t - t mod 86400000)%Z;
  nextDay := fun t => (t + 86400000)%Z
|}.

(** Names in the order of their bytes. *)
#[global] Instance collation : PrismaUserRepository.Collation := {|
  PrismaUserRepository.name_le := String.leb
|}.

End Reference.

(* ===================================================================== *)
(** * The statements of the specification, as definitions *)
(* ===================================================================== *)

Module Spec.

(** The tenant of the authenticated identity, if it carries one. *)
Definition identity_tenant (req : Req.t) : option string :=
  match Req.gymId req with
  | Some t => if Js.str_truthy t then Some t else None
  | None => None
  end.

(** The tenant the request supplies: the first of path parameter, query
    parameter and body field that holds a value (a truthy one: an absent
    field, [null] and the empty string supply nothing). *)
Definition supplied_tenant (req : Req.t) : option Js.JsVal :=
  List.find Js.truthy
    [Js.of_opt (Req.params req !! "gymId");
     Js.get (Req.query req) "gymId";
     Js.get (Req.body req) "gymId"].

(** The tenant-scope guard as the specification words it. *)
Definition tenant_scope_guard (req : Req.t) : Next :=
  match identity_tenant req with
  | None => next_app_error "Dados de academia não encontrados na sessão" 401
  | Some t =>
      match supplied_tenant req with
      | None => NextOk req
      | Some v =>
          if bool_decide (v = Js.JStr t) then NextOk req
          else next_app_error "Acesso negado a recursos de outra academia" 403
      end
  end.

(** The token a request carries: the cookie [accessToken] if it holds one,
    else what is left of the [Authorization] header. *)
Definition bearer_token (req : Req.t) : option string :=
  List.find Js.str_truthy
    (option_list (Req.cookies req !! "accessToken")
     ++ option_list (Js.replace "Bearer " "" <$> Req.headers req !! "authorization"))%list.

(** The request with the identity of the verified claims attached. *)
Definition attach_identity (c : Jwt.Claims) (req : Req.t) : Req.t :=
  Req.mk (Req.params req) (Req.query req) (Req.body req) (Req.cookies req)
    (Req.headers req) (Jwt.userId c) (Jwt.gymId c) (Jwt.role c).

(** The request with its [Authorization] header set to [h]. *)
Definition with_authorization (h : string) (req : Req.t) : Req.t :=
  Req.mk (Req.params req) (Req.query req) (Req.body req) (Req.cookies req)
    (<["authorization" := h]> (Req.headers req))
    (Req.userId req) (Req.gymId req) (Req.userRole req).

(** Every value a method returns has the property [P]. *)
Definition every_return {A} (P : A -> Prop) (m : Svc A) : Prop :=
  forall db a db', m db = (Return a, db') -> P a.

(** What a middleware decided: the identity it attached, or its error. *)
Definition verdict (n : Next)
    : Result (option string * option string * option string) :=
  match n with
  | NextOk req => Return (Req.userId req, Req.gymId req, Req.userRole req)
  | NextError e => Throw e
  end.

(** The claims [verifyAccessToken] returns for a token issued at [now]. *)
Definition issued_claims (cfg : JwtConfig) (now : Z) (p : JwtPayload) : Jwt.Claims :=
  Jwt.mkClaims (Some (payload_userId p)) (Some (payload_gymId p))
    (Some (role_name (payload_role p))) (Some now)
    (Some (now + accessExpiresIn cfg)%Z) None (Some ISSUER) [AUDIENCE].







(** A token that the secret signed over the claims [c]. *)
Definition signed_token {C : Jose.Codec} (secret : string) (c : Jwt.Claims) : string :=
  let input := Jose.secured_input (Jose.encode_header "HS256") (Jose.encode_payload c) in
  input ++ "." ++ Jose.jwa_sign "HS256" secret input.

(** The digest of a password under a salt, cost 10: [$2a$10$], the salt
    and the first 23 bytes of the Blowfish result, both in bcrypt's base64. *)
Definition digest {B : Bcrypt.Eksblowfish} (salt : list ascii) (password : string)
    : string :=
  "$2a$10$"
  ++ string_of_list_ascii (Bcrypt.encode_bytes salt)
  ++ string_of_list_ascii
       (Bcrypt.encode_bytes
          (take 23 (Bcrypt.crypt_raw 10 salt (Bcrypt.key_bytes true password)))).

(** No field [passwordHash] in an object. *)
Definition omits_passwordHash (o : gmap string Js.JsVal) : Prop :=
  o !! "passwordHash" = None.

(** The row [register] persists. *)
Definition registered_user (rt : Runtime) (data : RegisterDTO) (hash : string)
    : Prisma.User :=
  Prisma.mkUser (generatedId rt) (reg_gymId data) (reg_name data)
    (reg_email data) hash (default MEMBER (reg_role data)) (reg_cpf data)
    (reg_phone data) (reg_birthDate data) None true (clock rt) (clock rt).

(** A national ID was provided: a non-empty string. *)
Definition provided_cpf (data : RegisterDTO) : option string :=
  match reg_cpf data with
  | Some c => if Js.str_truthy c then Some c else None
  | None => None
  end.

(** Registration as the specification words it, step by step: (a) a record
    with the same email in the same tenant is a conflict; (b) so is a
    record, of any tenant, with the national ID provided; (c) the password
    is hashed; (d) the record is persisted, its role [MEMBER] unless one
    was given; (e) both tokens are issued from the identity of the new
    record; (f) the tokens and the profile view are returned. *)
Definition register {L : Jwt.Library} {B : Bcrypt.Eksblowfish}
    (cfg : JwtConfig) (rt : Runtime) (data : RegisterDTO)
    (db : list Prisma.User) : Result AuthResponse * list Prisma.User :=
  if existsb (fun u => String.eqb (Prisma.email u) (reg_email data)
                       && String.eqb (Prisma.gymId u) (reg_gymId data)) db
  then (Throw (ThrownApp (mkAppError "E-mail já cadastrado nesta academia" 409)), db)
  else if match provided_cpf data with
          | Some c => existsb (fun u => bool_decide (Prisma.cpf u = Some c)) db
          | None => false
          end
  then (Throw (ThrownApp (mkAppError "CPF já cadastrado" 409)), db)
  else
    let u := registered_user rt data (digest (random rt) (reg_password data)) in
    (Return (mkAuthResponse (auth_user u)
               (generateAccessToken cfg (clock rt) (payload_of u))
               (generateRefreshToken cfg (clock rt) (Prisma.id u))),
     (db ++ [u])%list).



End Spec.

(* ===================================================================== *)
(** * Words for the further properties *)
(* ===================================================================== *)

(** The stored row after [softDelete], and a row whose only change is its
    [updatedAt]. *)
Definition deactivated (now : Z) (u : Prisma.User) : Prisma.User :=
  PrismaUserRepository.apply_update now
    (mkUpdateUserData None None None None None None None None (Some false)) u.

Definition touched (now : Z) (u : Prisma.User) : Prisma.User :=
  PrismaUserRepository.apply_update now PrismaUserRepository.no_change u.

(** A call is refused with status 403 and the table is left as it was. *)
Definition refused {A} (db : list Prisma.User)
    (out : Result A * list Prisma.User) : Prop :=
  exists msg, out = (Throw (ThrownApp (mkAppError msg 403)), db).

(** The filters [f] asked for page [p] with [l] rows a page. *)
Definition page_of (f : FindManyUsersFilters) (p l : Z) : FindManyUsersFilters :=
  mkFilters (filter_gymId f) (filter_role f) (filter_isActive f)
    (filter_search f) (Some p) (Some l).

(** The rows of the page a call returned (none if it failed). *)
Definition rows_of {A S} (out : Result (PaginatedResult A) * S) : list A :=
  match fst out with
  | Return r => data r
  | Throw _ => []
  end.

(** The claims of a refresh token issued at [now]. *)
Definition issued_refresh_claims (cfg : JwtConfig) (now : Z) (userId : string)
    : Jwt.Claims :=
  Jwt.mkClaims (Some userId) None None (Some now)
    (Some (now + refreshExpiresIn cfg)%Z) None (Some ISSUER) [AUDIENCE].

(** A request that carries [token] as the cookie, or as the [Authorization]
    header with the [Bearer] prefix when it has no cookie. *)
Definition carries (req : Req.t) (token : string) : Prop :=
  Req.cookies req !! "accessToken" = Some token
  \/ (Req.cookies req !! "accessToken" = None
      /\ Req.headers req !! "authorization" = Some ("Bearer " ++ token)).

(** A check-in of the user in the tenant on the day of [now]. *)
Definition checked_in_on_day {Cal : Calendar} (now : Z) (userId gymId : string)
    (c : CheckIn.t) : Prop :=
  CheckIn.userId c = userId /\ CheckIn.gymId c = gymId
  /\ (startOfDay now <= CheckIn.checkedInAt c < nextDay (startOfDay now))%Z.

(** The row with its validation stamped. *)
Definition validated_at (now : Z) (c : CheckIn.t) : CheckIn.t :=
  CheckIn.mk (CheckIn.id c) (CheckIn.userId c) (CheckIn.gymId c)
    (CheckIn.checkedInAt c) (Some now).

(** A string of digits. *)
Fixpoint all_digits (s : string) : bool :=
  match s with
  | EmptyString => true
  | String c s' => Cors.is_digit c && all_digits s'
  end.

(** No digit comes first in the string. *)
Definition no_digit_ahead (r : string) : Prop :=
  match r with
  | String c _ => Cors.is_digit c = false
  | EmptyString => True
  end.

(** The origins of the local network, as the regular expression reads:
    [http://192.168.], one to three digits, a dot, one to three digits and,
    optionally, a colon and a port of at least one digit. *)
Definition local_network_origin (o : string) : Prop :=
  exists a b port,
    o = "http://192.168." ++ a ++ "." ++ b ++ port
    /\ all_digits a = true /\ (1 <= String.length a <= 3)%nat
    /\ all_digits b = true /\ (1 <= String.length b <= 3)%nat
    /\ (port = "" \/ exists d, port = ":" ++ d /\ all_digits d = true /\ d <> "").

(* ===================================================================== *)
(** * Properties *)
(* ===================================================================== *)

(** ** Tenant-scope guard *)

Lemma strict_neq_str_spec (v : Js.JsVal) (t : string) :
  Js.strict_neq_str v t = negb (bool_decide (v = Js.JStr t)).
Proof.
  destruct v as [| |b|n|s|r]; simpl; try reflexivity.
  destruct (String.eqb_spec s t) as [->|Hne]; simpl.
  - by rewrite bool_decide_eq_true_2.
  - rewrite bool_decide_eq_false_2; [done|]. intros [= ->]. by apply Hne.
Qed.

Lemma or_chain_find (a b c : Js.JsVal) :
  Js.truthy (Js.or a (Js.or b c)) = bool_decide (is_Some (List.find Js.truthy [a; b; c]))
  /\ (forall v, List.find Js.truthy [a; b; c] = Some v -> Js.or a (Js.or b c) = v).
Proof.
  unfold Js.or; simpl.
  destruct (Js.truthy a) eqn:Ha; [rewrite Ha; split; [done|by intros v [= ->]]|].
  destruct (Js.truthy b) eqn:Hb; [rewrite Hb; split; [done|by intros v [= ->]]|].
  destruct (Js.truthy c) eqn:Hc; rewrite ?Hc; split; try done.
  by intros v [= ->].
Qed.

(** C1. The tenant-scope guard is the guard of the specification: without
    a tenant on the identity it fails with 401; otherwise, with the
    request's tenant taken as the first supplied one among path parameter,
    query parameter and body field, it passes the request on unchanged when
    none is supplied or when it is the identity's tenant, and fails with 403
    when it differs. *)
Theorem validateGymAccess_tenant_scope (req : Req.t) :
  validateGymAccess req = Spec.tenant_scope_guard req.
Proof.
  unfold validateGymAccess, Spec.tenant_scope_guard, Spec.identity_tenant.
  destruct (Req.gymId req) as [t|]; [|done].
  destruct (Js.str_truthy t); simpl; [|done].
  unfold Spec.supplied_tenant.
  set (a := Js.of_opt _). set (b := Js.get (Req.query req) _).
  set (c := Js.get (Req.body req) _).
  destruct (or_chain_find a b c) as [Htr Hval]. rewrite Htr.
  destruct (List.find Js.truthy [a; b; c]) as [v|] eqn:Hfind.
  - rewrite (Hval v eq_refl), bool_decide_eq_true_2 by eauto. simpl.
    rewrite strict_neq_str_spec. by destruct (bool_decide (v = Js.JStr t)).
  - by rewrite bool_decide_eq_false_2 by (intros [? [=]]).
Qed.

(** The precedence of the three sources, and the three outcomes, on
    concrete requests. *)
Example tenant_guard_path_wins :
  validateGymAccess
    (Req.mk {[ "gymId" := "gym-a" ]} {[ "gymId" := Js.JStr "gym-b" ]}
       {[ "gymId" := Js.JStr "gym-c" ]} ∅ ∅ (Some "u1") (Some "gym-a") (Some "ADMIN"))
  = NextOk
    (Req.mk {[ "gymId" := "gym-a" ]} {[ "gymId" := Js.JStr "gym-b" ]}
       {[ "gymId" := Js.JStr "gym-c" ]} ∅ ∅ (Some "u1") (Some "gym-a") (Some "ADMIN")).
Proof. reflexivity. Qed.

Example tenant_guard_query_before_body :
  validateGymAccess
    (Req.mk ∅ {[ "gymId" := Js.JStr "gym-b" ]} {[ "gymId" := Js.JStr "gym-a" ]}
       ∅ ∅ (Some "u1") (Some "gym-a") (Some "ADMIN"))
  = next_app_error "Acesso negado a recursos de outra academia" 403.
Proof. reflexivity. Qed.

Example tenant_guard_no_identity :
  validateGymAccess
    (Req.mk {[ "gymId" := "gym-a" ]} ∅ ∅ ∅ ∅ None None None)
  = next_app_error "Dados de academia não encontrados na sessão" 401.
Proof. reflexivity. Qed.

Example tenant_guard_nothing_supplied :
  validateGymAccess (Req.mk ∅ ∅ ∅ ∅ ∅ (Some "u1") (Some "gym-a") (Some "MEMBER"))
  = NextOk (Req.mk ∅ ∅ ∅ ∅ ∅ (Some "u1") (Some "gym-a") (Some "MEMBER")).
Proof. reflexivity. Qed.

(** ** Self-targeting in the user service *)

(** C9, as stated, fails: an administrator who deactivates their own
    account is answered with status 400, which is not the Forbidden kind
    (403). *)
Lemma self_deactivation_is_not_forbidden :
  let admin :=
    Prisma.mkUser "admin-1" "gym-1" "Ana" "ana@gym.com" "$2a$10$hash" ADMIN
      None None None None true 0 0 in
  fst (UserService.deactivateUser (mkRuntime 10 [] "id-2") "admin-1" "admin-1"
         ADMIN "gym-1" [admin])
  = Throw (ThrownApp (mkAppError "Não é possível desativar o próprio usuário" 400))
  /\ kind_of_status 400 = BadRequest
  /\ ~ (exists msg,
         fst (UserService.deactivateUser (mkRuntime 10 [] "id-2") "admin-1"
                "admin-1" ADMIN "gym-1" [admin])
         = Throw (ThrownApp (mkAppError msg 403))).
Proof.
  repeat split; [reflexivity..|].
  intros [msg H]. vm_compute in H. discriminate H.
Qed.

(** C9, amended. When the requesting administrator is the target,
    [deactivateUser] and [deleteUser] fail with status 400 (a bad request),
    whatever the table holds, and leave the table as it was. *)
Theorem self_targeting_rejected (rt : Runtime) (userId gymId : string)
    (db : list Prisma.User) :
  UserService.deactivateUser rt userId userId ADMIN gymId db
  = (Throw (ThrownApp
       (mkAppError "Não é possível desativar o próprio usuário" 400)), db)
  /\ UserService.deleteUser userId userId ADMIN gymId db
     = (Throw (ThrownApp
          (mkAppError "Não é possível deletar o próprio usuário" 400)), db)
  /\ (forall msg, fst (errorHandler (ThrownApp (mkAppError msg 400))) = 400%Z).
Proof.
  unfold UserService.deactivateUser, UserService.deleteUser. simpl.
  rewrite String.eqb_refl. repeat split.
Qed.

(** ** Login *)

Lemma find_none_iff {A} (f : A -> bool) (l : list A) :
  List.find f l = None <-> (forall x, x ∈ l -> f x = false).
Proof.
  induction l as [|a l IH]; simpl.
  - split; [intros _ x Hx; inversion Hx|done].
  - destruct (f a) eqn:Ha.
    + split; [done|]. intros H. specialize (H a (list_elem_of_here _ _)). congruence.
    + rewrite IH. split.
      * intros H x Hx. inversion Hx; subst; auto.
      * intros H x Hx. apply H. by apply list_elem_of_further.
Qed.

Lemma find_some_elem {A} (f : A -> bool) (l : list A) (x : A) :
  List.find f l = Some x -> x ∈ l /\ f x = true.
Proof.
  intros H. apply List.find_some in H as [Hin Hf].
  split; [by apply list_elem_of_In|done].
Qed.

Section LoginProperties.
Context {L : Jwt.Library} {B : Bcrypt.Eksblowfish}.
Variable cfg : JwtConfig.

(** C2. [login] fails with 401 and the message of invalid credentials when
    the table holds no record for the (email, tenant) pair; it fails with
    401 and the very same message when the record is active and the
    password does not verify; and it fails with 403 when the record is
    inactive, before the password is looked at. The table is not written. *)
Theorem login_failures (rt : Runtime) (data : LoginDTO) (db : list Prisma.User) :
  ((forall u, u ∈ db ->
      ~ (Prisma.email u = login_email data /\ Prisma.gymId u = login_gymId data)) ->
   AuthService.login cfg rt data db
   = (Throw (ThrownApp (mkAppError "Credenciais inválidas" 401)), db))
  /\ (forall u,
        PrismaUserRepository.findByEmailAndGymId (login_email data)
          (login_gymId data) db = (Return (Some u), db) ->
        Prisma.isActive u = true ->
        comparePassword (login_password data) (Prisma.passwordHash u) = Return false ->
        AuthService.login cfg rt data db
        = (Throw (ThrownApp (mkAppError "Credenciais inválidas" 401)), db))
  /\ (forall u,
        PrismaUserRepository.findByEmailAndGymId (login_email data)
          (login_gymId data) db = (Return (Some u), db) ->
        Prisma.isActive u = false ->
        AuthService.login cfg rt data db
        = (Throw (ThrownApp (mkAppError "Usuário inativo" 403)), db)).
Proof.
  unfold AuthService.login, bind, PrismaUserRepository.findByEmailAndGymId.
  repeat split.
  - intros Hnone.
    assert (List.find
              (fun u => String.eqb (Prisma.email u) (login_email data)
                        && String.eqb (Prisma.gymId u) (login_gymId data)) db
            = None) as ->; [|done].
    apply find_none_iff. intros u Hu. specialize (Hnone u Hu).
    destruct (String.eqb_spec (Prisma.email u) (login_email data));
      destruct (String.eqb_spec (Prisma.gymId u) (login_gymId data)); simpl; tauto.
  - intros u [= ->] Hact Hpw. rewrite Hact. simpl.
    unfold lift. rewrite Hpw. done.
  - intros u [= ->] Hact. rewrite Hact. done.
Qed.

End LoginProperties.

(** ** Password hasher *)

Lemma in_all_bytes (x : ascii) : In x Bcrypt.all_bytes.
Proof.
  rewrite <- (ascii_nat_embedding x). apply in_map, in_seq.
  pose proof (nat_ascii_bounded x). lia.
Qed.

Lemma forall_byte (P : ascii -> bool) :
  forallb P Bcrypt.all_bytes = true -> forall x, P x = true.
Proof. intros H x. rewrite forallb_forall in H. apply H, in_all_bytes. Qed.

Lemma forall_byte2 (P : ascii -> ascii -> bool) :
  forallb (fun x => forallb (P x) Bcrypt.all_bytes) Bcrypt.all_bytes = true ->
  forall x y, P x y = true.
Proof.
  intros H x y. apply forall_byte.
  rewrite forallb_forall in H. apply (H x), in_all_bytes.
Qed.

Ltac by_all_bytes2 x y :=
  first [ apply Ascii.eqb_eq | apply N.eqb_eq ];
  revert x y; apply forall_byte2; vm_compute; reflexivity.

Ltac by_all_bytes1 x :=
  first [ apply Ascii.eqb_eq | apply N.eqb_eq ];
  revert x; apply forall_byte; vm_compute; reflexivity.

Lemma index_code (a : N) :
  Bcrypt.index (Bcrypt.code (N.land a 63)) = Some (N.land a 63).
Proof.
  assert (N.land a 63 < 64)%N as Hlt.
  { change 63%N with (N.ones 6). rewrite N.land_ones. by apply N.mod_lt. }
  revert Hlt. generalize (N.land a 63). intros n Hn.
  assert (forallb (fun k => bool_decide
            (Bcrypt.index (Bcrypt.code (N.of_nat k)) = Some (N.of_nat k)))
            (seq 0 64) = true) as H by (vm_compute; reflexivity).
  rewrite forallb_forall in H.
  specialize (H (N.to_nat n) ltac:(apply in_seq; lia)). rewrite N2Nat.id in H.
  by apply bool_decide_eq_true_1 in H.
Qed.

Lemma octet1_sextets (x y : ascii) :
  Bcrypt.octet1 (Bcrypt.sextet1 (N_of_ascii x))
    (Bcrypt.sextet2 (N_of_ascii x) (N_of_ascii y)) = x.
Proof. by_all_bytes2 x y. Qed.

Lemma sextet2_low (x y : ascii) :
  N.land (Bcrypt.sextet2 (N_of_ascii x) (N_of_ascii y)) 15
  = N.shiftr (N_of_ascii y) 4.
Proof. by_all_bytes2 x y. Qed.

Lemma sextet3_high (y z : ascii) :
  N.shiftr (N.land (Bcrypt.sextet3 (N_of_ascii y) (N_of_ascii z)) 60) 2
  = N.land (N_of_ascii y) 15.
Proof. by_all_bytes2 y z. Qed.

Lemma sextet3_low (y z : ascii) :
  N.land (Bcrypt.sextet3 (N_of_ascii y) (N_of_ascii z)) 3
  = N.shiftr (N_of_ascii z) 6.
Proof. by_all_bytes2 y z. Qed.

Lemma byte_halves (y : ascii) :
  Bcrypt.byte (N.lor (N.shiftl (N.shiftr (N_of_ascii y) 4) 4)
                 (N.land (N_of_ascii y) 15)) = y.
Proof. by_all_bytes1 y. Qed.

Lemma byte_top_two (z : ascii) :
  Bcrypt.byte (N.lor (N.shiftl (N.shiftr (N_of_ascii z) 6) 6)
                 (Bcrypt.sextet4 (N_of_ascii z))) = z.
Proof. by_all_bytes1 z. Qed.

Lemma octet2_sextets (x y z : ascii) :
  Bcrypt.octet2 (Bcrypt.sextet2 (N_of_ascii x) (N_of_ascii y))
    (Bcrypt.sextet3 (N_of_ascii y) (N_of_ascii z)) = y.
Proof.
  unfold Bcrypt.octet2. rewrite sextet2_low, sextet3_high. apply byte_halves.
Qed.

Lemma octet3_sextets (y z : ascii) :
  Bcrypt.octet3 (Bcrypt.sextet3 (N_of_ascii y) (N_of_ascii z))
    (Bcrypt.sextet4 (N_of_ascii z)) = z.
Proof. unfold Bcrypt.octet3. rewrite sextet3_low. apply byte_top_two. Qed.

Lemma index_sextet1 c : Bcrypt.index (Bcrypt.code (Bcrypt.sextet1 c)) = Some (Bcrypt.sextet1 c).
Proof. apply index_code. Qed.
Lemma index_sextet2 c d : Bcrypt.index (Bcrypt.code (Bcrypt.sextet2 c d)) = Some (Bcrypt.sextet2 c d).
Proof. apply index_code. Qed.
Lemma index_sextet3 c d : Bcrypt.index (Bcrypt.code (Bcrypt.sextet3 c d)) = Some (Bcrypt.sextet3 c d).
Proof. apply index_code. Qed.
Lemma index_sextet4 c : Bcrypt.index (Bcrypt.code (Bcrypt.sextet4 c)) = Some (Bcrypt.sextet4 c).
Proof. apply index_code. Qed.

Lemma list_ind3 {A} (P : list A -> Prop) :
  P [] -> (forall x, P [x]) -> (forall x y, P [x; y]) ->
  (forall x y z l, P l -> P (x :: y :: z :: l)) ->
  forall l, P l.
Proof.
  intros H0 H1 H2 H3.
  fix IH 1. intros [|x [|y [|z l]]]; [apply H0|apply H1|apply H2|apply H3, IH].
Qed.

(** Decoding undoes encoding, for every list of bytes. *)
Lemma decode_encode_bytes (b : list ascii) :
  Bcrypt.decode_bytes (Bcrypt.encode_bytes b) (length b) = b.
Proof.
  induction b as [|x|x y|x y z l IH] using list_ind3.
  - reflexivity.
  - cbn [Bcrypt.encode_bytes length Bcrypt.decode_bytes].
    rewrite index_sextet1, index_sextet2.
    change 0%N with (N_of_ascii zero). by rewrite octet1_sextets.
  - cbn [Bcrypt.encode_bytes length Bcrypt.decode_bytes].
    rewrite index_sextet1, index_sextet2, index_sextet3.
    rewrite octet1_sextets.
    change 0%N with (N_of_ascii zero). by rewrite octet2_sextets.
  - cbn [Bcrypt.encode_bytes length Bcrypt.decode_bytes].
    rewrite index_sextet1, index_sextet2, index_sextet3, index_sextet4.
    by rewrite octet1_sextets, octet2_sextets, octet3_sextets, IH.
Qed.

Lemma encode_bytes_inj (b b' : list ascii) :
  length b = length b' -> Bcrypt.encode_bytes b = Bcrypt.encode_bytes b' -> b = b'.
Proof.
  intros Hlen Heq.
  rewrite <- (decode_encode_bytes b), <- (decode_encode_bytes b').
  by rewrite Heq, Hlen.
Qed.

Lemma encode_bytes_length (b : list ascii) :
  (3 * length (Bcrypt.encode_bytes b) = 4 * length b + (3 - length b mod 3) mod 3)%nat.
Proof.
  induction b as [|x|x y|x y z l IH] using list_ind3; try reflexivity.
  cbn [Bcrypt.encode_bytes length].
  replace (S (S (S (length l)))) with (length l + 1 * 3)%nat by lia.
  rewrite Nat.Div0.mod_add. lia.
Qed.

Lemma string_app_cons (x : ascii) (a b : string) :
  String x a ++ b = String x (a ++ b).
Proof. reflexivity. Qed.

Lemma string_app_nil (b : string) : "" ++ b = b.
Proof. reflexivity. Qed.

Lemma string_app_assoc (a b c : string) : (a ++ b) ++ c = a ++ (b ++ c).
Proof.
  induction a as [|x a IH]; [done|].
  by rewrite !string_app_cons, IH.
Qed.

Lemma list_ascii_of_string_app (a b : string) :
  list_ascii_of_string (a ++ b)
  = (list_ascii_of_string a ++ list_ascii_of_string b)%list.
Proof.
  induction a as [|x a IH]; [done|].
  rewrite string_app_cons. simpl. by rewrite IH.
Qed.

Lemma string_of_list_ascii_length (l : list ascii) :
  String.length (string_of_list_ascii l) = length l.
Proof. induction l as [|x l IH]; simpl; [done|by rewrite IH]. Qed.

Lemma string_length_app (a b : string) :
  String.length (a ++ b) = (String.length a + String.length b)%nat.
Proof.
  induction a as [|x a IH]; [done|].
  rewrite string_app_cons. simpl. by rewrite IH.
Qed.

Lemma substring_prefix (a b : string) :
  substring 0 (String.length a) (a ++ b) = a.
Proof.
  induction a as [|x a IH].
  - rewrite string_app_nil. by destruct b.
  - rewrite string_app_cons. simpl. by rewrite IH.
Qed.

Lemma encode_bytes_length_16 (b : list ascii) :
  length b = 16%nat -> length (Bcrypt.encode_bytes b) = 22%nat.
Proof. intros H. pose proof (encode_bytes_length b) as E. rewrite H in E. simpl in E. lia. Qed.

Lemma encode_bytes_length_23 (b : list ascii) :
  length b = 23%nat -> length (Bcrypt.encode_bytes b) = 31%nat.
Proof. intros H. pose proof (encode_bytes_length b) as E. rewrite H in E. simpl in E. lia. Qed.

Section BcryptProperties.
Context {B : Bcrypt.Eksblowfish} {Laws : Bcrypt.EksblowfishLaws B}.

Lemma take_23_length rounds salt key :
  length (take 23 (Bcrypt.crypt_raw rounds salt key)) = 23%nat.
Proof. rewrite length_take, Bcrypt.crypt_raw_length. lia. Qed.

Lemma substring_all (s : string) : substring 0 (String.length s) s = s.
Proof. induction s as [|c s IH]; [done|]. simpl. by rewrite IH. Qed.

(** The fields [_hash] reads in a salt string that [genSalt] made: the
    revision [a], the cost 10 and the 22 characters that follow. *)
Lemma generated_salt_fields (s : string) :
  Bcrypt.revision ("$2a$10$" ++ s) = Return (Some "a"%char, 4%nat)
  /\ Bcrypt.char_at_above_dollar 6 ("$2a$10$" ++ s) = false
  /\ Bcrypt.parse_digit 4 ("$2a$10$" ++ s) = Some 1%nat
  /\ Bcrypt.parse_digit 5 ("$2a$10$" ++ s) = Some 0%nat
  /\ substring 7 22 ("$2a$10$" ++ s) = substring 0 22 s.
Proof. repeat split; reflexivity. Qed.

(** [_hash] under a salt string that [genSalt] made. *)
Lemma hash_under_salt (salt : list ascii) (password : string) :
  length salt = 16%nat ->
  Bcrypt._hash password
    ("$2a$10$" ++ string_of_list_ascii (Bcrypt.encode_bytes salt))
  = Return (Spec.digest salt password).
Proof.
  intros Hlen. unfold Bcrypt._hash.
  destruct (generated_salt_fields (string_of_list_ascii (Bcrypt.encode_bytes salt)))
    as (-> & Hdollar & Hd1 & Hd2 & Hsub).
  change (4 + 2)%nat with 6%nat. change (4 + 1)%nat with 5%nat.
  change (4 + 3)%nat with 7%nat.
  rewrite Hdollar, Hd1, Hd2, Hsub.
  assert (substring 0 22 (string_of_list_ascii (Bcrypt.encode_bytes salt))
          = string_of_list_ascii (Bcrypt.encode_bytes salt)) as ->.
  { rewrite <- (encode_bytes_length_16 salt Hlen) at 1.
    rewrite <- string_of_list_ascii_length. apply substring_all. }
  unfold Bcrypt.base64_decode. rewrite list_ascii_of_string_of_list_ascii.
  unfold Bcrypt._crypt, Bcrypt.BCRYPT_SALT_LEN.
  assert (Bcrypt.decode_bytes (Bcrypt.encode_bytes salt) 16 = salt) as ->
    by (rewrite <- Hlen; apply decode_encode_bytes).
  rewrite Hlen.
  change ((1 * 10 + 0 <? 4)%nat || (31 <? 1 * 10 + 0)%nat) with false.
  change (negb (16 =? 16)%nat) with false. cbv iota.
  unfold Bcrypt.base64_encode.
  rewrite Hlen, Bcrypt.crypt_raw_length.
  change ((16 =? 0)%nat || (16 <? 16)%nat) with false.
  change ((23 =? 0)%nat || (24 <? 23)%nat) with false. cbv iota.
  rewrite (take_ge salt) by lia.
  reflexivity.
Qed.

Lemma hashPassword_digest (salt : list ascii) (password : string) :
  length salt = 16%nat ->
  hashPassword salt password = Return (Spec.digest salt password).
Proof.
  intros Hlen. unfold hashPassword, Bcrypt.hash, Bcrypt.genSalt, Bcrypt.base64_encode.
  unfold Bcrypt.BCRYPT_SALT_LEN, SALT_ROUNDS. rewrite Hlen.
  cbn [Nat.eqb Nat.ltb Nat.leb orb]. rewrite take_ge by lia.
  change (Bcrypt.cost_digits (Some 10%nat)) with "10".
  by apply hash_under_salt.
Qed.

Lemma digest_length (salt : list ascii) (password : string) :
  length salt = 16%nat -> String.length (Spec.digest salt password) = 60%nat.
Proof.
  intros Hlen. unfold Spec.digest.
  rewrite !string_length_app, !string_of_list_ascii_length.
  rewrite encode_bytes_length_16 by done.
  rewrite encode_bytes_length_23 by apply take_23_length. reflexivity.
Qed.

Lemma comparePassword_digest (salt : list ascii) (password candidate : string) :
  length salt = 16%nat ->
  comparePassword candidate (Spec.digest salt password)
  = Return (String.eqb (Spec.digest salt candidate) (Spec.digest salt password)).
Proof.
  intros Hlen. unfold comparePassword, Bcrypt.compare.
  rewrite digest_length by done. cbn [Nat.eqb negb].
  assert (substring 0 29 (Spec.digest salt password)
          = "$2a$10$" ++ string_of_list_ascii (Bcrypt.encode_bytes salt)) as ->.
  { unfold Spec.digest. rewrite <- string_app_assoc.
    set (pre := "$2a$10$" ++ _).
    assert (String.length pre = 29%nat) as <-.
    { unfold pre. rewrite string_length_app, string_of_list_ascii_length,
        encode_bytes_length_16 by done. reflexivity. }
    apply substring_prefix. }
  by rewrite hash_under_salt.
Qed.

(** C7, amended. Under a 16-byte salt: a password verifies against its own
    digest; two digests of one password under different salts differ; and
    a password [P] verifies against the digest of [P2] exactly when the
    first 23 bytes of the Blowfish result for [P] under that salt are those
    for [P2], which is the case whenever the two passwords agree on the
    bytes the key schedule reads (the first 72 of the NUL-terminated
    password). *)
Theorem password_digest_properties (salt salt2 : list ascii) (P P2 : string) :
  length salt = 16%nat -> length salt2 = 16%nat ->
  (exists h, hashPassword salt P = Return h /\ String.length h = 60%nat
             /\ comparePassword P h = Return true)
  /\ (salt <> salt2 ->
      exists h h2, hashPassword salt P = Return h
                   /\ hashPassword salt2 P = Return h2 /\ h <> h2)
  /\ (exists h2, hashPassword salt P2 = Return h2
       /\ comparePassword P h2
          = Return (bool_decide
              (take 23 (Bcrypt.crypt_raw 10 salt (Bcrypt.key_bytes true P))
               = take 23 (Bcrypt.crypt_raw 10 salt (Bcrypt.key_bytes true P2))))
       /\ (Bcrypt.key_bytes true P = Bcrypt.key_bytes true P2 ->
           comparePassword P h2 = Return true)).
Proof.
  intros Hlen Hlen2. split; [|split].
  - exists (Spec.digest salt P). split; [by apply hashPassword_digest|].
    split; [by apply digest_length|].
    rewrite comparePassword_digest by done. by rewrite String.eqb_refl.
  - intros Hne. exists (Spec.digest salt P), (Spec.digest salt2 P).
    split; [by apply hashPassword_digest|]. split; [by apply hashPassword_digest|].
    unfold Spec.digest. intros Heq. apply String.app_inj in Heq.
    apply (f_equal (substring 0 22)) in Heq.
    assert (forall s rest, length s = 16%nat ->
              substring 0 22 (string_of_list_ascii (Bcrypt.encode_bytes s) ++ rest)
              = string_of_list_ascii (Bcrypt.encode_bytes s)) as Hpre.
    { intros s rest Hs.
      rewrite <- (encode_bytes_length_16 s Hs) at 1.
      rewrite <- string_of_list_ascii_length. apply substring_prefix. }
    rewrite !Hpre in Heq by done.
    apply (f_equal list_ascii_of_string) in Heq.
    rewrite !list_ascii_of_string_of_list_ascii in Heq.
    apply Hne, encode_bytes_inj; [congruence|done].
  - exists (Spec.digest salt P2). split; [by apply hashPassword_digest|].
    rewrite comparePassword_digest by done.
    assert (String.eqb (Spec.digest salt P) (Spec.digest salt P2)
            = bool_decide
                (take 23 (Bcrypt.crypt_raw 10 salt (Bcrypt.key_bytes true P))
                 = take 23 (Bcrypt.crypt_raw 10 salt (Bcrypt.key_bytes true P2))))
      as Heqb.
    { destruct (String.eqb_spec (Spec.digest salt P) (Spec.digest salt P2))
        as [Heq|Hne]; symmetry.
      - apply bool_decide_eq_true_2. unfold Spec.digest in Heq.
        do 2 apply String.app_inj in Heq.
        apply (f_equal list_ascii_of_string) in Heq.
        rewrite !list_ascii_of_string_of_list_ascii in Heq.
        apply encode_bytes_inj; [by rewrite !take_23_length|done].
      - apply bool_decide_eq_false_2. intros Heq. apply Hne.
        unfold Spec.digest. by rewrite Heq. }
    rewrite Heqb. split; [done|].
    intros Hkey. rewrite Hkey. by rewrite bool_decide_eq_true_2.
Qed.

End BcryptProperties.

Lemma reference_eksblowfish_laws : Bcrypt.EksblowfishLaws Reference.eksblowfish.
Proof.
  split. intros rounds salt key.
  change (length (take 24 (key ++ salt ++ replicate 24 zero)%list) = 24%nat).
  rewrite length_take, !length_app, length_replicate. lia.
Qed.

(** C7, as stated, fails: two different passwords of 73 characters that
    agree on their first 72 bytes verify against each other's digest,
    whatever the Blowfish computation and the salt are. *)
Lemma long_passwords_verify_each_other :
  let P  := "Passw0rdxxxxxxxxxxxxxxxxxxxxxxxxxxxxxxxxxxxxxxxxxxxxxxxxxxxxxxxxxxxxxxxxA" in
  let P2 := "Passw0rdxxxxxxxxxxxxxxxxxxxxxxxxxxxxxxxxxxxxxxxxxxxxxxxxxxxxxxxxxxxxxxxxB" in
  P <> P2
  /\ String.length P = 73%nat
  /\ forall (B : Bcrypt.Eksblowfish), Bcrypt.EksblowfishLaws B ->
     forall salt : list ascii, length salt = 16%nat ->
     exists h2, hashPassword salt P2 = Return h2
                /\ comparePassword P h2 = Return true.
Proof.
  cbv zeta. split; [discriminate|]. split; [reflexivity|].
  intros B Laws salt Hlen. eexists.
  split; [by apply hashPassword_digest|].
  rewrite comparePassword_digest by done. f_equal.
  apply String.eqb_eq. reflexivity.
Qed.

(** The amended statement at the reference instance: two salts, a password
    and a wrong one. *)
Lemma password_digest_properties_witness :
  (exists h, hashPassword Reference.salt "MinhaS3nh@Secreta" = Return h
             /\ String.length h = 60%nat
             /\ comparePassword "MinhaS3nh@Secreta" h = Return true)
  /\ (Reference.salt <> Reference.salt2 ->
      exists h h2, hashPassword Reference.salt "MinhaS3nh@Secreta" = Return h
                   /\ hashPassword Reference.salt2 "MinhaS3nh@Secreta" = Return h2
                   /\ h <> h2)
  /\ (exists h2, hashPassword Reference.salt "senhaErrada" = Return h2
       /\ comparePassword "MinhaS3nh@Secreta" h2
          = Return (bool_decide
              (take 23 (Bcrypt.crypt_raw 10 Reference.salt
                          (Bcrypt.key_bytes true "MinhaS3nh@Secreta"))
               = take 23 (Bcrypt.crypt_raw 10 Reference.salt
                            (Bcrypt.key_bytes true "senhaErrada"))))
       /\ (Bcrypt.key_bytes true "MinhaS3nh@Secreta"
           = Bcrypt.key_bytes true "senhaErrada" ->
           comparePassword "MinhaS3nh@Secreta" h2 = Return true)).
Proof.
  apply (@password_digest_properties Reference.eksblowfish
           reference_eksblowfish_laws Reference.salt Reference.salt2
           "MinhaS3nh@Secreta" "senhaErrada"); reflexivity.
Defined.

(** ** Registration *)

Lemma count_positive (f : Prisma.User -> bool) (db : list Prisma.User) :
  (0 <? PrismaUserRepository.count f db)%nat = existsb f db.
Proof.
  unfold PrismaUserRepository.count.
  induction db as [|u db IH]; [done|].
  rewrite filter_cons. simpl. destruct (f u) eqn:Hu.
  - by rewrite decide_True.
  - by rewrite decide_False.
Qed.

Lemma auth_user_omits_passwordHash (u : Prisma.User) :
  Spec.omits_passwordHash (auth_user u).
Proof. unfold Spec.omits_passwordHash, auth_user. by simplify_map_eq. Qed.

Lemma bind_lift {A B} (r : Result A) (k : A -> Svc B) (db : list Prisma.User) :
  bind (lift r) k db
  = match r with
    | Return a => k a db
    | Throw e => (Throw e, db)
    end.
Proof. unfold bind, lift. by destruct r. Qed.

Section RegisterProperties.
Context {L : Jwt.Library} {B : Bcrypt.Eksblowfish} {Laws : Bcrypt.EksblowfishLaws B}.
Variable cfg : JwtConfig.




(** The record [register] persists has the role given, [MEMBER] without
    one, and the profile it returns has no field [passwordHash]. *)
Lemma registered_user_role (rt : Runtime) (data : RegisterDTO) (h : string) :
  Prisma.role (Spec.registered_user rt data h)
  = match reg_role data with Some r => r | None => MEMBER end.
Proof. unfold Spec.registered_user. simpl. by destruct (reg_role data). Qed.

End RegisterProperties.

(** ** Token refresh *)

Section RefreshProperties.
Context {L : Jwt.Library}.
Variable cfg : JwtConfig.

(** C4. [refreshAccessToken] fails with 401 whenever the refresh token does
    not verify, whatever the error; with 404 when no record has the
    subject's id; with 403 when the record is inactive; and otherwise
    returns an object with the single field [accessToken], a token issued
    from the id, tenant and role of the record as the table holds it (the
    decoded claims other than the subject are not read). The table is not
    written. *)
Theorem refreshAccessToken_outcomes (rt : Runtime) (token : string)
    (db : list Prisma.User) :
  (forall e, verifyRefreshToken cfg (clock rt) token = Throw e ->
     AuthService.refreshAccessToken cfg rt token db
     = (Throw (ThrownApp (mkAppError "Refresh token inválido ou expirado" 401)), db))
  /\ (forall d subject,
        verifyRefreshToken cfg (clock rt) token = Return d ->
        Jwt.userId d = Some subject ->
        ((forall u, u ∈ db -> Prisma.id u <> subject) ->
         AuthService.refreshAccessToken cfg rt token db
         = (Throw (ThrownApp (mkAppError "Usuário não encontrado" 404)), db))
        /\ (forall u,
              PrismaUserRepository.findById subject db = (Return (Some u), db) ->
              (Prisma.isActive u = false ->
               AuthService.refreshAccessToken cfg rt token db
               = (Throw (ThrownApp (mkAppError "Usuário inativo" 403)), db))
              /\ (Prisma.isActive u = true ->
                  AuthService.refreshAccessToken cfg rt token db
                  = (Return {[ "accessToken" :=
                                 Js.JStr (generateAccessToken cfg (clock rt)
                                            (mkJwtPayload (Prisma.id u)
                                               (Prisma.gymId u) (Prisma.role u))) ]},
                     db))))
  /\ (forall v : Js.JsVal,
        dom ({[ "accessToken" := v ]} : gmap string Js.JsVal) = {[ "accessToken" ]}).
Proof.
  unfold AuthService.refreshAccessToken, bind, try_catch, lift.
  split; [|split].
  - intros e ->. done.
  - intros d subject -> Hsub. unfold AuthService.find_subject. rewrite Hsub.
    unfold PrismaUserRepository.findById. split.
    + intros Hnone.
      assert (List.find (fun u => String.eqb (Prisma.id u) subject) db = None) as ->;
        [|done].
      apply find_none_iff. intros u Hu. apply String.eqb_neq. by apply Hnone.
    + intros u [= ->]. split; intros ->; done.
  - intros v. apply dom_singleton_L.
Qed.

End RefreshProperties.

(** ** Authentication middleware *)

Lemma replace_without_occurrence (pat rep s : string) :
  Js.includes pat s = false -> Js.replace pat rep s = s.
Proof.
  induction s as [|c s IH]; simpl; intros H.
  - apply orb_false_iff in H as [-> _]. done.
  - apply orb_false_iff in H as [-> H]. by rewrite IH.
Qed.

Lemma drop_str_app (a b : string) : Js.drop_str (String.length a) (a ++ b) = b.
Proof. induction a as [|c a IH]; [by destruct b|]. by rewrite string_app_cons. Qed.

Lemma prefix_app (pat b : string) : String.prefix pat (pat ++ b) = true.
Proof.
  induction pat as [|c pat IH]; [by destruct b|].
  rewrite string_app_cons. simpl. destruct (ascii_dec c c); [apply IH|done].
Qed.

Lemma replace_first_occurrence (pat a b : string) :
  (forall i, (i < String.length a)%nat ->
     Js.occurs_at pat i (a ++ pat ++ b) = false) ->
  Js.replace pat "" (a ++ pat ++ b) = a ++ b.
Proof.
  induction a as [|c a IH]; intros Hfirst.
  - rewrite !string_app_nil.
    pose proof (prefix_app pat b) as Hpre.
    destruct (pat ++ b) eqn:E.
    + destruct pat; [|discriminate E]. simpl. by destruct b.
    + cbn [Js.replace]. rewrite Hpre, <- E, string_app_nil.
      apply drop_str_app.
  - pose proof (Hfirst 0%nat ltac:(simpl; lia)) as H0.
    unfold Js.occurs_at in H0. cbn [Js.drop_str] in H0.
    rewrite !string_app_cons in *. cbn [Js.replace]. rewrite H0.
    f_equal. apply IH. intros i Hi.
    specialize (Hfirst (S i) ltac:(simpl; lia)).
    exact Hfirst.
Qed.

Lemma replace_bearer_prefix (t : string) :
  Js.replace "Bearer " "" ("Bearer " ++ t) = t.
Proof.
  apply (replace_first_occurrence "Bearer " "" t).
  intros i Hi. simpl in Hi. lia.
Qed.

Section AuthenticateProperties.
Context {L : Jwt.Library}.
Variable cfg : JwtConfig.

Lemma verifyAccessToken_not_AppError (now : Z) (token : string) (e : Thrown) :
  verifyAccessToken cfg now token = Throw e -> instanceof_AppError e = false.
Proof.
  unfold verifyAccessToken.
  destruct (Jwt.verify _ _ _ _) as [d|err]; [discriminate|].
  destruct (instanceof_TokenExpiredError err); [by intros [= <-]|].
  destruct (instanceof_JsonWebTokenError err); by intros [= <-].
Qed.

(** The token the middleware reads is the bearer token of the request. *)
Lemma bearer_token_read (req : Req.t) :
  Spec.bearer_token req
  = match Js.opt_or (Req.cookies req !! "accessToken")
            (Js.replace "Bearer " "" <$> Req.headers req !! "authorization") with
    | Some t => if Js.str_truthy t then Some t else None
    | None => None
    end.
Proof.
  unfold Spec.bearer_token, Js.opt_or, Js.opt_truthy.
  destruct (Req.cookies req !! "accessToken") as [c|];
    destruct (Req.headers req !! "authorization") as [h|]; simpl;
    repeat (match goal with |- context [Js.str_truthy ?x] =>
              destruct (Js.str_truthy x) eqn:?; simpl end); congruence.
Qed.

(** What [authenticate] does with the token it read. *)
Lemma authenticate_on_token (now : Z) (req : Req.t) :
  authenticate cfg now req
  = match Js.opt_or (Req.cookies req !! "accessToken")
            (Js.replace "Bearer " "" <$> Req.headers req !! "authorization") with
    | Some token =>
        if Js.str_truthy token
        then match verifyAccessToken cfg now token with
             | Return decoded => NextOk (Spec.attach_identity decoded req)
             | Throw _ => next_app_error "Token inválido ou expirado" 401
             end
        else next_app_error "Token de autenticação não fornecido" 401
    | None => next_app_error "Token de autenticação não fornecido" 401
    end.
Proof.
  unfold authenticate.
  replace (match Req.headers req !! "authorization" with
           | Some h => Some (Js.replace "Bearer " "" h)
           | None => None
           end)
    with (Js.replace "Bearer " "" <$> Req.headers req !! "authorization")
    by (by destruct (Req.headers req !! "authorization")).
  destruct (Js.opt_or _ _) as [t|]; [|done].
  destruct (Js.str_truthy t); simpl; [|done].
  destruct (verifyAccessToken cfg now t) as [d|e] eqn:Hv; [done|].
  by rewrite (verifyAccessToken_not_AppError now t e Hv).
Qed.

(** C6. [authenticate] reads the bearer token of the request (the cookie
    [accessToken] when it holds one, else the [Authorization] header);
    without a token it fails with 401; when the token does not verify it
    fails with one 401 message, whatever the error was; and when it verifies
    it passes on the request with the [userId], [gymId] and [role] of the
    decoded claims attached and nothing else changed. *)
Theorem authenticate_outcomes (now : Z) (req : Req.t) :
  authenticate cfg now req
  = match Spec.bearer_token req with
    | None => next_app_error "Token de autenticação não fornecido" 401
    | Some token =>
        match verifyAccessToken cfg now token with
        | Return decoded => NextOk (Spec.attach_identity decoded req)
        | Throw _ => next_app_error "Token inválido ou expirado" 401
        end
    end.
Proof.
  rewrite authenticate_on_token, bearer_token_read.
  destruct (Js.opt_or _ _) as [t|]; [|done].
  by destruct (Js.str_truthy t).
Qed.

(** The cookie wins over the header when it holds a token. *)
Lemma bearer_token_cookie_first (req : Req.t) (c : string) :
  Req.cookies req !! "accessToken" = Some c -> Js.str_truthy c = true ->
  Spec.bearer_token req = Some c.
Proof. intros Hc Ht. unfold Spec.bearer_token. rewrite Hc. simpl. by rewrite Ht. Qed.

(** C10. Without a token in the cookie, [authenticate] verifies what is
    left of the [Authorization] header once the first occurrence of
    ["Bearer "] is removed, wherever it stands; so a header that is a raw
    token (a string in which ["Bearer "] does not occur) is decided exactly
    as the same token sent with the prefix. *)
Theorem bearer_prefix_not_required (now : Z) (req : Req.t) :
  (forall h,
     Js.opt_truthy (Req.cookies req !! "accessToken") = false ->
     Req.headers req !! "authorization" = Some h ->
     authenticate cfg now req
     = if Js.str_truthy (Js.replace "Bearer " "" h)
       then match verifyAccessToken cfg now (Js.replace "Bearer " "" h) with
            | Return decoded => NextOk (Spec.attach_identity decoded req)
            | Throw _ => next_app_error "Token inválido ou expirado" 401
            end
       else next_app_error "Token de autenticação não fornecido" 401)
  /\ (forall a b,
        (forall i, (i < String.length a)%nat ->
           Js.occurs_at "Bearer " i (a ++ "Bearer " ++ b) = false) ->
        Js.replace "Bearer " "" (a ++ "Bearer " ++ b) = a ++ b)
  /\ (forall t,
        Js.opt_truthy (Req.cookies req !! "accessToken") = false ->
        Js.includes "Bearer " t = false ->
        Spec.verdict (authenticate cfg now (Spec.with_authorization t req))
        = Spec.verdict
            (authenticate cfg now (Spec.with_authorization ("Bearer " ++ t) req))).
Proof.
  split; [|split].
  - intros h Hcookie Hh. rewrite authenticate_on_token.
    unfold Js.opt_or. by rewrite Hcookie, Hh.
  - intros a b. apply replace_first_occurrence.
  - intros t Hcookie Ht. rewrite !authenticate_on_token.
    unfold Js.opt_or, Spec.with_authorization.
    cbn [Req.cookies Req.headers]. rewrite Hcookie.
    rewrite !lookup_insert_eq. cbn [fmap option_fmap option_map].
    rewrite replace_bearer_prefix, (replace_without_occurrence _ _ _ Ht).
    destruct (Js.str_truthy t); [|done].
    by destruct (verifyAccessToken cfg now t).
Qed.

End AuthenticateProperties.

(** ** The password hash never leaves the services *)

Lemma every_return_bind {A B} (m : Svc A) (k : A -> Svc B) (P : B -> Prop) :
  (forall a, Spec.every_return P (k a)) -> Spec.every_return P (bind m k).
Proof.
  intros Hk db b db'. unfold bind.
  destruct (m db) as [[a|e] db1]; [apply Hk|discriminate].
Qed.

Lemma every_return_ret {A} (a : A) (P : A -> Prop) :
  P a -> Spec.every_return P (ret a).
Proof. intros Ha db b db' [= <- _]. exact Ha. Qed.

Lemma every_return_throw {A} (e : Thrown) (P : A -> Prop) :
  Spec.every_return P (throw e).
Proof. intros db b db'. discriminate. Qed.

Lemma removeSensitiveData_omits (u : Prisma.User) :
  Spec.omits_passwordHash (UserService.removeSensitiveData u).
Proof. apply lookup_delete_eq. Qed.

Ltac every_return_step :=
  first
    [ apply every_return_throw
    | apply every_return_ret
    | apply every_return_bind; intros
    | match goal with
      | |- Spec.every_return _ (if ?b then _ else _) => destruct b
      | |- Spec.every_return _ (match ?x with _ => _ end) => destruct x
      end ].

Section ResponseProperties.
Context {L : Jwt.Library} {B : Bcrypt.Eksblowfish}.
Variable cfg : JwtConfig.

(** C8. Whatever [register], [login], [getProfile], [listUsers],
    [getUserById], [updateOwnProfile], [updateUser], [deactivateUser] and
    [reactivateUser] return, the user object in it (every user object, for
    a list) has no field [passwordHash]. *)
Theorem responses_omit_passwordHash :
  (forall rt data,
     Spec.every_return (fun r => Spec.omits_passwordHash (user r))
       (AuthService.register cfg rt data))
  /\ (forall rt data,
        Spec.every_return (fun r => Spec.omits_passwordHash (user r))
          (AuthService.login cfg rt data))
  /\ (forall userId,
        Spec.every_return Spec.omits_passwordHash (AuthService.getProfile userId))
  /\ (forall filters requester role gym,
        Spec.every_return (fun r => Forall Spec.omits_passwordHash (data r))
          (UserService.listUsers filters requester role gym))
  /\ (forall userId requester role gym,
        Spec.every_return Spec.omits_passwordHash
          (UserService.getUserById userId requester role gym))
  /\ (forall rt userId d,
        Spec.every_return Spec.omits_passwordHash
          (UserService.updateOwnProfile rt userId d))
  /\ (forall rt userId d requester role gym,
        Spec.every_return Spec.omits_passwordHash
          (UserService.updateUser rt userId d requester role gym))
  /\ (forall rt userId requester role gym,
        Spec.every_return Spec.omits_passwordHash
          (UserService.deactivateUser rt userId requester role gym))
  /\ (forall rt userId requester role gym,
        Spec.every_return Spec.omits_passwordHash
          (UserService.reactivateUser rt userId requester role gym)).
Proof.
  repeat split; intros.
  - unfold AuthService.register, app_error. repeat every_return_step.
    all: apply auth_user_omits_passwordHash.
  - unfold AuthService.login, app_error. repeat every_return_step.
    all: apply auth_user_omits_passwordHash.
  - unfold AuthService.getProfile, app_error. repeat every_return_step.
    all: apply removeSensitiveData_omits.
  - unfold UserService.listUsers, app_error. repeat every_return_step.
    all: apply Forall_map, Forall_forall; intros; apply removeSensitiveData_omits.
  - unfold UserService.getUserById, app_error. repeat every_return_step.
    all: apply removeSensitiveData_omits.
  - unfold UserService.updateOwnProfile, app_error. repeat every_return_step.
    all: apply removeSensitiveData_omits.
  - unfold UserService.updateUser, app_error. repeat every_return_step.
    all: apply removeSensitiveData_omits.
  - unfold UserService.deactivateUser, app_error. repeat every_return_step.
    all: apply removeSensitiveData_omits.
  - unfold UserService.reactivateUser, app_error. repeat every_return_step.
    all: apply removeSensitiveData_omits.
Qed.

End ResponseProperties.

(** ** Token codec *)

Lemma b64u_char_not_dot (c : ascii) :
  Jose.is_b64u_char c = true -> Ascii.eqb c "." = false.
Proof.
  intros H. destruct (Ascii.eqb_spec c ".") as [->|]; [|done].
  by vm_compute in H.
Qed.

Lemma split_dot_segment (s rest : string) :
  Jose.all_b64u s = true ->
  Js.split_dot (s ++ "." ++ rest) = s :: Js.split_dot rest.
Proof.
  induction s as [|c s IH]; intros H.
  - reflexivity.
  - simpl in H. apply andb_true_iff in H as [Hc Hs].
    rewrite string_app_cons. cbn [Js.split_dot].
    by rewrite (b64u_char_not_dot c Hc), (IH Hs).
Qed.

Lemma split_dot_last (s : string) :
  Jose.all_b64u s = true -> Js.split_dot s = [s].
Proof.
  induction s as [|c s IH]; intros H; [done|].
  simpl in H. apply andb_true_iff in H as [Hc Hs].
  cbn [Js.split_dot]. by rewrite (b64u_char_not_dot c Hc), (IH Hs).
Qed.



Lemma segment_all_b64u (s : string) : Jose.segment s = true -> Jose.all_b64u s = true.
Proof. unfold Jose.segment. by intros [_ H]%andb_true_iff. Qed.

Lemma segment_truthy (s : string) : Jose.segment s = true -> Js.str_truthy s = true.
Proof. unfold Jose.segment. by intros [H _]%andb_true_iff. Qed.





Lemma check_claims_own_classes (c : Jwt.Claims) (o : Jwt.VerifyOptions)
    (now : Z) (e : JwtError) :
  Jose.check_claims c o now = Jwt.Raised e -> instanceof_JsonWebTokenError e = true.
Proof.
  unfold Jose.check_claims.
  repeat (match goal with
          | |- context [if ?b then _ else _] => destruct b
          end; try (by intros [= <-]); try discriminate).
Qed.

Section TokenProperties.
Context {C : Jose.Codec} {Laws : Jose.CodecLaws C}.
Variable cfg : JwtConfig.

(** The three segments of a signed token. *)
Lemma signed_token_segments (secret : string) (c : Jwt.Claims) :
  Js.split_dot (Spec.signed_token secret c)
  = [Jose.encode_header "HS256"; Jose.encode_payload c;
     Jose.jwa_sign "HS256" secret
       (Jose.secured_input (Jose.encode_header "HS256") (Jose.encode_payload c))].
Proof.
  unfold Spec.signed_token, Jose.secured_input.
  rewrite !string_app_assoc.
  rewrite split_dot_segment by apply segment_all_b64u, Jose.encode_header_segment.
  rewrite split_dot_segment by apply segment_all_b64u, Jose.encode_payload_segment.
  by rewrite split_dot_last by apply segment_all_b64u, Jose.jwa_sign_segment.
Qed.

Lemma signed_token_truthy (secret : string) (c : Jwt.Claims) :
  Js.str_truthy (Spec.signed_token secret c) = true.
Proof.
  unfold Spec.signed_token, Jose.secured_input.
  pose proof (segment_truthy _ (Jose.encode_header_segment "HS256")) as H.
  destruct (Jose.encode_header "HS256"); [discriminate H|done].
Qed.


(** The payload of a token of the package decodes to its claims, whatever
    the type its header declares. *)
Lemma decoded_payload_encoded (header : Jose.Header) (c : Jwt.Claims) :
  Jose.decoded_payload header (Jose.encode_payload c) = Jose.PayloadClaims c.
Proof.
  unfold Jose.decoded_payload. rewrite Jose.decode_encode_payload.
  by destruct (bool_decide _).
Qed.

(** A signed token passes every check up to the claims. *)
Lemma verify_signed_token (secret : string) (c : Jwt.Claims)
    (o : Jwt.VerifyOptions) (now : Z) :
  Jose.verify (Spec.signed_token secret c) secret o now = Jose.check_claims c o now.
Proof.
  unfold Jose.verify. rewrite signed_token_truthy, signed_token_segments. cbn [negb].
  unfold Jose.verify_segments.
  rewrite Jose.encode_header_segment, Jose.encode_payload_segment.
  rewrite (segment_all_b64u _ (Jose.jwa_sign_segment _ _ _)). cbn [andb negb].
  rewrite Jose.decode_encode_header, decoded_payload_encoded.
  unfold Jose.check_signature. cbn [Jose.alg].
  rewrite (segment_truthy _ (Jose.jwa_sign_segment _ _ _)). cbn [negb].
  rewrite bool_decide_eq_true_2 by (apply list_elem_of_here).
  by rewrite String.eqb_refl.
Qed.


Lemma check_signature_accepts (header : Jose.Header) (h p s secret : string) :
  Jose.check_signature header h p s secret = None ->
  exists a, Jose.alg header = Some a
            /\ Jose.jwa_sign a secret (Jose.secured_input h p) = s.
Proof.
  unfold Jose.check_signature.
  destruct (Js.str_truthy s); cbn [negb]; [|discriminate].
  destruct (Jose.alg header) as [a|]; [|discriminate].
  destruct (bool_decide (a ∈ Jose.HS_ALGS)); cbn [negb]; [|discriminate].
  destruct (String.eqb_spec (Jose.jwa_sign a secret (Jose.secured_input h p)) s)
    as [Heq|Hne]; cbn [negb]; [|discriminate].
  intros _. by exists a.
Qed.





Lemma verifyAccessToken_signed (c : Jwt.Claims) (t : Z) :
  verifyAccessToken cfg t (Spec.signed_token (accessSecret cfg) c)
  = match Jose.check_claims c (Jwt.mkVerifyOptions ISSUER AUDIENCE) t with
    | Jwt.Decoded d => Return d
    | Jwt.Raised (TokenExpiredError _) => Throw (ThrownError "Access token expired")
    | Jwt.Raised _ => Throw (ThrownError "Invalid access token")
    end.
Proof.
  unfold verifyAccessToken. cbn [Jwt.verify Jose.library].
  rewrite verify_signed_token.
  destruct (Jose.check_claims _ _ _) as [d|e] eqn:E; [done|].
  apply check_claims_own_classes in E. by destruct e.
Qed.

Lemma generateAccessToken_signed (now : Z) (payload : JwtPayload) :
  generateAccessToken cfg now payload
  = Spec.signed_token (accessSecret cfg) (Spec.issued_claims cfg now payload).
Proof. reflexivity. Qed.






End TokenProperties.

(** ** The reference codec satisfies the laws *)

Lemma string_app_nil_r (s : string) : s ++ "" = s.
Proof. induction s as [|c s IH]; [done|]. by rewrite string_app_cons, IH. Qed.

Lemma all_b64u_app (a b : string) :
  Jose.all_b64u (a ++ b) = Jose.all_b64u a && Jose.all_b64u b.
Proof.
  induction a as [|c a IH]; [done|].
  rewrite string_app_cons. simpl. by rewrite IH, andb_assoc.
Qed.

Lemma letter_high_not_z (c : ascii) :
  Ascii.eqb (Reference.letter (N.shiftr (N_of_ascii c) 4)) "z" = false.
Proof.
  apply negb_true_iff. revert c. apply forall_byte. vm_compute. reflexivity.
Qed.

Lemma half_letter_high (c : ascii) :
  Reference.half (Reference.letter (N.shiftr (N_of_ascii c) 4))
  = Some (N.shiftr (N_of_ascii c) 4).
Proof.
  apply (bool_decide_eq_true_1 (_ = _)).
  revert c. apply forall_byte. vm_compute. reflexivity.
Qed.

Lemma half_letter_low (c : ascii) :
  Reference.half (Reference.letter (N.land (N_of_ascii c) 15))
  = Some (N.land (N_of_ascii c) 15).
Proof.
  apply (bool_decide_eq_true_1 (_ = _)).
  revert c. apply forall_byte. vm_compute. reflexivity.
Qed.

Lemma byte_of_halves (c : ascii) :
  ascii_of_N (N.lor (N.shiftl (N.shiftr (N_of_ascii c) 4) 4)
                (N.land (N_of_ascii c) 15)) = c.
Proof. by_all_bytes1 c. Qed.

Lemma letter_high_b64u (c : ascii) :
  Jose.is_b64u_char (Reference.letter (N.shiftr (N_of_ascii c) 4)) = true.
Proof. revert c. apply forall_byte. vm_compute. reflexivity. Qed.

Lemma letter_low_b64u (c : ascii) :
  Jose.is_b64u_char (Reference.letter (N.land (N_of_ascii c) 15)) = true.
Proof. revert c. apply forall_byte. vm_compute. reflexivity. Qed.

Lemma get_put_string (s rest : string) :
  Reference.get_string (Reference.put_string s ++ rest) = Some (s, rest).
Proof.
  induction s as [|c s IH]; [done|].
  cbn [Reference.put_string]. rewrite !string_app_cons.
  cbn [Reference.get_string].
  by rewrite letter_high_not_z, half_letter_high, half_letter_low, IH, byte_of_halves.
Qed.

Lemma put_string_b64u (s : string) : Jose.all_b64u (Reference.put_string s) = true.
Proof.
  induction s as [|c s IH]; [done|].
  cbn [Reference.put_string Jose.all_b64u].
  by rewrite letter_high_b64u, letter_low_b64u, IH.
Qed.

Lemma put_string_truthy (s : string) : Js.str_truthy (Reference.put_string s) = true.
Proof. by destruct s. Qed.

Lemma get_put_pos (p : positive) (rest : string) :
  Reference.get_pos (Reference.put_pos p ++ rest) = Some (p, rest).
Proof.
  induction p as [p IH|p IH|]; [| |done];
    cbn [Reference.put_pos]; rewrite string_app_cons;
    cbn [Reference.get_pos]; by rewrite IH.
Qed.

Lemma put_pos_b64u (p : positive) : Jose.all_b64u (Reference.put_pos p) = true.
Proof. induction p as [p IH|p IH|]; [| |done]; simpl; by rewrite IH. Qed.

Lemma get_put_Z (n : Z) (rest : string) :
  Reference.get_Z (Reference.put_Z n ++ rest) = Some (n, rest).
Proof.
  destruct n as [|p|p]; [done| |];
    cbn [Reference.put_Z]; rewrite string_app_cons;
    cbn [Reference.get_Z]; by rewrite get_put_pos.
Qed.

Lemma put_Z_b64u (n : Z) : Jose.all_b64u (Reference.put_Z n) = true.
Proof. destruct n; [done| |]; simpl; by rewrite put_pos_b64u. Qed.

Lemma get_put_option {A} (put : A -> string) (get : string -> option (A * string))
    (o : option A) (rest : string) :
  (forall x r, get (put x ++ r) = Some (x, r)) ->
  Reference.get_option get (Reference.put_option put o ++ rest) = Some (o, rest).
Proof.
  intros H. destruct o as [x|]; [|done].
  cbn [Reference.put_option]. rewrite string_app_cons.
  cbn [Reference.get_option]. by rewrite H.
Qed.

Lemma put_option_b64u {A} (put : A -> string) (o : option A) :
  (forall x, Jose.all_b64u (put x) = true) ->
  Jose.all_b64u (Reference.put_option put o) = true.
Proof. intros H. destruct o; [|done]. simpl. by rewrite H. Qed.

Lemma get_put_list (l : list string) (rest : string) (fuel : nat) :
  (length l <= fuel)%nat ->
  Reference.get_list fuel (Reference.put_list l ++ rest) = Some (l, rest).
Proof.
  revert fuel. induction l as [|x l IH]; intros fuel Hf.
  - by destruct fuel.
  - destruct fuel as [|fuel]; [simpl in Hf; lia|].
    cbn [Reference.put_list]. rewrite string_app_cons, string_app_assoc.
    cbn [Reference.get_list]. rewrite get_put_string, IH; [done|simpl in Hf; lia].
Qed.

Lemma put_list_b64u (l : list string) : Jose.all_b64u (Reference.put_list l) = true.
Proof.
  induction l as [|x l IH]; [done|].
  cbn [Reference.put_list Jose.all_b64u]. rewrite all_b64u_app, put_string_b64u, IH. done.
Qed.

Lemma put_list_length (l : list string) :
  (length l < String.length (Reference.put_list l))%nat.
Proof.
  induction l as [|x l IH]; [simpl; lia|].
  cbn [Reference.put_list]. simpl. rewrite string_length_app. lia.
Qed.

Lemma get_put_claims (c : Jwt.Claims) :
  Reference.get_claims (Reference.put_claims c) = Some c.
Proof.
  destruct c as [u g r i e n o a].
  unfold Reference.get_claims, Reference.put_claims. cbn [Jwt.userId Jwt.gymId
    Jwt.role Jwt.iat Jwt.exp Jwt.nbf Jwt.iss Jwt.aud].
  rewrite (get_put_option _ _ u _ get_put_string). cbn [mbind option_bind].
  rewrite (get_put_option _ _ g _ get_put_string). cbn [mbind option_bind].
  rewrite (get_put_option _ _ r _ get_put_string). cbn [mbind option_bind].
  rewrite (get_put_option _ _ i _ get_put_Z). cbn [mbind option_bind].
  rewrite (get_put_option _ _ e _ get_put_Z). cbn [mbind option_bind].
  rewrite (get_put_option _ _ n _ get_put_Z). cbn [mbind option_bind].
  rewrite (get_put_option _ _ o _ get_put_string). cbn [mbind option_bind].
  rewrite <- (string_app_nil_r (Reference.put_list a)) at 2.
  rewrite get_put_list by (pose proof (put_list_length a); lia).
  reflexivity.
Qed.

Lemma put_claims_segment (c : Jwt.Claims) :
  Jose.segment (Reference.put_claims c) = true.
Proof.
  unfold Jose.segment, Reference.put_claims. apply andb_true_iff. split.
  - by destruct (Jwt.userId c).
  - rewrite !all_b64u_app, !put_option_b64u, put_list_b64u;
      auto using put_string_b64u, put_Z_b64u.
Qed.

Lemma reference_codec_laws : Jose.CodecLaws Reference.codec.
Proof.
  split.
  - intros a. cbn [Jose.decode_header Jose.encode_header Reference.codec].
    unfold Reference.get_header.
    rewrite <- (string_app_nil_r (Reference.put_string a)).
    by rewrite get_put_string.
  - intros c. cbn [Jose.decode_payload Jose.encode_payload Reference.codec].
    unfold Reference.parse. by rewrite get_put_claims.
  - intros a. cbn [Jose.encode_header Reference.codec]. unfold Jose.segment.
    by rewrite put_string_truthy, put_string_b64u.
  - apply put_claims_segment.
  - intros a k m. cbn [Jose.jwa_sign Reference.codec]. unfold Jose.segment.
    rewrite !all_b64u_app, !put_string_b64u. by destruct a.
Qed.

(** ** The theorems at the reference instances, and the scenarios of the
    specification *)





(** Registering the same email twice in a tenant fails the second time;
    the same email under another tenant is accepted. *)
Example registration_scenario :
  AuthService.register Reference.cfg (Reference.runtime 1000 "id-1")
    (Reference.maria "gym-1") []
  = (Return (mkAuthResponse (auth_user Reference.maria_record)
               (generateAccessToken Reference.cfg 1000
                  (mkJwtPayload "id-1" "gym-1" MEMBER))
               (generateRefreshToken Reference.cfg 1000 "id-1")),
     [Reference.maria_record])
  /\ AuthService.register Reference.cfg (Reference.runtime 1001 "id-2")
       (Reference.maria "gym-1") [Reference.maria_record]
     = (Throw (ThrownApp (mkAppError "E-mail já cadastrado nesta academia" 409)),
        [Reference.maria_record])
  /\ AuthService.register Reference.cfg (Reference.runtime 1001 "id-2")
       (Reference.maria "gym-2") [Reference.maria_record]
     = (Throw (ThrownApp (mkAppError "CPF já cadastrado" 409)),
        [Reference.maria_record])
  /\ (exists response,
        fst (AuthService.register Reference.cfg (Reference.runtime 1001 "id-2")
               (mkRegisterDTO "Maria Souza" "maria@example.com" "Senha456"
                  "gym-2" None None None None) [Reference.maria_record])
        = Return response
        /\ user response !! "role" = Some (Js.JStr "MEMBER")
        /\ user response !! "gymId" = Some (Js.JStr "gym-2")).
Proof.
  repeat split; try (vm_compute; reflexivity).
  eexists. repeat split; vm_compute; reflexivity.
Qed.

(** Login: the right password, a wrong one, an unknown email, and the right
    password on a deactivated account. *)
Example login_scenario :
  let inactive :=
    Prisma.mkUser "id-1" "gym-1" "Maria Silva" "maria@example.com"
      (Prisma.passwordHash Reference.maria_record) MEMBER None None None None
      false 1000 2000 in
  fst (AuthService.login Reference.cfg (Reference.runtime 1100 "")
         (mkLoginDTO "maria@example.com" "Senha123" "gym-1")
         [Reference.maria_record])
  = Return (mkAuthResponse (auth_user Reference.maria_record)
              (generateAccessToken Reference.cfg 1100
                 (mkJwtPayload "id-1" "gym-1" MEMBER))
              (generateRefreshToken Reference.cfg 1100 "id-1"))
  /\ fst (AuthService.login Reference.cfg (Reference.runtime 1100 "")
            (mkLoginDTO "maria@example.com" "SenhaErrada123" "gym-1")
            [Reference.maria_record])
     = Throw (ThrownApp (mkAppError "Credenciais inválidas" 401))
  /\ fst (AuthService.login Reference.cfg (Reference.runtime 1100 "")
            (mkLoginDTO "naoexiste@example.com" "Senha123" "gym-1")
            [Reference.maria_record])
     = Throw (ThrownApp (mkAppError "Credenciais inválidas" 401))
  /\ fst (AuthService.login Reference.cfg (Reference.runtime 1100 "")
            (mkLoginDTO "maria@example.com" "Senha123" "gym-1") [inactive])
     = Throw (ThrownApp (mkAppError "Usuário inativo" 403)).
Proof. repeat split; vm_compute; reflexivity. Qed.

(** Refresh reflects the record as stored: after an administrator made
    Maria an instructor, the token refreshed from her old refresh token
    carries the new role. *)
Example refresh_scenario :
  let promoted :=
    Prisma.mkUser "id-1" "gym-1" "Maria Silva" "maria@example.com"
      (Prisma.passwordHash Reference.maria_record) INSTRUCTOR None None None
      None true 1000 2000 in
  let refresh := generateRefreshToken Reference.cfg 1000 "id-1" in
  AuthService.refreshAccessToken Reference.cfg (Reference.runtime 3000 "")
    refresh [promoted]
  = (Return {[ "accessToken" :=
                 Js.JStr (generateAccessToken Reference.cfg 3000
                            (mkJwtPayload "id-1" "gym-1" INSTRUCTOR)) ]},
     [promoted])
  /\ Jwt.role <$> (match verifyAccessToken Reference.cfg 3100
                            (generateAccessToken Reference.cfg 3000
                               (mkJwtPayload "id-1" "gym-1" INSTRUCTOR)) with
                   | Return d => Some d
                   | Throw _ => None
                   end)
     = Some (Some "INSTRUCTOR")
  /\ fst (AuthService.refreshAccessToken Reference.cfg
            (Reference.runtime 3000 "") "token.invalido.aqui" [promoted])
     = Throw (ThrownApp (mkAppError "Refresh token inválido ou expirado" 401))
  /\ fst (AuthService.refreshAccessToken Reference.cfg
            (Reference.runtime 3000 "") refresh [])
     = Throw (ThrownApp (mkAppError "Usuário não encontrado" 404)).
Proof. repeat split; vm_compute; reflexivity. Qed.

(** The gate: a member on a staff route, no token, a raw token in the
    header, and the cookie before the header. *)
Example gate_scenario :
  let token := generateAccessToken Reference.cfg 1000 Reference.member in
  let bare := Req.mk ∅ ∅ ∅ ∅ ∅ None None None in
  let identified :=
    Req.mk ∅ ∅ ∅ ∅ {[ "authorization" := token ]}
      (Some "user-123") (Some "gym-abc") (Some "MEMBER") in
  authenticate Reference.cfg 1200 bare
  = next_app_error "Token de autenticação não fornecido" 401
  /\ authenticate Reference.cfg 1200 (Spec.with_authorization token bare)
     = NextOk identified
  /\ Spec.verdict
       (authenticate Reference.cfg 1200
          (Spec.with_authorization ("Bearer " ++ token) bare))
     = Return (Some "user-123", Some "gym-abc", Some "MEMBER")
  /\ Spec.verdict
       (authenticate Reference.cfg 1200
          (Req.mk ∅ ∅ ∅ {[ "accessToken" := token ]}
             {[ "authorization" := "Bearer token.invalido.aqui" ]}
             None None None))
     = Return (Some "user-123", Some "gym-abc", Some "MEMBER")
  /\ authenticate Reference.cfg 2000 (Spec.with_authorization token bare)
     = next_app_error "Token inválido ou expirado" 401
  /\ authorize [ADMIN; INSTRUCTOR] identified
     = next_app_error
         "Acesso negado. Permissões necessárias: ADMIN, INSTRUCTOR" 403
  /\ authorize [ADMIN; INSTRUCTOR] bare
     = next_app_error "Usuário não autenticado" 401.
Proof. repeat split; vm_compute; reflexivity. Qed.

(** A profile is returned with its fields, except the hash. *)
Example profile_scenario :
  exists profile,
    AuthService.getProfile "id-1" [Reference.maria_record]
    = (Return profile, [Reference.maria_record])
    /\ profile !! "email" = Some (Js.JStr "maria@example.com")
    /\ profile !! "passwordHash" = None
    /\ user_object Reference.maria_record !! "passwordHash"
       = Some (Js.JStr (Prisma.passwordHash Reference.maria_record)).
Proof.
  eexists. split; [reflexivity|]. repeat split; vm_compute; reflexivity.
Qed.

(* ===================================================================== *)
(** * Further properties: user management *)
(* ===================================================================== *)

(** ** Lists and the table of users *)

Lemma find_split {A} (p : A -> bool) (l : list A) (x : A) :
  List.find p l = Some x ->
  exists pre post, l = (pre ++ x :: post)%list
                   /\ (forall y, y ∈ pre -> p y = false) /\ p x = true.
Proof.
  induction l as [|a l IH]; simpl; [done|].
  destruct (p a) eqn:Ha.
  - intros [= ->]. exists [], l. repeat split; [|done]. intros y Hy. inversion Hy.
  - intros H. destruct (IH H) as (pre & post & -> & Hpre & Hx).
    exists (a :: pre), post. repeat split; [|done].
    intros y Hy. inversion Hy; subst; auto.
Qed.

Lemma find_app_skip {A} (p : A -> bool) (pre l : list A) :
  (forall y, y ∈ pre -> p y = false) ->
  List.find p (pre ++ l)%list = List.find p l.
Proof.
  induction pre as [|a pre IH]; simpl; [done|]. intros H.
  rewrite (H a (list_elem_of_here _ _)). apply IH.
  intros y Hy. apply H. by apply list_elem_of_further.
Qed.

Lemma existsb_false_elem {A} (f : A -> bool) (l : list A) :
  existsb f l = false -> forall x, x ∈ l -> f x = false.
Proof.
  intros H x Hx. apply list_elem_of_In in Hx.
  destruct (f x) eqn:Hf; [|done].
  assert (existsb f l = true) by (apply existsb_exists; eauto). congruence.
Qed.

Lemma existsb_find_none {A} (p : A -> bool) (l : list A) :
  existsb p l = false -> List.find p l = None.
Proof. intros H. apply find_none_iff. by apply existsb_false_elem. Qed.

Lemma find_app_last {A} (p : A -> bool) (l : list A) (x : A) :
  List.find p l = None -> p x = true -> List.find p (l ++ [x])%list = Some x.
Proof.
  intros Hl Hx. rewrite find_app_skip by (by apply find_none_iff).
  simpl. by rewrite Hx.
Qed.

Lemma find_filter_none {A} (p : A -> bool) (l : list A) :
  List.find p (filter (fun x => p x = false) l) = None.
Proof.
  apply find_none_iff. intros x Hx. by apply list_elem_of_filter in Hx as [Hp _].
Qed.

Lemma rev_subseteq {A} (l : list A) : rev l ⊆ l.
Proof. intros x Hx. apply list_elem_of_In, in_rev. by apply list_elem_of_In. Qed.

Lemma pages_concat {A} (rows : list A) (k n : nat) :
  concat (map (fun p => take k (drop ((p - 1) * k) rows)) (seq 1 n))
  = take (n * k) rows.
Proof.
  induction n as [|n IH]; [by rewrite take_0|].
  rewrite seq_S, map_app, concat_app, IH. simpl.
  rewrite app_nil_r, Nat.sub_0_r, take_take_drop. f_equal. lia.
Qed.

Section UserTable.
Import Prisma.

Lemma findById_split (id0 : string) (db : list User) (u : User) :
  List.find (fun u => String.eqb (id u) id0) db = Some u ->
  exists pre post, db = (pre ++ u :: post)%list
    /\ (forall v, v ∈ pre -> String.eqb (id v) id0 = false)
    /\ String.eqb (id u) id0 = true.
Proof. intros H. exact (find_split (fun v => String.eqb (id v) id0) db u H). Qed.

Lemma update_row_app (id0 : string) (f : User -> User) (pre : list User)
    (u : User) (post : list User) :
  (forall y, y ∈ pre -> String.eqb (id y) id0 = false) ->
  String.eqb (id u) id0 = true ->
  PrismaUserRepository.update_row id0 f (pre ++ u :: post)%list
  = Some (f u, (pre ++ f u :: post)%list).
Proof.
  induction pre as [|a pre IH]; simpl; intros Hpre Hu.
  - by rewrite Hu.
  - rewrite (Hpre a (list_elem_of_here _ _)).
    rewrite IH; [done| |done]. intros y Hy. apply Hpre. by apply list_elem_of_further.
Qed.

(** [update] on the first row with the id: refused by a unique index, or
    written in place. *)
Lemma update_checked (rt : Runtime) (id0 : string) (d : UpdateUserData)
    (pre : list User) (u : User) (post : list User) :
  (forall y, y ∈ pre -> String.eqb (id y) id0 = false) ->
  String.eqb (id u) id0 = true ->
  PrismaUserRepository.update rt id0 d (pre ++ u :: post)%list
  = if PrismaUserRepository.breaks_unique id0 d
         (PrismaUserRepository.apply_update (clock rt) d u)
         (pre ++ u :: post)%list
    then (Throw (ThrownPrisma "P2002"), (pre ++ u :: post)%list)
    else (Return (PrismaUserRepository.apply_update (clock rt) d u),
          (pre ++ PrismaUserRepository.apply_update (clock rt) d u :: post)%list).
Proof.
  intros Hpre Hu. unfold PrismaUserRepository.update.
  by rewrite (update_row_app _ _ _ _ _ Hpre Hu).
Qed.

(** Data that sets neither the email nor the national ID is never refused. *)
Lemma update_found (rt : Runtime) (id0 : string) (d : UpdateUserData)
    (pre : list User) (u : User) (post : list User) :
  update_email d = None -> update_cpf d = None ->
  (forall y, y ∈ pre -> String.eqb (id y) id0 = false) ->
  String.eqb (id u) id0 = true ->
  PrismaUserRepository.update rt id0 d (pre ++ u :: post)%list
  = (Return (PrismaUserRepository.apply_update (clock rt) d u),
     (pre ++ PrismaUserRepository.apply_update (clock rt) d u :: post)%list).
Proof.
  intros He Hc Hpre Hu. rewrite update_checked by done.
  unfold PrismaUserRepository.breaks_unique. by rewrite He, Hc.
Qed.

Lemma findById_after_update (id0 : string) (pre : list User) (u' : User)
    (post : list User) :
  (forall v, v ∈ pre -> String.eqb (id v) id0 = false) ->
  String.eqb (id u') id0 = true ->
  PrismaUserRepository.findById id0 (pre ++ u' :: post)%list
  = (Return (Some u'), (pre ++ u' :: post)%list).
Proof.
  intros Hpre Hu. unfold PrismaUserRepository.findById.
  rewrite find_app_skip by exact Hpre. simpl. by rewrite Hu.
Qed.

Lemma insert_desc_perm (u : User) (l : list User) :
  PrismaUserRepository.insert_desc u l ≡ₚ u :: l.
Proof.
  induction l as [|v l IH]; simpl; [done|].
  destruct (createdAt v <? createdAt u)%Z; [done|].
  rewrite IH. apply Permutation_swap.
Qed.

Lemma order_desc_perm (l : list User) : PrismaUserRepository.order_desc l ≡ₚ l.
Proof.
  induction l as [|v l IH]; simpl; [done|]. by rewrite insert_desc_perm, IH.
Qed.

Lemma insert_desc_sorted (u : User) (l : list User) :
  StronglySorted (fun a b => (createdAt b <= createdAt a)%Z) l ->
  StronglySorted (fun a b => (createdAt b <= createdAt a)%Z)
    (PrismaUserRepository.insert_desc u l).
Proof.
  induction 1 as [|v l Hl IH Hv]; simpl.
  - repeat constructor.
  - destruct (createdAt v <? createdAt u)%Z eqn:Hlt.
    + apply Z.ltb_lt in Hlt. constructor; [by constructor|].
      constructor; [lia|]. revert Hv. apply List.Forall_impl. intros; lia.
    + apply Z.ltb_ge in Hlt. constructor; [done|].
      rewrite insert_desc_perm. by constructor.
Qed.

Lemma order_desc_sorted (l : list User) :
  StronglySorted (fun a b => (createdAt b <= createdAt a)%Z)
    (PrismaUserRepository.order_desc l).
Proof.
  induction l as [|v l IH]; simpl; [constructor|]. by apply insert_desc_sorted.
Qed.

Lemma window_subseteq (skip take_ : Z) (rows : list User) :
  PrismaUserRepository.window skip take_ rows ⊆ rows.
Proof.
  unfold PrismaUserRepository.window.
  destruct (take_ <? 0)%Z.
  - etrans; [apply rev_subseteq|]. etrans; [apply subseteq_take|].
    etrans; [apply subseteq_drop|]. apply rev_subseteq.
  - etrans; [apply subseteq_take|]. apply subseteq_drop.
Qed.

Lemma matches_gym (f : FindManyUsersFilters) (u : User) :
  PrismaUserRepository.matches f u = true ->
  gymId u = filter_gymId f
  /\ (forall r, filter_role f = Some r -> role u = r)
  /\ (forall b, filter_isActive f = Some b -> isActive u = b).
Proof.
  unfold PrismaUserRepository.matches. rewrite !andb_true_iff.
  intros [[[Hg Hr] Ha] _]. repeat split.
  - by apply String.eqb_eq.
  - intros r Hf. rewrite Hf in Hr. by apply bool_decide_eq_true_1 in Hr.
  - intros b Hf. rewrite Hf in Ha. by apply Bool.eqb_prop in Ha.
Qed.

Lemma ceil_div_bounds (a b : Z) :
  (0 <= a)%Z -> (1 <= b)%Z ->
  (0 <= PrismaUserRepository.ceil_div a b
   /\ a <= PrismaUserRepository.ceil_div a b * b < a + b)%Z.
Proof.
  intros Ha Hb. unfold PrismaUserRepository.ceil_div.
  pose proof (Z.div_mod (- a) b ltac:(lia)) as Hdm.
  pose proof (Z.mod_pos_bound (- a) b ltac:(lia)) as Hmod.
  nia.
Qed.

End UserTable.

(** ** What the user service writes *)

Section UserWrites.
Import Prisma.

(** X7. [updateOwnProfile] changes one row only, the first with the id, and
    in it nothing but the name, the phone, the birth date, the avatar and
    [updatedAt]: identity, tenant, email, hash, role, national ID and the
    active flag stay as they were. It fails with 404 or 403, and then the
    table is as it was. *)
Theorem updateOwnProfile_scope (rt : Runtime) (userId : string)
    (d : UpdateProfileDTO) (db : list User) :
  match UserService.updateOwnProfile rt userId d db with
  | (Return r, db') =>
      exists pre u post u',
        db = (pre ++ u :: post)%list /\ db' = (pre ++ u' :: post)%list
        /\ (forall v, v ∈ pre -> id v <> userId)
        /\ id u = userId /\ isActive u = true
        /\ r = UserService.removeSensitiveData u'
        /\ (id u' = id u /\ gymId u' = gymId u /\ email u' = email u
            /\ passwordHash u' = passwordHash u /\ role u' = role u
            /\ cpf u' = cpf u /\ isActive u' = isActive u
            /\ createdAt u' = createdAt u)
        /\ name u' = default (name u) (profile_name d)
        /\ phone u' = from_option Some (phone u) (profile_phone d)
        /\ birthDate u' = from_option Some (birthDate u) (profile_birthDate d)
        /\ avatarUrl u' = from_option Some (avatarUrl u) (profile_avatarUrl d)
        /\ updatedAt u' = clock rt
  | (Throw e, db') =>
      db' = db
      /\ (e = ThrownApp (mkAppError "Usuário não encontrado" 404)
          \/ e = ThrownApp (mkAppError "Usuário inativo" 403))
  end.
Proof.
  unfold UserService.updateOwnProfile, bind, PrismaUserRepository.findById.
  destruct (List.find _ db) as [u|] eqn:Hfind; [|simpl; auto].
  destruct (isActive u) eqn:Hact; simpl; [|auto].
  destruct (findById_split _ _ _ Hfind) as (pre & post & -> & Hpre & Hu).
  rewrite update_found by first [reflexivity|exact Hpre|exact Hu]. simpl.
  eexists pre, u, post, _. repeat split; try reflexivity.
  - intros v Hv Heq. specialize (Hpre v Hv). apply String.eqb_neq in Hpre. done.
  - by apply String.eqb_eq.
  - done.
Qed.

(** Another row than [userId] that the unique indexes set against the
    data of an update. *)
Lemma breaks_unique_spec (userId : string) (data : UpdateUserData) (u' : User)
    (db : list User) :
  (PrismaUserRepository.breaks_unique userId data u' db = true ->
   (exists e v, update_email data = Some e /\ v ∈ db /\ id v <> userId
                /\ email v = e /\ gymId v = gymId u')
   \/ (exists c v, update_cpf data = Some c /\ v ∈ db /\ id v <> userId
                   /\ cpf v = Some c))
  /\ (PrismaUserRepository.breaks_unique userId data u' db = false ->
      (forall e v, update_email data = Some e -> v ∈ db -> id v <> userId ->
         email v = e -> gymId v <> gymId u')
      /\ (forall c v, update_cpf data = Some c -> v ∈ db -> id v <> userId ->
            cpf v <> Some c)).
Proof.
  unfold PrismaUserRepository.breaks_unique, PrismaUserRepository.other_than,
    PrismaUserRepository.holds_email, PrismaUserRepository.holds_cpf.
  split.
  - intros [H|H]%orb_true_iff.
    + left. destruct (update_email data) as [e|]; [|discriminate].
      apply existsb_exists in H as (v & Hv & Hf).
      apply andb_true_iff in Hf as [Hid [He Hg]%andb_true_iff].
      exists e, v. split; [done|]. split; [by apply list_elem_of_In|].
      apply negb_true_iff, String.eqb_neq in Hid.
      apply String.eqb_eq in He, Hg. done.
    + right. destruct (update_cpf data) as [c|]; [|discriminate].
      apply existsb_exists in H as (v & Hv & Hf).
      apply andb_true_iff in Hf as [Hid Hc].
      exists c, v. split; [done|]. split; [by apply list_elem_of_In|].
      apply negb_true_iff, String.eqb_neq in Hid.
      by apply bool_decide_eq_true_1 in Hc.
  - intros [He Hc]%orb_false_iff. split.
    + intros e v Hdata Hv Hid Hev Hgv. rewrite Hdata in He.
      pose proof (existsb_false_elem _ _ He v Hv) as Hf. cbv beta in Hf.
      apply String.eqb_neq in Hid.
      rewrite Hid, Hev, Hgv, !String.eqb_refl in Hf. done.
    + intros c v Hdata Hv Hid Hcv. rewrite Hdata in Hc.
      pose proof (existsb_false_elem _ _ Hc v Hv) as Hf. cbv beta in Hf.
      apply String.eqb_neq in Hid.
      rewrite Hid, bool_decide_eq_true_2 in Hf; done.
Qed.

(** X8. [updateUser] succeeds only for an administrator on a record of the
    administrator's own tenant; it changes that one row and keeps its id,
    tenant, hash and creation date; a new non-empty email was not in use
    in the tenant and a new non-empty national ID was not in use at all;
    and no other row holds the email the data sets, in the tenant, or the
    national ID the data sets. Every failure leaves the table as it was.
    It is an [AppError] with status 403, 404 or 409, or the error [P2002]
    of the store's unique indexes, which the service does not turn into a
    conflict: this one arises only for an administrator on a record of
    the tenant, when the data sets the email or the national ID to the
    empty string or to the value the record has, and another row holds
    it. *)
Theorem updateUser_scope (rt : Runtime) (userId : string) (d : UpdateUserDTO)
    (requester : string) (role0 : Role) (gym : string) (db : list User) :
  match UserService.updateUser rt userId d requester role0 gym db with
  | (Return r, db') =>
      role0 = ADMIN
      /\ exists pre u post u',
           db = (pre ++ u :: post)%list /\ db' = (pre ++ u' :: post)%list
           /\ (forall v, v ∈ pre -> id v <> userId)
           /\ id u = userId /\ gymId u = gym
           /\ r = UserService.removeSensitiveData u'
           /\ (id u' = id u /\ gymId u' = gymId u
               /\ passwordHash u' = passwordHash u /\ createdAt u' = createdAt u)
           /\ (email u' <> email u -> email u' <> "" ->
               forall v, v ∈ db -> email v = email u' -> gymId v <> gymId u)
           /\ (cpf u' <> cpf u -> cpf u' <> Some "" ->
               forall v, v ∈ db -> cpf v <> cpf u')
           /\ (forall e v, dto_email d = Some e -> v ∈ db -> id v <> userId ->
                 email v = e -> gymId v <> gymId u)
           /\ (forall c v, dto_cpf d = Some c -> v ∈ db -> id v <> userId ->
                 cpf v <> Some c)
  | (Throw e, db') =>
      db' = db
      /\ ((exists msg status,
             e = ThrownApp (mkAppError msg status)
             /\ (status = 403 \/ status = 404 \/ status = 409)%Z)
          \/ (e = ThrownPrisma "P2002" /\ role0 = ADMIN
              /\ exists u,
                   List.find (fun v => String.eqb (id v) userId) db = Some u
                   /\ gymId u = gym
                   /\ ((exists e0 v,
                          dto_email d = Some e0 /\ (e0 = "" \/ e0 = email u)
                          /\ v ∈ db /\ id v <> userId
                          /\ email v = e0 /\ gymId v = gymId u)
                       \/ (exists c v,
                             dto_cpf d = Some c /\ (c = "" \/ Some c = cpf u)
                             /\ v ∈ db /\ id v <> userId /\ cpf v = Some c))))
  end.
Proof.
  unfold UserService.updateUser.
  destruct (bool_decide (role0 = ADMIN)) eqn:Hrole; simpl;
    [apply bool_decide_eq_true_1 in Hrole|by eauto 8].
  unfold bind at 1, PrismaUserRepository.findById.
  destruct (List.find _ db) as [u|] eqn:Hfind; [|simpl; by eauto 8].
  destruct (String.eqb_spec (gymId u) gym) as [Hgym|Hgym]; simpl; [|by eauto 8].
  destruct (findById_split _ _ _ Hfind) as (pre & post & Hdb & Hpre & Hu).
  unfold bind at 1.
  set (emailCheck := match dto_email d with Some _ => _ | None => _ end).
  assert (emailCheck db = (Return tt, db)
            /\ (forall e, dto_email d = Some e -> e <> "" -> e <> email u ->
                forall v, v ∈ db -> email v = e -> gymId v <> gymId u)
          \/ emailCheck db = (Throw (ThrownApp (mkAppError "E-mail já cadastrado" 409)), db))
    as [[-> Hemail]| ->]; [|..|simpl; by eauto 8].
  { subst emailCheck.
    destruct (dto_email d) as [e|]; [|left; split; [reflexivity|by intros ? [=]]].
    destruct e as [|c e']; cbn [Js.str_truthy andb];
      [left; split; [reflexivity|by intros ? [= <-]]|].
    destruct (String.eqb_spec (String c e') (email u)) as [Heq|Hne]; cbn [negb].
    { left. split; [reflexivity|]. intros ? [= <-]. done. }
    unfold bind, PrismaUserRepository.existsByEmailAndGymId.
    rewrite count_positive.
    destruct (existsb _ db) eqn:Hex; [by right|]. left. split; [reflexivity|].
    intros ? [= <-] _ _ v Hv Hev Hgv.
    pose proof (existsb_false_elem _ _ Hex v Hv) as Hf. simpl in Hf.
    rewrite Hev, Hgv, !String.eqb_refl in Hf. done. }
  unfold bind at 1.
  set (cpfCheck := match dto_cpf d with Some _ => _ | None => _ end).
  assert (cpfCheck db = (Return tt, db)
            /\ (forall c, dto_cpf d = Some c -> c <> "" -> Some c <> cpf u ->
                forall v, v ∈ db -> cpf v <> Some c)
          \/ cpfCheck db = (Throw (ThrownApp (mkAppError "CPF já cadastrado" 409)), db))
    as [[-> Hcpf]| ->]; [|..|simpl; by eauto 8].
  { subst cpfCheck.
    destruct (dto_cpf d) as [c|]; [|left; split; [reflexivity|by intros ? [=]]].
    destruct c as [|c0 c']; cbn [Js.str_truthy andb];
      [left; split; [reflexivity|by intros ? [= <-]]|].
    destruct (bool_decide (Some (String c0 c') = cpf u)) eqn:Hdec; cbn [negb].
    { apply bool_decide_eq_true_1 in Hdec. left. split; [reflexivity|].
      intros ? [= <-]. done. }
    unfold bind, PrismaUserRepository.existsByCpf.
    rewrite count_positive.
    destruct (existsb _ db) eqn:Hex; [by right|]. left. split; [reflexivity|].
    intros ? [= <-] _ _ v Hv Hcv.
    pose proof (existsb_false_elem _ _ Hex v Hv) as Hf. simpl in Hf.
    rewrite bool_decide_eq_true_2 in Hf; done. }
  unfold bind.
  match goal with
  | |- context [PrismaUserRepository.update rt userId ?data db] =>
      pose proof (update_checked rt userId data pre u post Hpre Hu) as Hupd;
      pose proof (breaks_unique_spec userId data
                    (PrismaUserRepository.apply_update (clock rt) data u) db)
        as [Hbreaks Hkeeps]
  end.
  rewrite <- Hdb in Hupd. rewrite Hupd.
  cbn [update_email update_cpf] in Hbreaks, Hkeeps.
  change (gymId (PrismaUserRepository.apply_update _ _ u)) with (gymId u)
    in Hbreaks, Hkeeps.
  destruct (PrismaUserRepository.breaks_unique _ _ _ db).
  - split; [done|]. right. split; [done|]. split; [done|].
    exists u. split; [done|]. split; [done|].
    destruct (Hbreaks eq_refl) as [(e0 & v & He0 & Hv & Hid & Hev & Hgv)
                                  |(c & v & Hc & Hv & Hid & Hcv)].
    + left. exists e0, v. split; [done|]. split; [|done].
      destruct (decide (e0 = "")) as [|Hnz]; [by left|].
      destruct (decide (e0 = email u)) as [|Hne]; [by right|].
      by destruct (Hemail e0 He0 Hnz Hne v Hv Hev).
    + right. exists c, v. split; [done|]. split; [|done].
      destruct (decide (c = "")) as [|Hnz]; [by left|].
      destruct (decide (Some c = cpf u)) as [|Hne]; [by right|].
      by destruct (Hcpf c Hc Hnz Hne v Hv).
  - destruct (Hkeeps eq_refl) as [Hkeep_email Hkeep_cpf]. simpl.
    split; [done|]. eexists pre, u, post, _.
    split; [done|]. split; [reflexivity|].
    split. { intros v Hv Heq. specialize (Hpre v Hv). apply String.eqb_neq in Hpre. done. }
    split; [by apply String.eqb_eq|]. split; [done|]. split; [reflexivity|].
    split; [done|]. simpl. split; [|split; [|split]].
    + destruct (dto_email d) as [e|]; simpl; [|done].
      intros Hne Hnz. apply (Hemail e eq_refl); done.
    + destruct (dto_cpf d) as [c|]; simpl; [|done].
      intros Hne Hnz v Hv. apply (Hcpf c eq_refl); [congruence|congruence|done].
    + exact Hkeep_email.
    + exact Hkeep_cpf.
Qed.

(** X9. [updateUser] has no guard on self-targeting: an administrator who
    sends [isActive: false] for their own id is deactivated, where
    [deactivateUser] answers 400. *)
Theorem updateUser_has_no_self_guard (rt : Runtime) (admin gym : string)
    (db : list User) (u : User) :
  PrismaUserRepository.findById admin db = (Return (Some u), db) ->
  gymId u = gym ->
  exists db',
    UserService.updateUser rt admin
      (mkUpdateUserDTO None None None None None None (Some false) None)
      admin ADMIN gym db
    = (Return (UserService.removeSensitiveData (deactivated (clock rt) u)), db')
    /\ PrismaUserRepository.findById admin db'
       = (Return (Some (deactivated (clock rt) u)), db')
    /\ isActive (deactivated (clock rt) u) = false
    /\ UserService.deactivateUser rt admin admin ADMIN gym db
       = (Throw (ThrownApp
            (mkAppError "Não é possível desativar o próprio usuário" 400)), db).
Proof.
  intros Hfind Hgym.
  injection Hfind as Hfind.
  destruct (findById_split _ _ _ Hfind) as (pre & post & Hdb & Hpre & Hu).
  exists (pre ++ deactivated (clock rt) u :: post)%list.
  split; [|split; [|split]].
  - unfold UserService.updateUser. simpl.
    unfold bind at 1, PrismaUserRepository.findById. rewrite Hfind.
    rewrite Hgym, String.eqb_refl. cbn [negb]. unfold bind, ret.
    pose proof (update_found rt admin
                  (mkUpdateUserData None None None None None None None None (Some false))
                  pre u post eq_refl eq_refl Hpre Hu) as Hupd.
    rewrite <- Hdb in Hupd. simpl. rewrite Hupd. reflexivity.
  - apply findById_after_update; [done|exact Hu].
  - reflexivity.
  - unfold UserService.deactivateUser. simpl. by rewrite String.eqb_refl.
Qed.

End UserWrites.

(** ** Deactivation, reactivation and deletion *)

Section UserLifecycle.
Import Prisma.

(** What a successful deactivation did to the table. *)
Lemma deactivateUser_success (rt : Runtime) (userId requester : string)
    (role0 : Role) (gym : string) (db : list User) r db' :
  UserService.deactivateUser rt userId requester role0 gym db = (Return r, db') ->
  role0 = ADMIN /\ userId <> requester
  /\ exists pre u post,
       db = (pre ++ u :: post)%list
       /\ db' = (pre ++ deactivated (clock rt) u :: post)%list
       /\ (forall v, v ∈ pre -> String.eqb (id v) userId = false)
       /\ String.eqb (id u) userId = true
       /\ gymId u = gym /\ isActive u = true
       /\ r = UserService.removeSensitiveData (deactivated (clock rt) u).
Proof.
  unfold UserService.deactivateUser.
  destruct (bool_decide (role0 = ADMIN)) eqn:Hrole; simpl; [|done].
  apply bool_decide_eq_true_1 in Hrole.
  destruct (String.eqb_spec userId requester) as [Hself|Hself]; [done|].
  unfold bind at 1, PrismaUserRepository.findById.
  destruct (List.find _ db) as [u|] eqn:Hfind; [|done].
  destruct (String.eqb_spec (gymId u) gym) as [Hgym|Hgym]; simpl; [|done].
  destruct (isActive u) eqn:Hact; simpl; [|done].
  destruct (findById_split _ _ _ Hfind) as (pre & post & Hdb & Hpre & Hu).
  unfold bind, PrismaUserRepository.softDelete.
  pose proof (update_found rt userId
                (mkUpdateUserData None None None None None None None None (Some false))
                pre u post eq_refl eq_refl Hpre Hu) as Hupd.
  rewrite <- Hdb in Hupd. rewrite Hupd. simpl. intros [= <- <-].
  split; [done|]. split; [done|]. exists pre, u, post. by repeat split.
Qed.

(** X10. After [deactivateUser] succeeded, [reactivateUser] by an
    administrator of the tenant succeeds and puts the row back as it was
    before the deactivation, except for [updatedAt]; a second
    [deactivateUser] fails with 400. *)
Theorem deactivate_then_reactivate (rt rt2 : Runtime) (userId requester : string)
    (role0 : Role) (gym : string) (db : list User) r db' :
  UserService.deactivateUser rt userId requester role0 gym db = (Return r, db') ->
  exists pre u post,
    db = (pre ++ u :: post)%list
    /\ id u = userId /\ isActive u = true
    /\ db' = (pre ++ deactivated (clock rt) u :: post)%list
    /\ (forall admin,
          UserService.reactivateUser rt2 userId admin ADMIN gym db'
          = (Return (UserService.removeSensitiveData (touched (clock rt2) u)),
             (pre ++ touched (clock rt2) u :: post)%list))
    /\ (forall admin, admin <> userId ->
          UserService.deactivateUser rt2 userId admin ADMIN gym db'
          = (Throw (ThrownApp (mkAppError "Usuário já está inativo" 400)), db')).
Proof.
  intros H. apply deactivateUser_success in H
    as (Hrole & Hself & pre & u & post & Hdb & Hdb' & Hpre & Hu & Hgym & Hact & Hr).
  exists pre, u, post. split; [done|]. split; [by apply String.eqb_eq|].
  split; [done|]. split; [done|].
  assert (String.eqb (id (deactivated (clock rt) u)) userId = true) as Hu' by exact Hu.
  split.
  - intros admin. unfold UserService.reactivateUser. simpl.
    unfold bind at 1. rewrite Hdb', (findById_after_update _ _ _ _ Hpre Hu').
    change (gymId (deactivated (clock rt) u)) with (gymId u).
    change (isActive (deactivated (clock rt) u)) with false.
    rewrite Hgym, String.eqb_refl. cbn [negb].
    unfold bind, PrismaUserRepository.reactivate.
    rewrite update_found by first [reflexivity|exact Hpre|exact Hu']. simpl.
    unfold touched, deactivated, PrismaUserRepository.apply_update,
      PrismaUserRepository.no_change. simpl.
    rewrite Hact. destruct u; reflexivity.
  - intros admin Hadmin. unfold UserService.deactivateUser. simpl.
    destruct (String.eqb_spec userId admin) as [->|_]; [done|].
    unfold bind at 1. rewrite Hdb', (findById_after_update _ _ _ _ Hpre Hu').
    change (gymId (deactivated (clock rt) u)) with (gymId u).
    change (isActive (deactivated (clock rt) u)) with false.
    rewrite Hgym, String.eqb_refl. reflexivity.
Qed.

(** X12. [deleteUser] succeeds only for an administrator, on another
    user's record of the administrator's tenant; it removes every row with
    the id and no other row, and a later [getUserById] answers 404 to
    anyone. Every failure is an [AppError] with status 400, 403 or 404 and
    leaves the table as it was. *)
Theorem deleteUser_removes_the_record (userId requester : string)
    (role0 : Role) (gym : string) (db : list User) :
  match UserService.deleteUser userId requester role0 gym db with
  | (Return _, db') =>
      role0 = ADMIN /\ userId <> requester
      /\ (exists u, u ∈ db /\ id u = userId /\ gymId u = gym)
      /\ db' = filter (fun v => String.eqb (id v) userId = false) db
      /\ (forall v, v ∈ db' <-> v ∈ db /\ id v <> userId)
      /\ (forall who role1 gym1,
            UserService.getUserById userId who role1 gym1 db'
            = (Throw (ThrownApp (mkAppError "Usuário não encontrado" 404)), db'))
  | (Throw e, db') =>
      db' = db
      /\ exists msg status,
           e = ThrownApp (mkAppError msg status)
           /\ (status = 400 \/ status = 403 \/ status = 404)%Z
  end.
Proof.
  unfold UserService.deleteUser.
  destruct (bool_decide (role0 = ADMIN)) eqn:Hrole; simpl;
    [apply bool_decide_eq_true_1 in Hrole|by eauto 7].
  destruct (String.eqb_spec userId requester) as [Hself|Hself]; [simpl; by eauto 7|].
  unfold bind, PrismaUserRepository.findById.
  destruct (List.find _ db) as [u|] eqn:Hfind; [|simpl; by eauto 7].
  destruct (String.eqb_spec (gymId u) gym) as [Hgym|Hgym]; simpl; [|by eauto 7].
  unfold PrismaUserRepository.delete. rewrite Hfind.
  apply find_some_elem in Hfind as [Hin Hid]. apply String.eqb_eq in Hid.
  split; [done|]. split; [done|]. split; [by eauto|]. split; [done|]. split.
  - intros v. rewrite list_elem_of_filter, String.eqb_neq. tauto.
  - intros who role1 gym1. unfold UserService.getUserById, bind,
      PrismaUserRepository.findById.
    by rewrite (find_filter_none (fun v => String.eqb (id v) userId)).
Qed.

(** X13. Tenant isolation of the user service: when the record with the id
    belongs to another tenant than the requester, and the requester is not
    the target, [getUserById], [updateUser], [deactivateUser],
    [reactivateUser] and [deleteUser] all fail with 403, whatever the
    requester's role, and leave the table as it was. *)
Theorem cross_tenant_requests_fail (rt : Runtime) (userId requester : string)
    (role0 : Role) (gym : string) (db : list User) (u : User) :
  PrismaUserRepository.findById userId db = (Return (Some u), db) ->
  gymId u <> gym -> userId <> requester ->
  refused db (UserService.getUserById userId requester role0 gym db)
  /\ (forall d,
        refused db (UserService.updateUser rt userId d requester role0 gym db))
  /\ refused db (UserService.deactivateUser rt userId requester role0 gym db)
  /\ refused db (UserService.reactivateUser rt userId requester role0 gym db)
  /\ refused db (UserService.deleteUser userId requester role0 gym db).
Proof.
  intros Hfind Hgym Hself. unfold refused.
  apply String.eqb_neq in Hgym, Hself.
  repeat split; intros;
    unfold UserService.getUserById, UserService.updateUser,
      UserService.deactivateUser, UserService.reactivateUser,
      UserService.deleteUser;
    destruct (bool_decide (role0 = ADMIN)); cbn [negb]; try (by eauto);
    rewrite ?Hself; unfold bind; rewrite Hfind, Hgym; cbn [negb andb orb];
    by eauto.
Qed.

End UserLifecycle.

Section LockedOut.
Context {L : Jwt.Library} {B : Bcrypt.Eksblowfish}.
Import Prisma.

(** X11. Once [deactivateUser] succeeded the user is locked out of the
    authentication service: [getProfile] and [updateOwnProfile] fail with
    403, a refresh token of the user is refused with 403, and so is a login
    whose lookup by email and tenant finds the deactivated record, before
    the password is looked at. *)
Theorem deactivated_user_is_locked_out (rt : Runtime) (userId requester : string)
    (role0 : Role) (gym : string) (db : list User) r db' :
  UserService.deactivateUser rt userId requester role0 gym db = (Return r, db') ->
  AuthService.getProfile userId db'
  = (Throw (ThrownApp (mkAppError "Usuário inativo" 403)), db')
  /\ (forall rt2 d,
        UserService.updateOwnProfile rt2 userId d db'
        = (Throw (ThrownApp (mkAppError "Usuário inativo" 403)), db'))
  /\ (forall cfg rt2 data,
        PrismaUserRepository.findByEmailAndGymId (login_email data)
          (login_gymId data) db
        = PrismaUserRepository.findById userId db ->
        AuthService.login cfg rt2 data db'
        = (Throw (ThrownApp (mkAppError "Usuário inativo" 403)), db'))
  /\ (forall cfg rt2 token claims,
        verifyRefreshToken cfg (clock rt2) token = Return claims ->
        Jwt.userId claims = Some userId ->
        AuthService.refreshAccessToken cfg rt2 token db'
        = (Throw (ThrownApp (mkAppError "Usuário inativo" 403)), db')).
Proof.
  intros H. apply deactivateUser_success in H
    as (Hrole & Hself & pre & u & post & Hdb & Hdb' & Hpre & Hu & Hgym & Hact & Hr).
  assert (String.eqb (id (deactivated (clock rt) u)) userId = true) as Hu' by exact Hu.
  pose proof (findById_after_update _ _ _ post Hpre Hu') as Hfind'.
  rewrite <- Hdb' in Hfind'.
  repeat split.
  - unfold AuthService.getProfile, bind. rewrite Hfind'. reflexivity.
  - intros rt2 d. unfold UserService.updateOwnProfile, bind. rewrite Hfind'. reflexivity.
  - intros cfg rt2 data Hsame.
    unfold AuthService.login, bind.
    assert (PrismaUserRepository.findByEmailAndGymId (login_email data)
              (login_gymId data) db'
            = (Return (Some (deactivated (clock rt) u)), db')) as ->; [|reflexivity].
    revert Hsame. rewrite Hdb, Hdb'.
    rewrite (findById_after_update _ _ _ post Hpre Hu).
    unfold PrismaUserRepository.findByEmailAndGymId. intros [= Hsame].
    f_equal. f_equal.
    set (p := fun v : User => String.eqb (email v) (login_email data)
                              && String.eqb (gymId v) (login_gymId data)) in *.
    clear Hdb Hdb' Hfind'.
    induction pre as [|a pre IH]; simpl in *.
    + destruct (p u) eqn:Hpu.
      * assert (p (deactivated (clock rt) u) = true) as -> by exact Hpu. done.
      * exfalso. apply find_some_elem in Hsame as [Hin Hp]. congruence.
    + destruct (p a) eqn:Hpa.
      * injection Hsame as ->.
        pose proof (Hpre u (list_elem_of_here _ _)) as Hf. congruence.
      * apply IH; [|done]. intros v Hv. apply Hpre. by apply list_elem_of_further.
  - intros cfg rt2 token claims Hver Hsub.
    unfold AuthService.refreshAccessToken, bind at 1, try_catch, lift.
    rewrite Hver. unfold bind. rewrite Hsub. cbn [AuthService.find_subject].
    rewrite Hfind'. reflexivity.
Qed.

End LockedOut.

(** ** Listings and statistics *)

Section UserListings.
Import Prisma.

Section Stats.
Context {Co : PrismaUserRepository.Collation}.

Lemma insert_asc_length (u : User) (l : list User) :
  length (PrismaUserRepository.insert_asc u l) = S (length l).
Proof.
  induction l as [|v l IH]; simpl; [done|].
  destruct (PrismaUserRepository.name_le _ _); simpl; by rewrite ?IH.
Qed.

Lemma order_asc_length (l : list User) :
  length (PrismaUserRepository.order_asc l) = length l.
Proof.
  induction l as [|v l IH]; simpl; [done|]. by rewrite insert_asc_length, IH.
Qed.

Lemma active_by_role (gym : string) (db : list User) :
  PrismaUserRepository.count (fun u => String.eqb (gymId u) gym && isActive u) db
  = (length (filter (fun u => String.eqb (gymId u) gym
                              && bool_decide (role u = MEMBER)
                              && isActive u = true) db)
     + length (filter (fun u => String.eqb (gymId u) gym
                                && bool_decide (role u = INSTRUCTOR)
                                && isActive u = true) db)
     + length (filter (fun u => String.eqb (gymId u) gym
                                && bool_decide (role u = ADMIN)
                                && isActive u = true) db))%nat.
Proof.
  unfold PrismaUserRepository.count.
  induction db as [|u db IH]; [done|].
  rewrite !filter_cons.
  destruct (String.eqb (gymId u) gym), (isActive u), (role u);
    repeat (case_decide; try done); simpl in *; try done; lia.
Qed.

(** X14. [getGymStats] is refused to a member with 403; otherwise it
    reads only: [totalActive] is the number of active users of the
    requester's tenant, and the three counts by role add up to it. *)
Theorem getGymStats_counts_add_up (role0 : Role) (gym : string) (db : list User) :
  match UserService.getGymStats role0 gym db with
  | (Return s, db') =>
      role0 <> MEMBER /\ db' = db
      /\ UserService.totalActive s
         = Z.of_nat (length (filter (fun u => gymId u = gym /\ isActive u = true) db))
      /\ (UserService.totalActive s
          = UserService.members (UserService.byRole s)
            + UserService.instructors (UserService.byRole s)
            + UserService.admins (UserService.byRole s))%Z
  | (Throw e, db') =>
      role0 = MEMBER /\ db' = db
      /\ e = ThrownApp (mkAppError "Sem permissão para visualizar estatísticas" 403)
  end.
Proof.
  unfold UserService.getGymStats.
  destruct (bool_decide (role0 = MEMBER)) eqn:Hrole.
  - apply bool_decide_eq_true_1 in Hrole. done.
  - apply bool_decide_eq_false_1 in Hrole. simpl.
    split; [done|]. split; [done|]. split.
    + f_equal. unfold PrismaUserRepository.count.
      induction db as [|u db IH]; [done|]. rewrite !filter_cons.
      destruct (String.eqb_spec (gymId u) gym), (isActive u) eqn:Hact;
        repeat (case_decide; try done); simpl in *; try tauto;
        try (by f_equal); try (exfalso; tauto).
    + rewrite !order_asc_length, active_by_role. lia.
Qed.

End Stats.

(** X15. [listUsers] is refused to a member; otherwise every object it
    lists is the view, without the hash, of a stored user of the
    requester's own tenant that has the role and the active flag the
    filters ask for, whatever tenant, search or page the caller sends. The
    table is never written. *)
Theorem listUsers_only_own_gym (filters : ListUsersFiltersDTO)
    (requester : string) (role0 : Role) (gym : string) (db : list User) :
  match UserService.listUsers filters requester role0 gym db with
  | (Return r, db') =>
      role0 <> MEMBER /\ db' = db
      /\ Forall (fun o =>
           exists u, u ∈ db /\ o = UserService.removeSensitiveData u
                     /\ gymId u = gym
                     /\ (forall r0, list_role filters = Some r0 -> role u = r0)
                     /\ (forall b, list_isActive filters = Some b -> isActive u = b))
           (data r)
      /\ Forall (fun o => o !! "gymId" = Some (Js.JStr gym)) (data r)
  | (Throw e, db') =>
      db' = db
      /\ (role0 = MEMBER ->
          e = ThrownApp (mkAppError "Sem permissão para listar usuários" 403))
  end.
Proof.
  unfold UserService.listUsers.
  destruct (bool_decide (role0 = MEMBER)) eqn:Hrole; [done|].
  apply bool_decide_eq_false_1 in Hrole.
  unfold bind, PrismaUserRepository.findManyWithFilters.
  set (f := mkFilters _ _ _ _ _ _).
  destruct (_ <? 0)%Z; [done|]. simpl.
  split; [done|]. split; [done|].
  assert (forall u, u ∈ PrismaUserRepository.window
                      ((PrismaUserRepository.num_or (list_page filters) 1 - 1)
                       * PrismaUserRepository.num_or (list_limit filters) 10)
                      (PrismaUserRepository.num_or (list_limit filters) 10)
                      (PrismaUserRepository.order_desc
                         (filter (fun u => PrismaUserRepository.matches f u = true) db)) ->
            u ∈ db /\ PrismaUserRepository.matches f u = true) as Hin.
  { intros u Hu. apply window_subseteq in Hu.
    rewrite order_desc_perm in Hu. by apply list_elem_of_filter in Hu as [? ?]. }
  split; apply Forall_fmap, Forall_forall; intros u Hu;
    apply list_elem_of_In in Hu;
    destruct (Hin u Hu) as [Hdb Hm]; apply matches_gym in Hm as (Hg & Hr & Ha).
  - exists u. by repeat split.
  - simpl. unfold UserService.removeSensitiveData, without_passwordHash, user_object.
    rewrite Hg. simpl. by simplify_map_eq.
Qed.

(** X16. Pagination of [findManyWithFilters]: with [l >= 1] rows a page,
    page [p >= 1] is rows [(p - 1) * l] up to [p * l] of the matching rows
    sorted by [createdAt], newest first; [total] is their number and
    [totalPages] the least number of pages that holds them; the pages 1 to
    [totalPages], one after the other, are the sorted rows: every matching
    row is on exactly one page. *)
Theorem user_pages_partition (f : FindManyUsersFilters) (l : Z)
    (db : list User) :
  (1 <= l)%Z ->
  exists (sorted : list User) (n : nat),
    sorted ≡ₚ filter (fun u => PrismaUserRepository.matches f u = true) db
    /\ StronglySorted (fun a b => (createdAt b <= createdAt a)%Z) sorted
    /\ (length sorted <= n * Z.to_nat l < length sorted + Z.to_nat l)%nat
    /\ (forall p, (1 <= p)%Z ->
          PrismaUserRepository.findManyWithFilters (page_of f p l) db
          = (Return (mkPaginated
                       (take (Z.to_nat l) (drop (Z.to_nat ((p - 1) * l)) sorted))
                       (mkMeta (Z.of_nat (length sorted)) p l (Z.of_nat n))), db))
    /\ concat (map (fun p => rows_of (PrismaUserRepository.findManyWithFilters
                                        (page_of f (Z.of_nat p) l) db))
                 (seq 1 n))
       = sorted.
Proof.
  intros Hl.
  set (found := filter (fun u => PrismaUserRepository.matches f u = true) db).
  set (sorted := PrismaUserRepository.order_desc found).
  assert (length sorted = length found) as Hlen
    by (apply Permutation_length, order_desc_perm).
  destruct (ceil_div_bounds (Z.of_nat (length found)) l ltac:(lia) Hl) as [Hn0 Hn].
  exists sorted, (Z.to_nat (PrismaUserRepository.ceil_div (Z.of_nat (length found)) l)).
  assert (forall p, (1 <= p)%Z ->
          PrismaUserRepository.findManyWithFilters (page_of f p l) db
          = (Return (mkPaginated
                       (take (Z.to_nat l) (drop (Z.to_nat ((p - 1) * l)) sorted))
                       (mkMeta (Z.of_nat (length sorted)) p l
                          (Z.of_nat (Z.to_nat (PrismaUserRepository.ceil_div
                                                 (Z.of_nat (length found)) l))))), db))
    as Hpage.
  { intros p Hp. unfold PrismaUserRepository.findManyWithFilters.
    cbn [page_of filter_page filter_limit PrismaUserRepository.num_or].
    destruct (Z.eqb_spec p 0) as [?|_]; [lia|].
    destruct (Z.eqb_spec l 0) as [?|_]; [lia|].
    destruct (Z.ltb_spec ((p - 1) * l) 0) as [?|_]; [nia|].
    unfold PrismaUserRepository.window.
    destruct (Z.ltb_spec l 0) as [?|_]; [lia|].
    unfold PrismaUserRepository.count. fold found. fold sorted.
    rewrite Hlen, Z2Nat.id by lia. reflexivity. }
  split; [apply order_desc_perm|]. split; [apply order_desc_sorted|].
  split; [rewrite Hlen; nia|]. split; [exact Hpage|].
  erewrite map_ext_in.
  2:{ intros p Hp. apply in_seq in Hp. rewrite Hpage by lia. unfold rows_of. simpl.
      replace (Z.to_nat ((Z.of_nat p - 1) * l)) with ((p - 1) * Z.to_nat l)%nat by nia.
      reflexivity. }
  rewrite pages_concat. apply take_ge. rewrite Hlen. nia.
Qed.

End UserListings.

(* ===================================================================== *)
(** * Further properties: the authentication flows *)
(* ===================================================================== *)

Lemma role_name_inj (r1 r2 : Role) : role_name r1 = role_name r2 -> r1 = r2.
Proof. by destruct r1, r2. Qed.

Lemma allowed_role (allowed : list Role) (r : Role) :
  existsb (fun a => String.eqb (role_name a) (role_name r)) allowed
  = bool_decide (r ∈ allowed).
Proof.
  induction allowed as [|a allowed IH]; cbn [existsb].
  - symmetry. apply bool_decide_eq_false_2. intros H; inversion H.
  - destruct (String.eqb_spec (role_name a) (role_name r)) as [Heq|Hne]; cbn [orb].
    + apply role_name_inj in Heq as ->.
      symmetry. apply bool_decide_eq_true_2, list_elem_of_here.
    + rewrite IH. apply bool_decide_ext. rewrite elem_of_cons.
      split; [tauto|]. intros [->|?]; [done|done].
Qed.

Lemma check_claims_issued (c : Jwt.Claims) (now t : Z) (span : Z) :
  Jwt.nbf c = None -> Jwt.exp c = Some (now + span)%Z ->
  Jwt.iss c = Some ISSUER -> Jwt.aud c = [AUDIENCE] ->
  Jose.check_claims c (Jwt.mkVerifyOptions ISSUER AUDIENCE) t
  = if (now + span <=? t)%Z then Jwt.Raised (TokenExpiredError "jwt expired")
    else Jwt.Decoded c.
Proof.
  intros Hnbf Hexp Hiss Haud. unfold Jose.check_claims.
  rewrite Hnbf, Hexp, Hiss, Haud. simpl.
  by destruct (now + span <=? t)%Z.
Qed.

Section RegisterFlows.
Context {L : Jwt.Library} {B : Bcrypt.Eksblowfish}.
Variable cfg : JwtConfig.
Import Prisma.

(** What a successful registration did to the table. *)
Lemma register_success (rt : Runtime) (data : RegisterDTO) (db : list User)
    r db' :
  AuthService.register cfg rt data db = (Return r, db') ->
  exists hash,
    hashPassword (random rt) (reg_password data) = Return hash
    /\ existsb (fun u => String.eqb (email u) (reg_email data)
                         && String.eqb (gymId u) (reg_gymId data)) db = false
    /\ db' = (db ++ [Spec.registered_user rt data hash])%list
    /\ r = mkAuthResponse (auth_user (Spec.registered_user rt data hash))
             (generateAccessToken cfg (clock rt)
                (payload_of (Spec.registered_user rt data hash)))
             (generateRefreshToken cfg (clock rt) (generatedId rt)).
Proof.
  unfold AuthService.register, bind at 1,
    PrismaUserRepository.existsByEmailAndGymId.
  rewrite count_positive.
  destruct (existsb _ db) eqn:Hex; [done|].
  unfold bind at 1.
  set (cpfCheck := match reg_cpf data with Some _ => _ | None => _ end).
  assert (cpfCheck db = (Return tt, db)
          \/ cpfCheck db = (Throw (ThrownApp (mkAppError "CPF já cadastrado" 409)), db))
    as [-> | ->]; [|..|done].
  { subst cpfCheck. destruct (reg_cpf data) as [c|]; [|by left].
    destruct (Js.str_truthy c); [|by left].
    unfold bind, PrismaUserRepository.existsByCpf.
    destruct (0 <? _)%nat; [by right|by left]. }
  rewrite bind_lift.
  destruct (hashPassword (random rt) (reg_password data)) as [hash|e]; [|done].
  unfold bind, PrismaUserRepository.create, ret.
  destruct (_ || _); [discriminate|]. intros [= <- <-].
  exists hash. by repeat split.
Qed.

(** X2. After a registration succeeded, every further registration with
    the same email in the same tenant fails with 409, whatever else it
    carries, and writes nothing. *)
Theorem register_twice_conflicts (rt rt2 : Runtime) (data data2 : RegisterDTO)
    (db : list User) r db' :
  AuthService.register cfg rt data db = (Return r, db') ->
  reg_email data2 = reg_email data -> reg_gymId data2 = reg_gymId data ->
  AuthService.register cfg rt2 data2 db'
  = (Throw (ThrownApp (mkAppError "E-mail já cadastrado nesta academia" 409)), db').
Proof.
  intros Hreg Hemail Hgym.
  apply register_success in Hreg as (hash & _ & _ & -> & _).
  unfold AuthService.register, bind at 1,
    PrismaUserRepository.existsByEmailAndGymId.
  rewrite count_positive, existsb_app. simpl.
  by rewrite Hemail, Hgym, !String.eqb_refl, orb_true_r.
Qed.

(** What a successful login found. *)
Lemma login_success (rt : Runtime) (data : LoginDTO) (db : list User) r db' :
  AuthService.login cfg rt data db = (Return r, db') ->
  db' = db
  /\ exists u,
       u ∈ db /\ email u = login_email data /\ gymId u = login_gymId data
       /\ isActive u = true
       /\ comparePassword (login_password data) (passwordHash u) = Return true
       /\ r = mkAuthResponse (auth_user u)
                (generateAccessToken cfg (clock rt) (payload_of u))
                (generateRefreshToken cfg (clock rt) (id u)).
Proof.
  unfold AuthService.login, bind at 1, PrismaUserRepository.findByEmailAndGymId.
  destruct (List.find _ db) as [u|] eqn:Hfind; [|done].
  destruct (isActive u) eqn:Hact; [|done]. cbn [negb].
  rewrite bind_lift.
  destruct (comparePassword _ _) as [[|]|e] eqn:Hpw; [|done..].
  intros [= <- <-]. split; [done|]. exists u.
  apply find_some_elem in Hfind as [Hin Hp].
  apply andb_true_iff in Hp as [He Hg].
  apply String.eqb_eq in He, Hg. by repeat split.
Qed.

End RegisterFlows.

Section LoginAfterRegister.
Context {L : Jwt.Library} {B : Bcrypt.Eksblowfish}
  {Laws : Bcrypt.EksblowfishLaws B}.
Variable cfg : JwtConfig.
Import Prisma.

(** X1. After a registration succeeded, a login with the same email,
    tenant and password succeeds on the resulting table: it returns the
    same profile view and tokens issued for the id the database generated,
    the tenant and the role of the registration ([MEMBER] if none was
    given). *)
Theorem register_then_login (rt rt2 : Runtime) (data : RegisterDTO)
    (db : list User) r db' :
  length (random rt) = 16%nat ->
  AuthService.register cfg rt data db = (Return r, db') ->
  AuthService.login cfg rt2
    (mkLoginDTO (reg_email data) (reg_password data) (reg_gymId data)) db'
  = (Return (mkAuthResponse (user r)
               (generateAccessToken cfg (clock rt2)
                  (mkJwtPayload (generatedId rt) (reg_gymId data)
                     (default MEMBER (reg_role data))))
               (generateRefreshToken cfg (clock rt2) (generatedId rt))),
     db').
Proof.
  intros Hsalt Hreg.
  apply register_success in Hreg as (hash & Hhash & Hex & -> & ->).
  rewrite (hashPassword_digest _ _ Hsalt) in Hhash. injection Hhash as <-.
  unfold AuthService.login, bind at 1, PrismaUserRepository.findByEmailAndGymId.
  cbn [login_email login_gymId].
  rewrite (find_app_last _ _ _ (existsb_find_none _ _ Hex))
    by (simpl; by rewrite !String.eqb_refl).
  cbn [Spec.registered_user isActive negb passwordHash login_password].
  rewrite bind_lift, (comparePassword_digest _ _ _ Hsalt), String.eqb_refl.
  reflexivity.
Qed.

End LoginAfterRegister.

Section TokenFlows.
Context {C : Jose.Codec} {Laws : Jose.CodecLaws C} {B : Bcrypt.Eksblowfish}.
Variable cfg : JwtConfig.
Import Prisma.

Lemma verifyAccessToken_issued (now t : Z) (p : JwtPayload) :
  verifyAccessToken cfg t (generateAccessToken cfg now p)
  = if (now + accessExpiresIn cfg <=? t)%Z
    then Throw (ThrownError "Access token expired")
    else Return (Spec.issued_claims cfg now p).
Proof.
  rewrite generateAccessToken_signed, verifyAccessToken_signed.
  rewrite (check_claims_issued _ now t (accessExpiresIn cfg)) by done.
  by destruct (_ <=? _)%Z.
Qed.

Lemma generateRefreshToken_signed (now : Z) (userId : string) :
  generateRefreshToken cfg now userId
  = Spec.signed_token (refreshSecret cfg) (issued_refresh_claims cfg now userId).
Proof. reflexivity. Qed.

Lemma verifyRefreshToken_issued (now t : Z) (userId : string) :
  verifyRefreshToken cfg t (generateRefreshToken cfg now userId)
  = if (now + refreshExpiresIn cfg <=? t)%Z
    then Throw (ThrownError "Refresh token expired")
    else Return (issued_refresh_claims cfg now userId).
Proof.
  rewrite generateRefreshToken_signed. unfold verifyRefreshToken.
  change (Jwt.verify ?a ?b ?c ?d) with (Jose.verify a b c d).
  rewrite verify_signed_token.
  rewrite (check_claims_issued _ now t (refreshExpiresIn cfg)) by done.
  by destruct (_ <=? _)%Z.
Qed.

Lemma authenticate_issued (now t : Z) (p : JwtPayload) (req : Req.t) :
  carries req (generateAccessToken cfg now p) ->
  authenticate cfg t req
  = if (now + accessExpiresIn cfg <=? t)%Z
    then next_app_error "Token inválido ou expirado" 401
    else NextOk (Spec.attach_identity (Spec.issued_claims cfg now p) req).
Proof.
  intros Hc. rewrite authenticate_on_token.
  assert (Js.str_truthy (generateAccessToken cfg now p) = true) as Htr.
  { rewrite generateAccessToken_signed. apply signed_token_truthy. }
  assert (Js.opt_or (Req.cookies req !! "accessToken")
            (Js.replace "Bearer " "" <$> Req.headers req !! "authorization")
          = Some (generateAccessToken cfg now p)) as ->.
  { destruct Hc as [-> | [-> ->]].
    - unfold Js.opt_or. cbn [Js.opt_truthy]. by rewrite Htr.
    - unfold Js.opt_or. cbn [Js.opt_truthy fmap option_fmap option_map].
      by rewrite replace_bearer_prefix. }
  rewrite Htr, verifyAccessToken_issued. by destruct (_ <=? _)%Z.
Qed.

(** X3. The access token a login returns authenticates as the user who
    logged in: sent as the cookie, or as a bearer header without a cookie,
    it passes [authenticate] until its lifetime is over, and the request
    goes on with the id, tenant and role of the user's record attached;
    from then on it is answered 401. *)
Theorem login_token_authenticates (rt : Runtime) (data : LoginDTO)
    (db : list User) r db' :
  AuthService.login cfg rt data db = (Return r, db') ->
  exists u,
    u ∈ db /\ email u = login_email data /\ gymId u = login_gymId data
    /\ user r = auth_user u
    /\ forall (now : Z) (req : Req.t),
         carries req (accessToken r) ->
         ((now < clock rt + accessExpiresIn cfg)%Z ->
          authenticate cfg now req
          = NextOk (Req.mk (Req.params req) (Req.query req) (Req.body req)
                      (Req.cookies req) (Req.headers req)
                      (Some (id u)) (Some (gymId u)) (Some (role_name (role u)))))
         /\ ((clock rt + accessExpiresIn cfg <= now)%Z ->
             authenticate cfg now req
             = next_app_error "Token inválido ou expirado" 401).
Proof.
  intros Hlogin.
  apply login_success in Hlogin as (_ & u & Hin & He & Hg & _ & _ & ->).
  exists u. repeat split; try done.
  - intros Hnow. rewrite (authenticate_issued _ _ _ _ H).
    destruct (Z.leb_spec (clock rt + accessExpiresIn cfg) now); [lia|]. reflexivity.
  - intros Hnow. rewrite (authenticate_issued _ _ _ _ H).
    destruct (Z.leb_spec (clock rt + accessExpiresIn cfg) now); [|lia]. reflexivity.
Qed.

(** X4. The refresh token a login returns renews the access token until
    its lifetime is over: [refreshAccessToken] then looks the user up by
    the id in the token and issues an access token for the id, tenant and
    role the table holds at that moment (404 if the record is gone, 403 if
    it is inactive); once the lifetime is over it answers 401. *)
Theorem login_refresh_token_renews (rt : Runtime) (data : LoginDTO)
    (db : list User) r db' :
  AuthService.login cfg rt data db = (Return r, db') ->
  exists u,
    u ∈ db /\ email u = login_email data /\ gymId u = login_gymId data
    /\ forall (rt2 : Runtime) (db2 : list User),
         ((clock rt2 < clock rt + refreshExpiresIn cfg)%Z ->
          AuthService.refreshAccessToken cfg rt2 (refreshToken r) db2
          = (match List.find (fun v => String.eqb (id v) (id u)) db2 with
             | None => Throw (ThrownApp (mkAppError "Usuário não encontrado" 404))
             | Some v =>
                 if isActive v
                 then Return {[ "accessToken" :=
                                  Js.JStr (generateAccessToken cfg (clock rt2)
                                             (mkJwtPayload (id v) (gymId v) (role v))) ]}
                 else Throw (ThrownApp (mkAppError "Usuário inativo" 403))
             end, db2))
         /\ ((clock rt + refreshExpiresIn cfg <= clock rt2)%Z ->
             AuthService.refreshAccessToken cfg rt2 (refreshToken r) db2
             = (Throw (ThrownApp
                  (mkAppError "Refresh token inválido ou expirado" 401)), db2)).
Proof.
  intros Hlogin.
  apply login_success in Hlogin as (_ & u & Hin & He & Hg & _ & _ & ->).
  exists u. repeat split; try done; intros Hnow;
    unfold AuthService.refreshAccessToken, bind at 1, try_catch, lift;
    cbn [refreshToken]; rewrite verifyRefreshToken_issued.
  - destruct (Z.leb_spec (clock rt + refreshExpiresIn cfg) (clock rt2)); [lia|].
    unfold bind. cbn [issued_refresh_claims Jwt.userId AuthService.find_subject].
    unfold PrismaUserRepository.findById.
    destruct (List.find _ db2) as [v|]; [|done].
    by destruct (isActive v).
  - destruct (Z.leb_spec (clock rt + refreshExpiresIn cfg) (clock rt2)); [|lia].
    reflexivity.
Qed.

(** X5. The guard of a route, [authenticate] followed by
    [authorize(allowed)], on a request that carries an access token issued
    for a payload and not yet expired: the request goes on, with the
    identity of the payload attached, exactly when the role of the payload
    is one of the allowed roles; otherwise it is answered 403 with the list
    of the allowed roles. *)
Theorem route_guard_admits_allowed_roles (now0 now : Z) (p : JwtPayload)
    (allowed : list Role) (req : Req.t) :
  carries req (generateAccessToken cfg now0 p) ->
  (now < now0 + accessExpiresIn cfg)%Z ->
  and_then (authenticate cfg now) (authorize allowed) req
  = if bool_decide (payload_role p ∈ allowed)
    then NextOk (Spec.attach_identity (Spec.issued_claims cfg now0 p) req)
    else next_app_error
           ("Acesso negado. Permissões necessárias: "
            ++ join (map role_name allowed)) 403.
Proof.
  intros Hc Hnow. unfold and_then.
  rewrite (authenticate_issued _ _ _ _ Hc).
  destruct (Z.leb_spec (now0 + accessExpiresIn cfg) now); [lia|].
  unfold authorize.
  cbn [Spec.attach_identity Spec.issued_claims Req.userRole Jwt.role Js.opt_truthy
       default from_option].
  assert (Js.str_truthy (role_name (payload_role p)) = true) as ->
    by (by destruct (payload_role p)).
  cbn [negb].
  change (Datatypes.id (role_name (payload_role p)))
    with (role_name (payload_role p)).
  rewrite allowed_role. by destruct (bool_decide _).
Qed.

End TokenFlows.

Section Guard.
Context {L : Jwt.Library}.
Variable cfg : JwtConfig.

(** X6. No request gets past the guard of a route, [authenticate] followed
    by [authorize(allowed)], unless it carries a token that
    [verifyAccessToken] accepts and whose role claim names one of the
    allowed roles; the request that goes on is the incoming one with the
    claims' identity attached. *)
Theorem route_guard_requires_allowed_role (now : Z) (allowed : list Role)
    (req req' : Req.t) :
  and_then (authenticate cfg now) (authorize allowed) req = NextOk req' ->
  exists token claims r,
    Spec.bearer_token req = Some token
    /\ verifyAccessToken cfg now token = Return claims
    /\ Jwt.role claims = Some (role_name r) /\ r ∈ allowed
    /\ req' = Spec.attach_identity claims req.
Proof.
  unfold and_then. rewrite authenticate_on_token, bearer_token_read.
  destruct (Js.opt_or _ _) as [token|]; [|done].
  destruct (Js.str_truthy token); [|done].
  destruct (verifyAccessToken cfg now token) as [claims|e] eqn:Hver; [|done].
  unfold authorize. cbn [Spec.attach_identity Req.userRole].
  destruct (Jwt.role claims) as [name|] eqn:Hrole; [|done].
  cbn [Js.opt_truthy default from_option].
  destruct (Js.str_truthy name); [|done]. cbn [negb].
  destruct (existsb _ allowed) eqn:Hex; [|done]. intros [= <-].
  apply existsb_exists in Hex as (r & Hin & Heq).
  apply String.eqb_eq in Heq. apply list_elem_of_In in Hin.
  exists token, claims, r. simpl in Heq. subst name. by repeat split.
Qed.

End Guard.

(* ===================================================================== *)
(** * Further properties: check-ins *)
(* ===================================================================== *)

Lemma checkin_insert_desc_perm (c : CheckIn.t) (l : list CheckIn.t) :
  PrismaCheckInRepository.insert_desc c l ≡ₚ c :: l.
Proof.
  induction l as [|d l IH]; simpl; [done|].
  destruct (CheckIn.checkedInAt d <? CheckIn.checkedInAt c)%Z; [done|].
  rewrite IH. apply Permutation_swap.
Qed.

Lemma checkin_order_desc_perm (l : list CheckIn.t) :
  PrismaCheckInRepository.order_desc l ≡ₚ l.
Proof.
  induction l as [|d l IH]; simpl; [done|].
  by rewrite checkin_insert_desc_perm, IH.
Qed.

Lemma checkin_insert_desc_sorted (c : CheckIn.t) (l : list CheckIn.t) :
  StronglySorted (fun a b => (CheckIn.checkedInAt b <= CheckIn.checkedInAt a)%Z) l ->
  StronglySorted (fun a b => (CheckIn.checkedInAt b <= CheckIn.checkedInAt a)%Z)
    (PrismaCheckInRepository.insert_desc c l).
Proof.
  induction 1 as [|d l Hl IH Hd]; simpl.
  - repeat constructor.
  - destruct (CheckIn.checkedInAt d <? CheckIn.checkedInAt c)%Z eqn:Hlt.
    + apply Z.ltb_lt in Hlt. constructor; [by constructor|].
      constructor; [lia|]. revert Hd. apply List.Forall_impl. intros; lia.
    + apply Z.ltb_ge in Hlt. constructor; [done|].
      rewrite checkin_insert_desc_perm. by constructor.
Qed.

Lemma checkin_order_desc_sorted (l : list CheckIn.t) :
  StronglySorted (fun a b => (CheckIn.checkedInAt b <= CheckIn.checkedInAt a)%Z)
    (PrismaCheckInRepository.order_desc l).
Proof.
  induction l as [|d l IH]; simpl; [constructor|].
  by apply checkin_insert_desc_sorted.
Qed.

Lemma checkin_window_subseteq (skip take_ : Z) (rows : list CheckIn.t) :
  PrismaCheckInRepository.window skip take_ rows ⊆ rows.
Proof.
  unfold PrismaCheckInRepository.window.
  destruct (take_ <? 0)%Z.
  - etrans; [apply rev_subseteq|]. etrans; [apply subseteq_take|].
    etrans; [apply subseteq_drop|]. apply rev_subseteq.
  - etrans; [apply subseteq_take|]. apply subseteq_drop.
Qed.

Lemma checkin_window_length (take_ : Z) (rows : list CheckIn.t) :
  (0 <= take_)%Z ->
  (Z.of_nat (length (PrismaCheckInRepository.window 0 take_ rows)) <= take_)%Z.
Proof.
  intros H. unfold PrismaCheckInRepository.window.
  destruct (Z.ltb_spec take_ 0); [lia|]. rewrite length_take. lia.
Qed.

Lemma validate_row_app (id0 : string) (now : Z) (pre : list CheckIn.t)
    (c : CheckIn.t) (post : list CheckIn.t) :
  (forall d, d ∈ pre -> String.eqb (CheckIn.id d) id0 = false) ->
  String.eqb (CheckIn.id c) id0 = true ->
  PrismaCheckInRepository.validate_row id0 now (pre ++ c :: post)%list
  = Some (validated_at now c, (pre ++ validated_at now c :: post)%list).
Proof.
  induction pre as [|a pre IH]; simpl; intros Hpre Hc.
  - by rewrite Hc.
  - rewrite (Hpre a (list_elem_of_here _ _)).
    rewrite IH; [done| |done]. intros y Hy. apply Hpre. by apply list_elem_of_further.
Qed.

Lemma checkin_matches_scope (f : FindCheckInsFilters) (c : CheckIn.t) :
  PrismaCheckInRepository.matches f c = true ->
  CheckIn.gymId c = find_gymId f
  /\ (forall u, find_userId f = Some u -> u <> "" -> CheckIn.userId c = u)
  /\ (forall d, find_startDate f = Some d -> (d <= CheckIn.checkedInAt c)%Z)
  /\ (forall d, find_endDate f = Some d -> (CheckIn.checkedInAt c <= d)%Z)
  /\ (find_validated f = Some true -> is_Some (CheckIn.validatedAt c))
  /\ (find_validated f = Some false -> CheckIn.validatedAt c = None).
Proof.
  unfold PrismaCheckInRepository.matches. rewrite !andb_true_iff.
  intros [[[[Hg Hu] Hs] He] Hv]. repeat split.
  - by apply String.eqb_eq.
  - intros u Hf Hne. rewrite Hf in Hu. destruct u; [done|].
    by apply String.eqb_eq.
  - intros d Hf. rewrite Hf in Hs. by apply Z.leb_le.
  - intros d Hf. rewrite Hf in He. by apply Z.leb_le.
  - intros Hf. rewrite Hf in Hv. by apply bool_decide_eq_true_1 in Hv.
  - intros Hf. rewrite Hf in Hv. by apply bool_decide_eq_true_1 in Hv.
Qed.

Lemma on_users_findById (id0 : string) (t : Tables) :
  on_users (PrismaUserRepository.findById id0) t
  = (Return (List.find (fun u => String.eqb (Prisma.id u) id0) (userTable t)), t).
Proof. destruct t; reflexivity. Qed.

(** X22. [findLastByUserAndGym] returns nothing exactly when the user has
    no check-in in the tenant; otherwise it returns one of the user's
    check-ins in the tenant, and none of them is later. *)
Theorem findLastByUserAndGym_latest (userId gymId : string) (t : Tables) :
  match PrismaCheckInRepository.findLastByUserAndGym userId gymId t with
  | (Return None, t') =>
      t' = t
      /\ forall c, c ∈ checkInTable t ->
           ~ (CheckIn.userId c = userId /\ CheckIn.gymId c = gymId)
  | (Return (Some c), t') =>
      t' = t /\ c ∈ checkInTable t
      /\ CheckIn.userId c = userId /\ CheckIn.gymId c = gymId
      /\ forall d, d ∈ checkInTable t ->
           CheckIn.userId d = userId -> CheckIn.gymId d = gymId ->
           (CheckIn.checkedInAt d <= CheckIn.checkedInAt c)%Z
  | (Throw _, _) => False
  end.
Proof.
  unfold PrismaCheckInRepository.findLastByUserAndGym.
  set (p := fun c : CheckIn.t => _ = true).
  pose proof (checkin_order_desc_perm (filter p (checkInTable t))) as Hperm.
  pose proof (checkin_order_desc_sorted (filter p (checkInTable t))) as Hsorted.
  assert (forall c, c ∈ filter p (checkInTable t)
                    <-> c ∈ checkInTable t
                        /\ CheckIn.userId c = userId /\ CheckIn.gymId c = gymId)
    as Hfilter.
  { intros c. rewrite list_elem_of_filter. subst p. simpl.
    rewrite andb_true_iff, !String.eqb_eq. tauto. }
  destruct (PrismaCheckInRepository.order_desc (filter p (checkInTable t)))
    as [|c rest]; simpl.
  - split; [done|]. intros c Hin Hc.
    assert (c ∈ filter p (checkInTable t)) as H by (apply Hfilter; tauto).
    rewrite <- Hperm in H. inversion H.
  - assert (c ∈ filter p (checkInTable t)) as Hc
      by (rewrite <- Hperm; apply list_elem_of_here).
    apply Hfilter in Hc as (Hin & Hu & Hg).
    split; [done|]. split; [done|]. split; [done|]. split; [done|].
    intros d Hd Hdu Hdg.
    assert (d ∈ c :: rest) as Hd' by (rewrite Hperm; apply Hfilter; tauto).
    apply StronglySorted_inv in Hsorted as [_ Hall].
    apply elem_of_cons in Hd' as [->|Hd']; [lia|].
    rewrite List.Forall_forall in Hall. apply Hall. by apply list_elem_of_In.
Qed.

Section CheckIns.
Context {Cal : Calendar}.

Lemma hasCheckedInToday_spec (rt : Runtime) (userId gymId : string) (t : Tables) :
  exists b,
    PrismaCheckInRepository.hasCheckedInToday rt userId gymId t = (Return b, t)
    /\ (b = true <-> exists c, c ∈ checkInTable t
                              /\ checked_in_on_day (clock rt) userId gymId c).
Proof.
  unfold PrismaCheckInRepository.hasCheckedInToday.
  eexists. split; [reflexivity|].
  rewrite Nat.ltb_lt. unfold checked_in_on_day.
  set (p := fun c => _ = true).
  split.
  - intros Hlen.
    destruct (filter p (checkInTable t)) as [|c l] eqn:Hf; [simpl in Hlen; lia|].
    assert (c ∈ filter p (checkInTable t)) as Hc by (rewrite Hf; apply list_elem_of_here).
    apply list_elem_of_filter in Hc as [Hp Hin]. exists c. split; [done|].
    subst p. simpl in Hp. rewrite !andb_true_iff in Hp.
    destruct Hp as [[[Hu Hg] Hlo] Hhi].
    apply String.eqb_eq in Hu, Hg. apply Z.leb_le in Hlo. apply Z.ltb_lt in Hhi.
    by repeat split.
  - intros (c & Hin & Hu & Hg & Hlo & Hhi).
    assert (c ∈ filter p (checkInTable t)) as Hc.
    { apply list_elem_of_filter. split; [|done]. subst p. simpl.
      rewrite !andb_true_iff. repeat split.
      - by apply String.eqb_eq.
      - by apply String.eqb_eq.
      - by apply Z.leb_le.
      - by apply Z.ltb_lt. }
    destruct (filter p (checkInTable t)); [inversion Hc|simpl; lia].
Qed.

(** What a successful check-in did to the tables. *)
Lemma checkin_create_success (rt : Runtime) (userId gymId : string)
    (role0 : Role) (t : Tables) c t' :
  CheckInService.create rt userId gymId role0 t = (Return c, t') ->
  role0 = MEMBER
  /\ (exists u, List.find (fun u => String.eqb (Prisma.id u) userId) (userTable t)
                = Some u /\ Prisma.isActive u = true)
  /\ checkIn c = CheckIn.mk (generatedId rt) userId gymId (clock rt) None
  /\ t' = mkTables (userTable t) (checkInTable t ++ [checkIn c])%list.
Proof.
  unfold CheckInService.create.
  destruct (bool_decide (role0 = MEMBER)) eqn:Hrole; [|done].
  apply bool_decide_eq_true_1 in Hrole. cbn [negb].
  unfold tx_bind at 1. rewrite on_users_findById.
  destruct (List.find _ (userTable t)) as [u|] eqn:Hfind; [|done].
  destruct (Prisma.isActive u) eqn:Hact; [|done]. cbn [negb].
  unfold tx_bind at 1.
  destruct (hasCheckedInToday_spec rt userId gymId t) as (b & -> & Hb).
  destruct b; [done|].
  unfold tx_bind. rewrite on_users_findById. simpl. intros [= <- <-].
  split; [done|]. split; [by eauto|]. by destruct t.
Qed.

End CheckIns.

Section CheckInProperties.
Context {Cal : Calendar}.

(** X17. [canCheckInToday] and [create] agree for a member:
    [canCheckInToday] never fails and writes nothing; when it answers yes,
    [create] appends one row for the user and the tenant, stamped with the
    clock and not validated; when it answers no, [create] fails and writes
    nothing: with 404 or 403 where the reason is the user (unknown or
    inactive), with 409 where the reason is a check-in of the same day. *)
Theorem create_agrees_with_canCheckInToday (rt : Runtime) (userId gymId : string)
    (t : Tables) :
  match CheckInService.canCheckInToday rt userId gymId t,
        CheckInService.create rt userId gymId MEMBER t with
  | (Return answer, t1), (Return c, t2) =>
      answer = mkCanCheckIn true None /\ t1 = t
      /\ checkIn c = CheckIn.mk (generatedId rt) userId gymId (clock rt) None
      /\ t2 = mkTables (userTable t) (checkInTable t ++ [checkIn c])%list
  | (Return answer, t1), (Throw e, t2) =>
      canCheckIn answer = false /\ t1 = t /\ t2 = t
      /\ ((reason answer = Some "Usuário inativo"
           /\ (e = ThrownApp (mkAppError "Usuário não encontrado" 404)
               \/ e = ThrownApp
                        (mkAppError "Usuário inativo não pode fazer check-in" 403)))
          \/ (reason answer = Some "Você já fez check-in hoje"
              /\ e = ThrownApp (mkAppError "Você já fez check-in hoje" 409)
              /\ exists c, c ∈ checkInTable t
                           /\ checked_in_on_day (clock rt) userId gymId c))
  | (Throw _, _), _ => False
  end.
Proof.
  unfold CheckInService.canCheckInToday, CheckInService.create.
  rewrite bool_decide_eq_true_2 by done.
  cbn [negb]. unfold tx_bind at 1 3. rewrite on_users_findById.
  destruct (List.find _ (userTable t)) as [u|]; [|simpl; by auto 8].
  destruct (Prisma.isActive u); cbn [negb]; [|simpl; by auto 8].
  unfold tx_bind at 1 2.
  destruct (hasCheckedInToday_spec rt userId gymId t) as (b & -> & Hb).
  destruct b.
  - simpl. split; [done|]. split; [done|]. split; [done|]. right.
    split; [done|]. split; [done|]. by apply Hb.
  - unfold tx_bind. rewrite on_users_findById. simpl. by destruct t.
Qed.

(** X18. One check-in a day: after [create] succeeded, a [create] for the
    same user and tenant at any instant of the same day (a day that holds
    the instant of the first check-in) fails with 409 and writes nothing,
    and [canCheckInToday] answers no with that reason. *)
Theorem second_check_in_same_day_conflicts (rt rt2 : Runtime)
    (userId gymId : string) (role0 : Role) (t : Tables) c t' :
  CheckInService.create rt userId gymId role0 t = (Return c, t') ->
  (startOfDay (clock rt2) <= clock rt < nextDay (startOfDay (clock rt2)))%Z ->
  CheckInService.create rt2 userId gymId MEMBER t'
  = (Throw (ThrownApp (mkAppError "Você já fez check-in hoje" 409)), t')
  /\ CheckInService.canCheckInToday rt2 userId gymId t'
     = (Return (mkCanCheckIn false (Some "Você já fez check-in hoje")), t').
Proof.
  intros Hcreate Hday.
  apply checkin_create_success in Hcreate as (_ & (u & Hfind & Hact) & Hc & ->).
  destruct (hasCheckedInToday_spec rt2 userId gymId
              (mkTables (userTable t) (checkInTable t ++ [checkIn c])%list))
    as (b & Hhas & Hb).
  assert (b = true) as ->.
  { apply Hb. exists (checkIn c). split.
    - cbn [checkInTable]. apply elem_of_app. right. apply list_elem_of_here.
    - rewrite Hc. unfold checked_in_on_day. simpl. repeat split; try done; lia. }
  split.
  - unfold CheckInService.create. rewrite bool_decide_eq_true_2 by done.
    cbn [negb]. unfold tx_bind at 1. rewrite on_users_findById.
    cbn [userTable]. rewrite Hfind, Hact. cbn [negb].
    unfold tx_bind. by rewrite Hhas.
  - unfold CheckInService.canCheckInToday.
    unfold tx_bind at 1. rewrite on_users_findById.
    cbn [userTable]. rewrite Hfind, Hact. cbn [negb].
    unfold tx_bind. by rewrite Hhas.
Qed.

(** X19. [list] never writes, and every check-in it returns is a stored
    one of the requester's own tenant, whatever the filters say; for a
    member (with a non-empty id) every one is the member's own, whatever
    user the filters name; for the staff a non-empty user filter is
    honoured. *)
Theorem check_in_list_scope (filters : ListCheckInsFiltersDTO)
    (requester : string) (role0 : Role) (gym : string) (t : Tables) :
  match CheckInService.list filters requester role0 gym t with
  | (Return r, t') =>
      t' = t
      /\ Forall (fun c =>
           checkIn c ∈ checkInTable t
           /\ CheckIn.gymId (checkIn c) = gym
           /\ (role0 = MEMBER -> requester <> "" ->
               CheckIn.userId (checkIn c) = requester)
           /\ (forall u, role0 <> MEMBER -> checkins_userId filters = Some u ->
               u <> "" -> CheckIn.userId (checkIn c) = u))
           (data r)
  | (Throw _, t') => t' = t
  end.
Proof.
  unfold CheckInService.list, PrismaCheckInRepository.findManyWithFilters.
  set (f := mkFindCheckInsFilters _ _ _ _ _ _ _).
  destruct (_ <? 0)%Z; [done|]. split; [done|]. cbn [data].
  apply Forall_fmap, Forall_forall. intros c Hc. apply list_elem_of_In in Hc.
  apply checkin_window_subseteq in Hc. rewrite checkin_order_desc_perm in Hc.
  apply list_elem_of_filter in Hc as [Hm Hin].
  apply checkin_matches_scope in Hm as (Hg & Hu & _).
  cbn [PrismaCheckInRepository.include_user checkIn]. repeat split; try done.
  - intros -> Hne. apply Hu; [|done]. subst f. cbn [find_userId].
    by rewrite bool_decide_eq_true_2.
  - intros u Hrole Hf Hne. apply Hu; [|done]. subst f. cbn [find_userId].
    by rewrite bool_decide_eq_false_2.
Qed.

(** X20. A check-in is validated once: when [validate] succeeds the
    requester is staff, the row is of the requester's tenant and carried no
    validation; the call stamps this one row with the clock and changes
    nothing else; and every later [validate] of the row by the staff of the
    tenant fails with 400 and writes nothing. *)
Theorem check_in_validated_once (rt rt2 : Runtime) (checkInId : string)
    (role0 : Role) (gym : string) (t : Tables) r t' :
  CheckInService.validate rt checkInId role0 gym t = (Return r, t') ->
  role0 <> MEMBER
  /\ (exists pre c post,
        checkInTable t = (pre ++ c :: post)%list
        /\ (forall d, d ∈ pre -> CheckIn.id d <> checkInId)
        /\ CheckIn.id c = checkInId /\ CheckIn.gymId c = gym
        /\ CheckIn.validatedAt c = None
        /\ checkIn r = validated_at (clock rt) c
        /\ t' = mkTables (userTable t)
                  (pre ++ validated_at (clock rt) c :: post)%list)
  /\ (forall role2, role2 <> MEMBER ->
        CheckInService.validate rt2 checkInId role2 gym t'
        = (Throw (ThrownApp (mkAppError "Check-in já foi validado" 400)), t')).
Proof.
  unfold CheckInService.validate at 1.
  destruct (bool_decide (role0 = MEMBER)) eqn:Hrole; [done|].
  apply bool_decide_eq_false_1 in Hrole.
  unfold tx_bind, PrismaCheckInRepository.findById.
  destruct (List.find _ (checkInTable t)) as [c|] eqn:Hfind; [|done].
  cbn [fmap option_fmap option_map PrismaCheckInRepository.include_user checkIn].
  destruct (String.eqb_spec (CheckIn.gymId c) gym) as [Hgym|Hgym]; [|done].
  cbn [negb].
  destruct (CheckIn.validatedAt c) as [v|] eqn:Hval.
  { by rewrite bool_decide_eq_true_2 by eauto. }
  rewrite bool_decide_eq_false_2 by (by intros [? ?]).
  destruct (find_split _ _ _ Hfind) as (pre & post & Hdb & Hpre & Hc).
  unfold PrismaCheckInRepository.validate.
  rewrite Hdb at 1. rewrite (validate_row_app _ _ _ _ _ Hpre Hc).
  intros [= <- <-]. split; [done|]. split.
  - exists pre, c, post. repeat split; try done.
    + intros d Hd Heq. specialize (Hpre d Hd). apply String.eqb_neq in Hpre. done.
    + by apply String.eqb_eq.
  - intros role2 Hrole2. unfold CheckInService.validate.
    rewrite bool_decide_eq_false_2 by done.
    unfold tx_bind, PrismaCheckInRepository.findById. cbn [checkInTable].
    rewrite find_app_skip by exact Hpre.
    cbn [List.find validated_at CheckIn.id]. rewrite Hc.
    cbn [fmap option_fmap option_map PrismaCheckInRepository.include_user checkIn
         CheckIn.gymId CheckIn.validatedAt].
    change (CheckIn.gymId (validated_at (clock rt) c)) with (CheckIn.gymId c).
    change (CheckIn.validatedAt (validated_at (clock rt) c)) with (Some (clock rt)).
    rewrite Hgym, String.eqb_refl. cbn [negb].
    by rewrite bool_decide_eq_true_2 by eauto.
Qed.

(** X21. [getUserHistory] never writes. It returns a history only to the
    user themself or to the staff, and only for a user whose record is of
    the requester's tenant; the history holds stored check-ins of that user
    only, at most [limit] of them (10 when no limit is given). Every
    failure is 403 or 404. *)
Theorem getUserHistory_scope (userId requester : string) (role0 : Role)
    (gym : string) (limit : option Z) (t : Tables) :
  match CheckInService.getUserHistory userId requester role0 gym limit t with
  | (Return history, t') =>
      t' = t
      /\ (userId = requester \/ role0 <> MEMBER)
      /\ (exists u, List.find (fun u => String.eqb (Prisma.id u) userId) (userTable t)
                    = Some u /\ Prisma.gymId u = gym)
      /\ Forall (fun c => c ∈ checkInTable t /\ CheckIn.userId c = userId) history
      /\ ((0 <= default 10 limit)%Z ->
          (Z.of_nat (length history) <= default 10 limit)%Z)
  | (Throw e, t') =>
      t' = t
      /\ (e = ThrownApp (mkAppError "Sem permissão para visualizar histórico" 403)
          \/ e = ThrownApp (mkAppError "Usuário não encontrado" 404)
          \/ e = ThrownApp (mkAppError "Usuário de outra academia" 403))
  end.
Proof.
  unfold CheckInService.getUserHistory.
  assert (String.eqb userId requester || negb (bool_decide (role0 = MEMBER)) = true
          <-> userId = requester \/ role0 <> MEMBER) as Hperm.
  { rewrite orb_true_iff, negb_true_iff, String.eqb_eq, bool_decide_eq_false. tauto. }
  destruct (String.eqb userId requester || negb (bool_decide (role0 = MEMBER)));
    cbn [negb]; [|simpl; by auto].
  unfold tx_bind. rewrite on_users_findById.
  destruct (List.find _ (userTable t)) as [u|] eqn:Hfind; [|simpl; by auto 6].
  destruct (String.eqb_spec (Prisma.gymId u) gym) as [Hgym|Hgym]; cbn [negb];
    [|simpl; by auto 6].
  unfold PrismaCheckInRepository.findByUser.
  split; [done|]. split; [by apply Hperm|]. split; [by eauto|].
  split; [|apply checkin_window_length].
  apply Forall_forall. intros c Hc. apply list_elem_of_In in Hc.
  apply checkin_window_subseteq in Hc. rewrite checkin_order_desc_perm in Hc.
  apply list_elem_of_filter in Hc as [Hu Hin]. apply String.eqb_eq in Hu. done.
Qed.

End CheckInProperties.

(* ===================================================================== *)
(** * The further properties at the reference instances *)
(* ===================================================================== *)

(** X1 at Maria's registration into an empty table. *)
Lemma register_then_login_witness :
  (length (random (Reference.runtime 1000 "id-1")) = 16%nat
   /\ AuthService.register Reference.cfg (Reference.runtime 1000 "id-1")
        (Reference.maria "gym-1") []
      = (Return (mkAuthResponse (auth_user Reference.maria_record)
                   (generateAccessToken Reference.cfg 1000
                      (mkJwtPayload "id-1" "gym-1" MEMBER))
                   (generateRefreshToken Reference.cfg 1000 "id-1")),
         [Reference.maria_record]))
  /\ AuthService.login Reference.cfg (Reference.runtime 1100 "")
       (mkLoginDTO "maria@example.com" "Senha123" "gym-1") [Reference.maria_record]
     = (Return (mkAuthResponse (auth_user Reference.maria_record)
                  (generateAccessToken Reference.cfg 1100
                     (mkJwtPayload "id-1" "gym-1" MEMBER))
                  (generateRefreshToken Reference.cfg 1100 "id-1")),
        [Reference.maria_record]).
Proof.
  split; [split; [reflexivity|vm_compute; reflexivity]|].
  apply (@register_then_login Jose.library Reference.eksblowfish
           reference_eksblowfish_laws Reference.cfg
           (Reference.runtime 1000 "id-1") (Reference.runtime 1100 "")
           (Reference.maria "gym-1") []
           (mkAuthResponse (auth_user Reference.maria_record)
              (generateAccessToken Reference.cfg 1000
                 (mkJwtPayload "id-1" "gym-1" MEMBER))
              (generateRefreshToken Reference.cfg 1000 "id-1"))
           [Reference.maria_record]);
    [reflexivity|vm_compute; reflexivity].
Defined.

(** X2 at a second registration of Maria's email in [gym-1], under another
    name and password. *)
Lemma register_twice_conflicts_witness :
  AuthService.register Reference.cfg (Reference.runtime 1000 "id-1")
    (Reference.maria "gym-1") []
  = (Return (mkAuthResponse (auth_user Reference.maria_record)
               (generateAccessToken Reference.cfg 1000
                  (mkJwtPayload "id-1" "gym-1" MEMBER))
               (generateRefreshToken Reference.cfg 1000 "id-1")),
     [Reference.maria_record])
  /\ AuthService.register Reference.cfg (Reference.runtime 1001 "id-2")
       (mkRegisterDTO "Maria Souza" "maria@example.com" "Outra456" "gym-1"
          None None None None) [Reference.maria_record]
     = (Throw (ThrownApp (mkAppError "E-mail já cadastrado nesta academia" 409)),
        [Reference.maria_record]).
Proof.
  split; [vm_compute; reflexivity|].
  apply (@register_twice_conflicts Jose.library Reference.eksblowfish
           Reference.cfg (Reference.runtime 1000 "id-1")
           (Reference.runtime 1001 "id-2") (Reference.maria "gym-1")
           (mkRegisterDTO "Maria Souza" "maria@example.com" "Outra456" "gym-1"
              None None None None) []
           (mkAuthResponse (auth_user Reference.maria_record)
              (generateAccessToken Reference.cfg 1000
                 (mkJwtPayload "id-1" "gym-1" MEMBER))
              (generateRefreshToken Reference.cfg 1000 "id-1"))
           [Reference.maria_record]);
    [vm_compute; reflexivity|reflexivity|reflexivity].
Defined.

(** X3 at Maria's login at 1100: her token in the cookie at 1200, and
    after its 900 seconds. *)
Lemma login_token_authenticates_witness :
  let token :=
    generateAccessToken Reference.cfg 1100 (mkJwtPayload "id-1" "gym-1" MEMBER) in
  let req := Req.mk ∅ ∅ ∅ {[ "accessToken" := token ]} ∅ None None None in
  authenticate Reference.cfg 1200 req
  = NextOk (Req.mk ∅ ∅ ∅ {[ "accessToken" := token ]} ∅
              (Some "id-1") (Some "gym-1") (Some "MEMBER"))
  /\ authenticate Reference.cfg 2000 req
     = next_app_error "Token inválido ou expirado" 401.
Proof.
  intros token req.
  destruct (@login_token_authenticates Reference.codec reference_codec_laws
              Reference.eksblowfish Reference.cfg (Reference.runtime 1100 "")
              (mkLoginDTO "maria@example.com" "Senha123" "gym-1")
              [Reference.maria_record]
              (mkAuthResponse (auth_user Reference.maria_record) token
                 (generateRefreshToken Reference.cfg 1100 "id-1"))
              [Reference.maria_record])
    as (u & Hin & _ & _ & _ & Hauth); [vm_compute; reflexivity|].
  apply list_elem_of_singleton in Hin. subst u.
  assert (carries req token) as Hcarries by (left; vm_compute; reflexivity).
  split.
  - destruct (Hauth 1200%Z req Hcarries) as [Hok _]. apply Hok. reflexivity.
  - destruct (Hauth 2000%Z req Hcarries) as [_ Hlate]. apply Hlate. discriminate.
Defined.

(** X4 at Maria's login at 1100, her refresh token used at 3000 after she
    was made an instructor. *)
Lemma login_refresh_token_renews_witness :
  let promoted :=
    Prisma.mkUser "id-1" "gym-1" "Maria Silva" "maria@example.com"
      (Prisma.passwordHash Reference.maria_record) INSTRUCTOR None None None
      None true 1000 2000 in
  AuthService.refreshAccessToken Reference.cfg (Reference.runtime 3000 "")
    (generateRefreshToken Reference.cfg 1100 "id-1") [promoted]
  = (Return {[ "accessToken" :=
                 Js.JStr (generateAccessToken Reference.cfg 3000
                            (mkJwtPayload "id-1" "gym-1" INSTRUCTOR)) ]},
     [promoted]).
Proof.
  intros promoted.
  destruct (@login_refresh_token_renews Reference.codec reference_codec_laws
              Reference.eksblowfish Reference.cfg (Reference.runtime 1100 "")
              (mkLoginDTO "maria@example.com" "Senha123" "gym-1")
              [Reference.maria_record]
              (mkAuthResponse (auth_user Reference.maria_record)
                 (generateAccessToken Reference.cfg 1100
                    (mkJwtPayload "id-1" "gym-1" MEMBER))
                 (generateRefreshToken Reference.cfg 1100 "id-1"))
              [Reference.maria_record])
    as (u & Hin & _ & _ & Hrefresh); [vm_compute; reflexivity|].
  apply list_elem_of_singleton in Hin. subst u.
  destruct (Hrefresh (Reference.runtime 3000 "") [promoted]) as [Hok _].
  exact (Hok eq_refl).
Defined.

(** X5 at the member's token on a route of the staff, and on a route of
    the members. *)
Lemma route_guard_admits_allowed_roles_witness :
  and_then (authenticate Reference.cfg 1200) (authorize [INSTRUCTOR; ADMIN])
    Reference.member_request
  = next_app_error "Acesso negado. Permissões necessárias: INSTRUCTOR, ADMIN" 403
  /\ and_then (authenticate Reference.cfg 1200) (authorize [MEMBER])
       Reference.member_request
     = NextOk (Req.mk ∅ ∅ ∅ {[ "accessToken" := Reference.member_token ]} ∅
                 (Some "user-123") (Some "gym-abc") (Some "MEMBER")).
Proof.
  split.
  - apply (@route_guard_admits_allowed_roles Reference.codec reference_codec_laws
             Reference.cfg 1000 1200 Reference.member [INSTRUCTOR; ADMIN]
             Reference.member_request);
      [left; vm_compute; reflexivity|reflexivity].
  - apply (@route_guard_admits_allowed_roles Reference.codec reference_codec_laws
             Reference.cfg 1000 1200 Reference.member [MEMBER]
             Reference.member_request);
      [left; vm_compute; reflexivity|reflexivity].
Defined.

(** X6 at the member's request on a route of the members. *)
Lemma route_guard_requires_allowed_role_witness :
  and_then (authenticate Reference.cfg 1200) (authorize [MEMBER])
    Reference.member_request
  = NextOk (Req.mk ∅ ∅ ∅ {[ "accessToken" := Reference.member_token ]} ∅
              (Some "user-123") (Some "gym-abc") (Some "MEMBER"))
  /\ exists token claims r,
       Spec.bearer_token Reference.member_request = Some token
       /\ verifyAccessToken Reference.cfg 1200 token = Return claims
       /\ Jwt.role claims = Some (role_name r) /\ r ∈ [MEMBER]
       /\ Req.mk ∅ ∅ ∅ {[ "accessToken" := Reference.member_token ]} ∅
            (Some "user-123") (Some "gym-abc") (Some "MEMBER")
          = Spec.attach_identity claims Reference.member_request.
Proof.
  split; [vm_compute; reflexivity|].
  apply (@route_guard_requires_allowed_role Jose.library Reference.cfg 1200
           [MEMBER] Reference.member_request).
  vm_compute; reflexivity.
Defined.

(** X9 at Ana, who deactivates herself through [updateUser]. *)
Lemma updateUser_has_no_self_guard_witness :
  (PrismaUserRepository.findById "admin-1" Reference.gym_table
   = (Return (Some Reference.ana_record), Reference.gym_table)
   /\ Prisma.gymId Reference.ana_record = "gym-1")
  /\ exists db',
       UserService.updateUser (Reference.runtime 2000 "") "admin-1"
         (mkUpdateUserDTO None None None None None None (Some false) None)
         "admin-1" ADMIN "gym-1" Reference.gym_table
       = (Return (UserService.removeSensitiveData
                    (deactivated 2000 Reference.ana_record)), db')
       /\ PrismaUserRepository.findById "admin-1" db'
          = (Return (Some (deactivated 2000 Reference.ana_record)), db')
       /\ Prisma.isActive (deactivated 2000 Reference.ana_record) = false
       /\ UserService.deactivateUser (Reference.runtime 2000 "") "admin-1"
            "admin-1" ADMIN "gym-1" Reference.gym_table
          = (Throw (ThrownApp
               (mkAppError "Não é possível desativar o próprio usuário" 400)),
             Reference.gym_table).
Proof.
  split; [split; reflexivity|].
  apply (updateUser_has_no_self_guard (Reference.runtime 2000 "") "admin-1"
           "gym-1" Reference.gym_table Reference.ana_record); reflexivity.
Defined.

(** X10 at Ana, who deactivates Maria at 2000; Maria is reactivated at
    3000. *)
Lemma deactivate_then_reactivate_witness :
  UserService.deactivateUser (Reference.runtime 2000 "") "id-1" "admin-1" ADMIN
    "gym-1" Reference.gym_table
  = (Return (UserService.removeSensitiveData
               (deactivated 2000 Reference.maria_record)),
     [Reference.ana_record; deactivated 2000 Reference.maria_record])
  /\ exists pre u post,
       Reference.gym_table = (pre ++ u :: post)%list
       /\ Prisma.id u = "id-1" /\ Prisma.isActive u = true
       /\ [Reference.ana_record; deactivated 2000 Reference.maria_record]
          = (pre ++ deactivated 2000 u :: post)%list
       /\ (forall admin,
             UserService.reactivateUser (Reference.runtime 3000 "") "id-1" admin
               ADMIN "gym-1"
               [Reference.ana_record; deactivated 2000 Reference.maria_record]
             = (Return (UserService.removeSensitiveData (touched 3000 u)),
                (pre ++ touched 3000 u :: post)%list))
       /\ (forall admin, admin <> "id-1" ->
             UserService.deactivateUser (Reference.runtime 3000 "") "id-1" admin
               ADMIN "gym-1"
               [Reference.ana_record; deactivated 2000 Reference.maria_record]
             = (Throw (ThrownApp (mkAppError "Usuário já está inativo" 400)),
                [Reference.ana_record; deactivated 2000 Reference.maria_record])).
Proof.
  split; [reflexivity|].
  apply (deactivate_then_reactivate (Reference.runtime 2000 "")
           (Reference.runtime 3000 "") "id-1" "admin-1" ADMIN "gym-1"
           Reference.gym_table
           (UserService.removeSensitiveData (deactivated 2000 Reference.maria_record))
           [Reference.ana_record; deactivated 2000 Reference.maria_record]).
  reflexivity.
Defined.

(** X11 at Maria, deactivated by Ana at 2000: her profile and her login. *)
Lemma deactivated_user_is_locked_out_witness :
  let db' := [Reference.ana_record; deactivated 2000 Reference.maria_record] in
  AuthService.getProfile "id-1" db'
  = (Throw (ThrownApp (mkAppError "Usuário inativo" 403)), db')
  /\ AuthService.login Reference.cfg (Reference.runtime 2100 "")
       (mkLoginDTO "maria@example.com" "Senha123" "gym-1") db'
     = (Throw (ThrownApp (mkAppError "Usuário inativo" 403)), db').
Proof.
  intros db'.
  destruct (@deactivated_user_is_locked_out Jose.library Reference.eksblowfish
              (Reference.runtime 2000 "") "id-1" "admin-1" ADMIN "gym-1"
              Reference.gym_table
              (UserService.removeSensitiveData
                 (deactivated 2000 Reference.maria_record)) db')
    as (Hprofile & _ & Hlogin & _); [reflexivity|].
  split; [exact Hprofile|].
  apply (Hlogin Reference.cfg (Reference.runtime 2100 "")
           (mkLoginDTO "maria@example.com" "Senha123" "gym-1")).
  reflexivity.
Defined.

(** X13 at an administrator of [gym-2] who reaches for Maria's record. *)
Lemma cross_tenant_requests_fail_witness :
  (PrismaUserRepository.findById "id-1" Reference.gym_table
   = (Return (Some Reference.maria_record), Reference.gym_table)
   /\ Prisma.gymId Reference.maria_record <> "gym-2" /\ "id-1" <> "admin-2")
  /\ refused Reference.gym_table
       (UserService.getUserById "id-1" "admin-2" ADMIN "gym-2" Reference.gym_table)
  /\ (forall d,
        refused Reference.gym_table
          (UserService.updateUser (Reference.runtime 2000 "") "id-1" d "admin-2"
             ADMIN "gym-2" Reference.gym_table))
  /\ refused Reference.gym_table
       (UserService.deactivateUser (Reference.runtime 2000 "") "id-1" "admin-2"
          ADMIN "gym-2" Reference.gym_table)
  /\ refused Reference.gym_table
       (UserService.reactivateUser (Reference.runtime 2000 "") "id-1" "admin-2"
          ADMIN "gym-2" Reference.gym_table)
  /\ refused Reference.gym_table
       (UserService.deleteUser "id-1" "admin-2" ADMIN "gym-2" Reference.gym_table).
Proof.
  split; [split; [reflexivity|split; discriminate]|].
  apply (cross_tenant_requests_fail (Reference.runtime 2000 "") "id-1" "admin-2"
           ADMIN "gym-2" Reference.gym_table Reference.maria_record);
    [reflexivity|discriminate|discriminate].
Defined.

(** X16 at the two users of [gym-1], one row a page. *)
Lemma user_pages_partition_witness :
  let f := mkFilters "gym-1" None None None None None in
  exists (sorted : list Prisma.User) (n : nat),
    sorted ≡ₚ filter (fun u => PrismaUserRepository.matches f u = true)
                Reference.gym_table
    /\ StronglySorted (fun a b => (Prisma.createdAt b <= Prisma.createdAt a)%Z) sorted
    /\ (length sorted <= n * Z.to_nat 1 < length sorted + Z.to_nat 1)%nat
    /\ (forall p, (1 <= p)%Z ->
          PrismaUserRepository.findManyWithFilters (page_of f p 1) Reference.gym_table
          = (Return (mkPaginated
                       (take (Z.to_nat 1) (drop (Z.to_nat ((p - 1) * 1)) sorted))
                       (mkMeta (Z.of_nat (length sorted)) p 1 (Z.of_nat n))),
             Reference.gym_table))
    /\ concat (map (fun p => rows_of (PrismaUserRepository.findManyWithFilters
                                        (page_of f (Z.of_nat p) 1)
                                        Reference.gym_table))
                 (seq 1 n))
       = sorted.
Proof.
  intros f.
  apply (user_pages_partition f 1 Reference.gym_table). discriminate.
Defined.

(** X18 at Maria's check-in at 1000 and a second one at 5000, the same
    day. *)
Lemma second_check_in_same_day_conflicts_witness :
  let t' := mkTables Reference.gym_table [Reference.first_check_in] in
  (CheckInService.create (Reference.runtime 1000 "ci-1") "id-1" "gym-1" MEMBER
     (mkTables Reference.gym_table [])
   = (Return (PrismaCheckInRepository.include_user ["id"; "name"; "email"; "role"]
                Reference.gym_table Reference.first_check_in), t')
   /\ (startOfDay 5000 <= 1000 < nextDay (startOfDay 5000))%Z)
  /\ CheckInService.create (Reference.runtime 5000 "ci-2") "id-1" "gym-1" MEMBER t'
     = (Throw (ThrownApp (mkAppError "Você já fez check-in hoje" 409)), t')
  /\ CheckInService.canCheckInToday (Reference.runtime 5000 "ci-2") "id-1" "gym-1" t'
     = (Return (mkCanCheckIn false (Some "Você já fez check-in hoje")), t').
Proof.
  intros t'.
  split; [split; [vm_compute; reflexivity|vm_compute; split; [discriminate|reflexivity]]|].
  apply (@second_check_in_same_day_conflicts Reference.calendar
           (Reference.runtime 1000 "ci-1") (Reference.runtime 5000 "ci-2")
           "id-1" "gym-1" MEMBER (mkTables Reference.gym_table [])
           (PrismaCheckInRepository.include_user ["id"; "name"; "email"; "role"]
              Reference.gym_table Reference.first_check_in) t');
    [vm_compute; reflexivity|vm_compute; split; [discriminate|reflexivity]].
Defined.

(** X20 at Maria's first check-in, validated by an instructor at 2000. *)
Lemma check_in_validated_once_witness :
  let t := mkTables Reference.gym_table [Reference.first_check_in] in
  let t' := mkTables Reference.gym_table
              [validated_at 2000 Reference.first_check_in] in
  CheckInService.validate (Reference.runtime 2000 "") "ci-1" INSTRUCTOR "gym-1" t
  = (Return (PrismaCheckInRepository.include_user ["id"; "name"; "email"]
               Reference.gym_table (validated_at 2000 Reference.first_check_in)),
     t')
  /\ forall role2, role2 <> MEMBER ->
       CheckInService.validate (Reference.runtime 3000 "") "ci-1" role2 "gym-1" t'
       = (Throw (ThrownApp (mkAppError "Check-in já foi validado" 400)), t').
Proof.
  intros t t'.
  assert (CheckInService.validate (Reference.runtime 2000 "") "ci-1" INSTRUCTOR
            "gym-1" t
          = (Return (PrismaCheckInRepository.include_user ["id"; "name"; "email"]
                       Reference.gym_table
                       (validated_at 2000 Reference.first_check_in)), t'))
    as Hvalidate by (vm_compute; reflexivity).
  split; [exact Hvalidate|].
  exact (proj2 (proj2 (check_in_validated_once
                         (Reference.runtime 2000 "") (Reference.runtime 3000 "")
                         "ci-1" INSTRUCTOR "gym-1" t _ t' Hvalidate))).
Defined.

(** ** Scenarios of the user management and of the check-ins *)

(** A stored digest that [hashPassword] did not make: one character short,
    a cost that is no number, and the salt strings that [_hash] refuses,
    each with its message. *)
Example malformed_digest_scenario :
  comparePassword "Senha123"
    "$2a$10$KBCwKxOzLha2MUDgW0PjXeS0TsYECvKhK.KBCwKxOzLha2MUDgW0"
  = Return false
  /\ comparePassword "Senha123"
       "$2a$1x$KBCwKxOzLha2MUDgW0PjXeS0TsYECvKhK.KBCwKxOzLha2MUDgW0O"
     = Return false
  /\ comparePassword "Senha123"
       "$3a$10$KBCwKxOzLha2MUDgW0PjXeS0TsYECvKhK.KBCwKxOzLha2MUDgW0O"
     = Throw (ThrownError "Invalid salt version: $3")
  /\ comparePassword "Senha123"
       "$2x$10$KBCwKxOzLha2MUDgW0PjXeS0TsYECvKhK.KBCwKxOzLha2MUDgW0O"
     = Throw (ThrownError "Invalid salt revision: x$")
  /\ comparePassword "Senha123"
       "$2a$100KBCwKxOzLha2MUDgW0PjXeS0TsYECvKhK.KBCwKxOzLha2MUDgW0O"
     = Throw (ThrownError "Missing salt rounds")
  /\ comparePassword "Senha123"
       "$2a$03$KBCwKxOzLha2MUDgW0PjXeS0TsYECvKhK.KBCwKxOzLha2MUDgW0O"
     = Throw (ThrownError "Illegal number of rounds (4-31): 3")
  /\ comparePassword "Senha123"
       "$2a$10$!BCwKxOzLha2MUDgW0PjXeS0TsYECvKhK.KBCwKxOzLha2MUDgW0O"
     = Throw (ThrownError "Illegal salt length: 0 != 16").
Proof. repeat split; vm_compute; reflexivity. Qed.

(** The unique index on the national ID: the empty string is stored as it
    is, a second registration with it is refused by the store, and so is
    an update that sets it on another record; the table stays as it was. *)
Example unique_index_scenario :
  let ana :=
    mkRegisterDTO "Ana Souza" "ana@example.com" "Senha123" "gym-1"
      (Some ADMIN) (Some "") None None in
  let bia :=
    mkRegisterDTO "Bia Lima" "bia@example.com" "Senha456" "gym-2" None
      (Some "") None None in
  let db1 := snd (AuthService.register Reference.cfg
                    (Reference.runtime 1000 "id-0") ana []) in
  let db2 := (db1 ++ [Reference.maria_record])%list in
  let empty_cpf :=
    mkUpdateUserDTO None None None None None None None (Some "") in
  map Prisma.cpf db1 = [Some ""]
  /\ AuthService.register Reference.cfg (Reference.runtime 2000 "id-2") bia db1
     = (Throw (ThrownPrisma "P2002"), db1)
  /\ UserService.updateUser (Reference.runtime 3000 "") "id-1" empty_cpf
       "id-0" ADMIN "gym-1" db2
     = (Throw (ThrownPrisma "P2002"), db2).
Proof. repeat split; vm_compute; reflexivity. Qed.

(** The statistics of [gym-1], and a listing that names another tenant in
    vain. *)
Example gym_scenario :
  let other :=
    Prisma.mkUser "id-9" "gym-2" "Outro" "outro@example.com" "hash" MEMBER
      None None None None true 950 950 in
  let db := (Reference.gym_table ++ [other])%list in
  fst (UserService.getGymStats INSTRUCTOR "gym-1" db)
  = Return (UserService.mkGymStats 2 (UserService.mkByRole 1 0 1))
  /\ fst (UserService.getGymStats MEMBER "gym-1" db)
     = Throw (ThrownApp (mkAppError "Sem permissão para visualizar estatísticas" 403))
  /\ rows_of (UserService.listUsers (mkListUsersFiltersDTO None None None None None)
                "admin-1" ADMIN "gym-1" db)
     = [UserService.removeSensitiveData Reference.maria_record;
        UserService.removeSensitiveData Reference.ana_record]
  /\ rows_of (UserService.listUsers
                (mkListUsersFiltersDTO None None (Some "MARIA") (Some 1%Z) (Some 1%Z))
                "admin-1" ADMIN "gym-1" db)
     = [UserService.removeSensitiveData Reference.maria_record].
Proof. repeat split; vm_compute; reflexivity. Qed.

(** A member lists check-ins with a filter on another user: the listing
    holds the member's own check-ins only. *)
Example check_in_scenario :
  let other := CheckIn.mk "ci-2" "id-7" "gym-1" 1500 None in
  let t := mkTables Reference.gym_table [Reference.first_check_in; other] in
  map checkIn
    (rows_of (CheckInService.list
                (mkListCheckInsFiltersDTO (Some "id-7") None None None None None)
                "id-1" MEMBER "gym-1" t))
  = [Reference.first_check_in]
  /\ map checkIn
       (rows_of (CheckInService.list
                   (mkListCheckInsFiltersDTO None None None None None None)
                   "admin-1" ADMIN "gym-1" t))
     = [other; Reference.first_check_in]
  /\ fst (PrismaCheckInRepository.findLastByUserAndGym "id-1" "gym-1" t)
     = Return (Some Reference.first_check_in)
  /\ fst (CheckInService.getUserHistory "id-7" "id-1" MEMBER "gym-1" None t)
     = Throw (ThrownApp (mkAppError "Sem permissão para visualizar histórico" 403)).
Proof. repeat split; vm_compute; reflexivity. Qed.

(* ===================================================================== *)
(** * Further properties: allowed origins *)
(* ===================================================================== *)

Lemma prefix_true_app (p s : string) :
  String.prefix p s = true -> s = p ++ Js.drop_str (String.length p) s.
Proof.
  revert p. induction s as [|c s IH]; intros [|a p]; simpl; try done.
  destruct (ascii_dec a c) as [->|]; [|done].
  intros H. rewrite string_app_cons. f_equal. by apply IH.
Qed.

Lemma after_spec (p s r : string) : Cors.after p s = Some r <-> s = p ++ r.
Proof.
  unfold Cors.after. split.
  - destruct (String.prefix p s) eqn:Hp; [|done]. intros [= <-].
    by apply prefix_true_app.
  - intros ->. by rewrite prefix_app, drop_str_app.
Qed.

Lemma digits_spec (s d r : string) :
  Cors.digits s = (d, r) -> s = d ++ r /\ all_digits d = true /\ no_digit_ahead r.
Proof.
  revert d r. induction s as [|c s IH]; simpl; intros d r.
  - intros [= <- <-]. done.
  - destruct (Cors.is_digit c) eqn:Hc.
    + destruct (Cors.digits s) as [d' r'] eqn:Hd. intros [= <- <-].
      destruct (IH d' r' eq_refl) as (-> & Hall & Hr).
      rewrite string_app_cons. simpl. by rewrite Hc, Hall.
    + intros [= <- <-]. by rewrite string_app_nil.
Qed.

Lemma digits_app (d r : string) :
  all_digits d = true -> no_digit_ahead r -> Cors.digits (d ++ r) = (d, r).
Proof.
  induction d as [|c d IH]; simpl; intros Hd Hr.
  - rewrite string_app_nil. destruct r as [|c r]; simpl in *; [done|]. by rewrite Hr.
  - apply andb_true_iff in Hd as [Hc Hd]. rewrite ?string_app_cons. simpl.
    by rewrite Hc, IH.
Qed.

Lemma local_network_test_spec (o : string) :
  Cors.local_network_test o = true <-> local_network_origin o.
Proof.
  unfold Cors.local_network_test, local_network_origin. split.
  - destruct (Cors.after _ o) as [r1|] eqn:H1; [|done].
    apply after_spec in H1 as ->.
    destruct (Cors.digits r1) as [a r2] eqn:Ha.
    apply digits_spec in Ha as (-> & Hda & _).
    rewrite !andb_true_iff, Nat.leb_le, Nat.leb_le. intros [[Ha1 Ha3] H].
    destruct (Cors.after "." r2) as [r3|] eqn:H3; [|done].
    apply after_spec in H3 as ->.
    destruct (Cors.digits r3) as [b r4] eqn:Hb.
    apply digits_spec in Hb as (-> & Hdb & _).
    rewrite !andb_true_iff, Nat.leb_le, Nat.leb_le in H. destruct H as [[Hb1 Hb3] H].
    exists a, b, r4. repeat split; try done.
    destruct r4 as [|c r5]; [by left|]. right.
    apply andb_true_iff in H as [Hc H]. apply Ascii.eqb_eq in Hc as ->.
    destruct (Cors.digits r5) as [p r6] eqn:Hp.
    apply digits_spec in Hp as (-> & Hdp & _).
    apply andb_true_iff in H as [Hp1 H6]. apply Nat.leb_le in Hp1.
    destruct r6; [|done]. exists p. rewrite string_app_nil_r.
    repeat split; [done|]. intros ->. simpl in Hp1. lia.
  - intros (a & b & port & -> & Hda & [Ha1 Ha3] & Hdb & [Hb1 Hb3] & Hport).
    rewrite (proj2 (after_spec _ _ (a ++ "." ++ b ++ port)) eq_refl).
    rewrite (digits_app a ("." ++ b ++ port) Hda) by done.
    rewrite (proj2 (after_spec "." _ (b ++ port)) eq_refl).
    assert (no_digit_ahead port) as Hahead.
    { destruct Hport as [->|(d & -> & _)]; done. }
    rewrite (digits_app b port Hdb Hahead).
    rewrite !andb_true_iff, !Nat.leb_le. repeat split; try done.
    destruct Hport as [->|(d & -> & Hdd & Hne)]; [done|].
    rewrite string_app_cons, string_app_nil. rewrite Ascii.eqb_refl. simpl.
    pose proof (digits_app d "" Hdd I) as Hd0. rewrite string_app_nil_r in Hd0.
    rewrite Hd0. by destruct d.
Qed.

(** X24. The policy of the [origin] callback of the [cors] options: a
    request without an origin (or with an empty one) is let through; an
    origin is let through exactly when it is one of the two localhost
    origins, or [FRONTEND_URL], or, with [NODE_ENV] at [development] only,
    an origin of the local network as the regular expression reads (so
    nothing may follow the address but a port of digits); every other
    origin is refused with an [Error], which the error handler answers
    with 500. *)
Theorem cors_origin_policy (frontendUrl nodeEnv : option string) :
  let allowed := Cors.allowedOrigins frontendUrl nodeEnv in
  Cors.origin allowed None = Return true
  /\ Cors.origin allowed (Some "") = Return true
  /\ forall o, o <> "" ->
       (Cors.origin allowed (Some o) = Return true
        <-> o = "http://localhost:3000" \/ o = "http://localhost:3001"
            \/ frontendUrl = Some o
            \/ (nodeEnv = Some "development" /\ local_network_origin o))
       /\ (Cors.origin allowed (Some o) = Return true
           \/ (Cors.origin allowed (Some o) = Throw (ThrownError "Not allowed by CORS")
               /\ errorHandler (ThrownError "Not allowed by CORS")
                  = (500%Z, "Internal server error"))).
Proof.
  intros allowed. split; [done|]. split; [done|]. intros o Ho.
  assert (Js.str_truthy o = true) as Htr by (by destruct o).
  unfold Cors.origin. rewrite Htr. cbn [negb].
  split; [|destruct (existsb _ allowed); [by left|by right]].
  assert (existsb (fun a => match a with
                            | Cors.LocalNetwork => Cors.local_network_test o
                            | Cors.Origin s => String.eqb s o
                            end) allowed = true
          <-> o = "http://localhost:3000" \/ o = "http://localhost:3001"
              \/ frontendUrl = Some o
              \/ (nodeEnv = Some "development" /\ local_network_origin o)) as Hiff.
  { subst allowed. unfold Cors.allowedOrigins.
    rewrite existsb_exists. setoid_rewrite <- list_elem_of_In.
    setoid_rewrite list_elem_of_omap.
    split.
    - intros (a & (e & He & Ha) & Hm).
      destruct (Cors.entry_truthy e) eqn:Htruthy; [|done]. subst e.
      apply elem_of_app in He as [He|He].
      + apply elem_of_cons in He as [[= ->]|He];
          [apply String.eqb_eq in Hm; auto|].
        apply elem_of_cons in He as [[= ->]|He];
          [apply String.eqb_eq in Hm; auto|].
        apply list_elem_of_singleton in He.
        destruct frontendUrl as [u|]; [|done]. injection He as ->.
        apply String.eqb_eq in Hm as ->. auto.
      + destruct (bool_decide (nodeEnv = Some "development")) eqn:Hdev;
          [|inversion He].
        apply bool_decide_eq_true_1 in Hdev.
        apply list_elem_of_singleton in He. injection He as ->.
        apply local_network_test_spec in Hm. auto.
    - intros [->|[->|[->|[-> Hlan]]]].
      + exists (Cors.Origin "http://localhost:3000"). split; [|done].
        exists (Some (Cors.Origin "http://localhost:3000")). split; [|done].
        apply elem_of_app. left. apply list_elem_of_here.
      + exists (Cors.Origin "http://localhost:3001"). split; [|done].
        exists (Some (Cors.Origin "http://localhost:3001")). split; [|done].
        apply elem_of_app. left. apply list_elem_of_further, list_elem_of_here.
      + exists (Cors.Origin o). split; [|by apply String.eqb_eq].
        exists (Some (Cors.Origin o)). split; [|simpl; by rewrite Htr].
        apply elem_of_app. left. do 2 apply list_elem_of_further. apply list_elem_of_here.
      + exists Cors.LocalNetwork. split; [|by apply local_network_test_spec].
        exists (Some Cors.LocalNetwork). split; [|done].
        apply elem_of_app. right. rewrite bool_decide_eq_true_2 by done.
        apply list_elem_of_here. }
  destruct (existsb _ allowed); split; try done.
  - intros _. by apply Hiff.
  - intros H. apply Hiff in H. done.
Qed.

(** Origins on concrete inputs: a port, a host name that only starts like
    an address of the local network, and the production setting. *)
Example origin_scenario :
  let development := Cors.allowedOrigins None (Some "development") in
  let production := Cors.allowedOrigins (Some "https://app.example.com") None in
  Cors.origin development (Some "http://192.168.1.10:3000") = Return true
  /\ Cors.origin development (Some "http://192.168.1.10.evil.com")
     = Throw (ThrownError "Not allowed by CORS")
  /\ Cors.origin development (Some "http://192.168.1.1000")
     = Throw (ThrownError "Not allowed by CORS")
  /\ Cors.origin production (Some "http://192.168.1.10:3000")
     = Throw (ThrownError "Not allowed by CORS")
  /\ Cors.origin production (Some "https://app.example.com") = Return true
  /\ Cors.origin production None = Return true.
Proof. repeat split; vm_compute; reflexivity. Qed.

(* ===================================================================== *)
(** * Further properties: the active flag on the two profile routes *)
(* ===================================================================== *)

Section OwnRecord.
Context {L : Jwt.Library}.
Import Prisma.

(** X23. [getUserById] does not look at the active flag: after
    [deactivateUser] succeeded, the deactivated user still reads their own
    record through it, whatever role and tenant the request carries (the
    view is the one [deactivateUser] returned, with [isActive] false),
    where [getProfile] of the authentication service answers 403; the staff
    of the tenant reads it too, and a member or another tenant's staff is
    answered 403. *)
Theorem getUserById_ignores_the_active_flag (rt : Runtime)
    (userId requester : string) (role0 : Role) (gym : string)
    (db : list User) r db' :
  UserService.deactivateUser rt userId requester role0 gym db = (Return r, db') ->
  (forall role1 gym1,
     UserService.getUserById userId userId role1 gym1 db' = (Return r, db'))
  /\ r !! "isActive" = Some (Js.JBool false)
  /\ AuthService.getProfile userId db'
     = (Throw (ThrownApp (mkAppError "Usuário inativo" 403)), db')
  /\ (forall who role1 gym1, who <> userId ->
        UserService.getUserById userId who role1 gym1 db'
        = (if bool_decide (gym1 = gym /\ role1 <> MEMBER)
           then Return r
           else Throw (ThrownApp
                  (mkAppError "Sem permissão para visualizar este usuário" 403)),
           db')).
Proof.
  intros H. apply deactivateUser_success in H
    as (Hrole & Hself & pre & u & post & Hdb & Hdb' & Hpre & Hu & Hgym & Hact & Hr).
  assert (String.eqb (id (deactivated (clock rt) u)) userId = true) as Hu' by exact Hu.
  pose proof (findById_after_update _ _ _ post Hpre Hu') as Hfind'.
  rewrite <- Hdb' in Hfind'.
  split; [|split; [|split]].
  - intros role1 gym1. unfold UserService.getUserById, bind. rewrite Hfind'.
    rewrite String.eqb_refl. cbn [orb negb]. by rewrite Hr.
  - rewrite Hr. unfold UserService.removeSensitiveData, without_passwordHash,
      user_object. by simplify_map_eq.
  - unfold AuthService.getProfile, bind. rewrite Hfind'. reflexivity.
  - intros who role1 gym1 Hwho. unfold UserService.getUserById, bind.
    rewrite Hfind'.
    change (gymId (deactivated (clock rt) u)) with (gymId u). rewrite Hgym.
    destruct (String.eqb_spec userId who) as [->|_]; [done|]. cbn [orb].
    destruct (String.eqb_spec gym gym1) as [->|Hne];
      destruct (bool_decide (role1 = MEMBER)) eqn:Hmember; cbn [andb negb].
    + apply bool_decide_eq_true_1 in Hmember.
      rewrite bool_decide_eq_false_2 by tauto. done.
    + apply bool_decide_eq_false_1 in Hmember.
      rewrite bool_decide_eq_true_2 by tauto. by rewrite Hr.
    + rewrite bool_decide_eq_false_2; [done|]. intros [-> _]. done.
    + rewrite bool_decide_eq_false_2; [done|]. intros [-> _]. done.
Qed.

End OwnRecord.

(** X23 at Maria, deactivated by Ana at 2000, who reads her own record. *)
Lemma getUserById_ignores_the_active_flag_witness :
  let db' := [Reference.ana_record; deactivated 2000 Reference.maria_record] in
  let view :=
    UserService.removeSensitiveData (deactivated 2000 Reference.maria_record) in
  UserService.getUserById "id-1" "id-1" MEMBER "gym-1" db' = (Return view, db')
  /\ view !! "isActive" = Some (Js.JBool false)
  /\ AuthService.getProfile "id-1" db'
     = (Throw (ThrownApp (mkAppError "Usuário inativo" 403)), db').
Proof.
  intros db' view.
  destruct (getUserById_ignores_the_active_flag (Reference.runtime 2000 "")
              "id-1" "admin-1" ADMIN "gym-1" Reference.gym_table view db')
    as (Hself & Hflag & Hprofile & _); [reflexivity|].
  split; [apply Hself|]. split; [exact Hflag|exact Hprofile].
Defined.
